(** * Quake MDL / BSP loaders: a shallow embedding and its properties

    This development embeds the two scene-loader plugins of the viewer,
    [MDLFileLoader.importMesh] (animated models) and
    [BSPFileLoader.importMesh] (level geometry), together with the
    [BinaryReader] both are built on, their entry points [load] and
    [loadAssetContainer], and the callback of the viewer that blends the
    frames of a model before each rendering.

    Conventions of the embedding.
    - The [ArrayBuffer] is a [list byte]; the reader's [_byteOffset] is a [Z].
    - A [DataView] access outside the buffer raises [RangeError]; reading a
      property of [undefined] raises [TypeError].  Both are modelled, since
      the loaders contain no bounds checks of their own.
    - Typed arrays are lists updated in place: a write outside the array is
      dropped, a read outside it yields [undefined].
    - The objects of the host engine (meshes, textures, materials, morph
      targets) are records of the data the loaders hand to them; the
      caller's [meshes] array and the alerts are part of the state.
    - JavaScript numbers are kept abstract behind the class [Number]; the
      results hold for any interpretation of the arithmetic.  Two
      interpretations are given, to run the samples: [IeeeNumber], binary64
      arithmetic with binary32 array cells, which is what an engine
      computes, and [ExactNumber], exact rationals without rounding.
    - Of the engine only the list [mesh.subMeshes] is modelled, which the
      level loader fills together with the engine. *)

From Stdlib Require Import ZArith QArith Qround Lia List Strings.Byte SpecFloat.
From stdpp Require Import base list.

Local Open Scope Z_scope.

(** ** Completions of JavaScript code *)

Module Js.

Inductive JsError := RangeError | TypeError.

(** A statement either goes on with a value, leaves the enclosing
    function with [return b], or throws. *)
Inductive Result (A : Type) :=
| Ok (a : A)
| Return (b : bool)
| Throw (e : JsError).
Arguments Ok {A} a.
Arguments Return {A} b.
Arguments Throw {A} e.

(** Pure code that can only go on or throw. *)
Inductive Res (A : Type) :=
| ROk (a : A)
| RThrow (e : JsError).
Arguments ROk {A} a.
Arguments RThrow {A} e.

Definition rbind {A B} (m : Res A) (f : A -> Res B) : Res B :=
  match m with
  | ROk a => f a
  | RThrow e => RThrow e
  end.

(** [o.x] where [o] may be [undefined]. *)
Definition defined {A} (o : option A) : Res A :=
  match o with
  | Some a => ROk a
  | None => RThrow TypeError
  end.

(** [for (let i = i0; i < i0 + n; ++i) a = body(i, a)] for pure bodies. *)
Fixpoint for_res {A} (n : nat) (i : Z) (body : Z -> A -> Res A) (a : A) : Res A :=
  match n with
  | O => ROk a
  | S n' => rbind (body i a) (for_res n' (i + 1) body)
  end.

Fixpoint for_pure {A} (n : nat) (i : Z) (body : Z -> A -> A) (a : A) : A :=
  match n with
  | O => a
  | S n' => for_pure n' (i + 1) body (body i a)
  end.

(** Lists indexed by a JavaScript integer. *)
Definition zget {A} (l : list A) (i : Z) : option A :=
  if i <? 0 then None else l !! Z.to_nat i.

Definition zset {A} (l : list A) (i : Z) (x : A) : list A :=
  if i <? 0 then l else <[Z.to_nat i := x]> l.

(** [new Uint8Array(n)], [new Uint32Array(n)], [new Float32Array(n)] for an
    integral [n]: a negative length is a [RangeError].  (The engine's upper
    limit on array lengths is not modelled.) *)
Definition newTyped {A} (zero : A) (n : Z) : Res (list A) :=
  if n <? 0 then RThrow RangeError else ROk (replicate (Z.to_nat n) zero).

Definition toUint32 (v : Z) : Z := v mod 2 ^ 32.
Definition toInt32 (v : Z) : Z :=
  let u := v mod 2 ^ 32 in if u <? 2 ^ 31 then u else u - 2 ^ 32.
Definition toInt16 (v : Z) : Z :=
  let u := v mod 2 ^ 16 in if u <? 2 ^ 15 then u else u - 2 ^ 16.

(** Truthiness of an integer, and of a typed-array read. *)
Definition truthy (v : Z) : bool := negb (v =? 0).
Definition truthyAt (l : list Z) (i : Z) : bool :=
  match zget l i with
  | Some v => truthy v
  | None => false
  end.

End Js.
Import Js.

Notation "'let?' x ':=' m 'in' k" := (rbind m (fun x => k))
  (at level 10, x pattern, m at level 100, k at level 200).

(** ** Numbers *)

(** The operations the loaders apply to JavaScript numbers. *)
Class Number (num : Type) := {
  num_of_Z : Z -> num;             (* an integer used as a number *)
  num_of_float32_bits : Z -> num;  (* DataView.getFloat32 on a bit pattern *)
  num_of_micro : Z -> num;         (* a literal with six decimals, times 10^6 *)
  nhalf : num;                     (* the literal 0.5 *)
  nnan : num;                      (* undefined converted to a number *)
  nadd : num -> num -> num;
  nmul : num -> num -> num;
  ndiv : num -> num -> num;
  nneg : num -> num;
  fround : num -> num              (* a store into a Float32Array cell *)
}.

(** Exact rationals.  There is no NaN and no infinity here: bit patterns
    with exponent 255 and [undefined] are read as 0, and division by 0 is 0,
    so this interpretation is used only where indices are in range. *)
Definition float32_bits_to_Q (bits : Z) : Q :=
  let sign := Z.testbit bits 31 in
  let e := Z.land (Z.shiftr bits 23) 255 in
  let m := Z.land bits (2 ^ 23 - 1) in
  let mag :=
    (if e =? 0 then inject_Z m * Qpower 2 (-149)
     else if e =? 255 then 0
     else inject_Z (2 ^ 23 + m) * Qpower 2 (e - 150))%Q in
  (if sign then - mag else mag)%Q.

#[export] Instance ExactNumber : Number Q := {
  num_of_Z := inject_Z;
  num_of_float32_bits := float32_bits_to_Q;
  num_of_micro := fun z => (z # 1000000);
  nhalf := (1 # 2);
  nnan := 0%Q;
  nadd := Qplus;
  nmul := Qmult;
  ndiv := Qdiv;
  nneg := Qopp;
  fround := fun x => x
}.

(** IEEE 754 arithmetic: numbers are binary64, [Float32Array] cells are
    binary32, rounding is to nearest, ties to even. *)
Module Ieee.

Definition toBinary64 (x : spec_float) : spec_float :=
  match x with
  | S754_finite s m e => binary_normalize 53 1024 (cond_Zopp s (Zpos m)) e s
  | _ => x
  end.

Definition toBinary32 (x : spec_float) : spec_float :=
  match x with
  | S754_finite s m e => binary_normalize 24 128 (cond_Zopp s (Zpos m)) e s
  | _ => x
  end.

Definition ofZ (z : Z) : spec_float := binary_normalize 53 1024 z 0 false.

(** The value of a binary32 bit pattern. *)
Definition ofBits32 (bits : Z) : spec_float :=
  let sign := Z.testbit bits 31 in
  let e := Z.land (Z.shiftr bits 23) 255 in
  let m := Z.land bits (2 ^ 23 - 1) in
  if e =? 255 then (if m =? 0 then S754_infinity sign else S754_nan)
  else if e =? 0 then
    match m with
    | Zpos p => toBinary64 (S754_finite sign p (-149))
    | _ => S754_zero sign
    end
  else
    match 2 ^ 23 + m with
    | Zpos p => toBinary64 (S754_finite sign p (e - 150))
    | _ => S754_nan
    end.

(** The exact value of a finite float; 0 for the others. *)
Definition toQ (x : spec_float) : Q :=
  match x with
  | S754_finite s m e => Qred (inject_Z (cond_Zopp s (Zpos m)) * Qpower 2 e)
  | _ => 0%Q
  end.

#[export] Instance IeeeNumber : Number spec_float := {
  num_of_Z := ofZ;
  num_of_float32_bits := ofBits32;
  num_of_micro := fun z => SFdiv 53 1024 (ofZ z) (ofZ 1000000);
  nhalf := S754_finite false (2 ^ 52) (-53);
  nnan := S754_nan;
  nadd := SFadd 53 1024;
  nmul := SFmul 53 1024;
  ndiv := SFdiv 53 1024;
  nneg := SFopp;
  fround := fun x => toBinary64 (toBinary32 x)
}.

End Ieee.

(** ** Constant tables *)

(** The 162 precomputed vertex normals, in millionths. *)
Definition anormals_micro : list (Z * Z * Z) := [
    ((-525731), 0, 850651); ((-442863), 238856, 864188); ((-295242), 0, 955423);
    ((-309017), 500000, 809017); ((-162460), 262866, 951056); (0, 0, 1000000);
    (0, 850651, 525731); ((-147621), 716567, 681718); (147621, 716567, 681718);
    (0, 525731, 850651); (309017, 500000, 809017); (525731, 0, 850651);
    (295242, 0, 955423); (442863, 238856, 864188); (162460, 262866, 951056);
    ((-681718), 147621, 716567); ((-809017), 309017, 500000); ((-587785), 425325, 688191);
    ((-850651), 525731, 0); ((-864188), 442863, 238856); ((-716567), 681718, 147621);
    ((-688191), 587785, 425325); ((-500000), 809017, 309017); ((-238856), 864188, 442863);
    ((-425325), 688191, 587785); ((-716567), 681718, (-147621)); ((-500000), 809017, (-309017));
    ((-525731), 850651, 0); (0, 850651, (-525731)); ((-238856), 864188, (-442863));
    (0, 955423, (-295242)); ((-262866), 951056, (-162460)); (0, 1000000, 0);
    (0, 955423, 295242); ((-262866), 951056, 162460); (238856, 864188, 442863);
    (262866, 951056, 162460); (500000, 809017, 309017); (238856, 864188, (-442863));
    (262866, 951056, (-162460)); (500000, 809017, (-309017)); (850651, 525731, 0);
    (716567, 681718, 147621); (716567, 681718, (-147621)); (525731, 850651, 0);
    (425325, 688191, 587785); (864188, 442863, 238856); (688191, 587785, 425325);
    (809017, 309017, 500000); (681718, 147621, 716567); (587785, 425325, 688191);
    (955423, 295242, 0); (1000000, 0, 0); (951056, 162460, 262866);
    (850651, (-525731), 0); (955423, (-295242), 0); (864188, (-442863), 238856);
    (951056, (-162460), 262866); (809017, (-309017), 500000); (681718, (-147621), 716567);
    (850651, 0, 525731); (864188, 442863, (-238856)); (809017, 309017, (-500000));
    (951056, 162460, (-262866)); (525731, 0, (-850651)); (681718, 147621, (-716567));
    (681718, (-147621), (-716567)); (850651, 0, (-525731)); (809017, (-309017), (-500000));
    (864188, (-442863), (-238856)); (951056, (-162460), (-262866)); (147621, 716567, (-681718));
    (309017, 500000, (-809017)); (425325, 688191, (-587785)); (442863, 238856, (-864188));
    (587785, 425325, (-688191)); (688191, 587785, (-425325)); ((-147621), 716567, (-681718));
    ((-309017), 500000, (-809017)); (0, 525731, (-850651)); ((-525731), 0, (-850651));
    ((-442863), 238856, (-864188)); ((-295242), 0, (-955423)); ((-162460), 262866, (-951056));
    (0, 0, (-1000000)); (295242, 0, (-955423)); (162460, 262866, (-951056));
    ((-442863), (-238856), (-864188)); ((-309017), (-500000), (-809017)); ((-162460), (-262866), (-951056));
    (0, (-850651), (-525731)); ((-147621), (-716567), (-681718)); (147621, (-716567), (-681718));
    (0, (-525731), (-850651)); (309017, (-500000), (-809017)); (442863, (-238856), (-864188));
    (162460, (-262866), (-951056)); (238856, (-864188), (-442863)); (500000, (-809017), (-309017));
    (425325, (-688191), (-587785)); (716567, (-681718), (-147621)); (688191, (-587785), (-425325));
    (587785, (-425325), (-688191)); (0, (-955423), (-295242)); (0, (-1000000), 0);
    (262866, (-951056), (-162460)); (0, (-850651), 525731); (0, (-955423), 295242);
    (238856, (-864188), 442863); (262866, (-951056), 162460); (500000, (-809017), 309017);
    (716567, (-681718), 147621); (525731, (-850651), 0); ((-238856), (-864188), (-442863));
    ((-500000), (-809017), (-309017)); ((-262866), (-951056), (-162460)); ((-850651), (-525731), 0);
    ((-716567), (-681718), (-147621)); ((-716567), (-681718), 147621); ((-525731), (-850651), 0);
    ((-500000), (-809017), 309017); ((-238856), (-864188), 442863); ((-262866), (-951056), 162460);
    ((-864188), (-442863), 238856); ((-809017), (-309017), 500000); ((-688191), (-587785), 425325);
    ((-681718), (-147621), 716567); ((-442863), (-238856), 864188); ((-587785), (-425325), 688191);
    ((-309017), (-500000), 809017); ((-147621), (-716567), 681718); ((-425325), (-688191), 587785);
    ((-162460), (-262866), 951056); (442863, (-238856), 864188); (162460, (-262866), 951056);
    (309017, (-500000), 809017); (147621, (-716567), 681718); (0, (-525731), 850651);
    (425325, (-688191), 587785); (587785, (-425325), 688191); (688191, (-587785), 425325);
    ((-955423), 295242, 0); ((-951056), 162460, 262866); ((-1000000), 0, 0);
    ((-850651), 0, 525731); ((-955423), (-295242), 0); ((-951056), (-162460), 262866);
    ((-864188), 442863, (-238856)); ((-951056), 162460, (-262866)); ((-809017), 309017, (-500000));
    ((-864188), (-442863), (-238856)); ((-951056), (-162460), (-262866)); ((-809017), (-309017), (-500000));
    ((-681718), 147621, (-716567)); ((-681718), (-147621), (-716567)); ((-850651), 0, (-525731));
    ((-688191), 587785, (-425325)); ((-587785), 425325, (-688191)); ((-425325), 688191, (-587785));
    ((-425325), (-688191), (-587785)); ((-587785), (-425325), (-688191)); ((-688191), (-587785), (-425325))  ].

(** The Quake palette. *)
Definition colorMap : list (Z * Z * Z) := [
    (0, 0, 0); (15, 15, 15); (31, 31, 31); (47, 47, 47);
    (63, 63, 63); (75, 75, 75); (91, 91, 91); (107, 107, 107);
    (123, 123, 123); (139, 139, 139); (155, 155, 155); (171, 171, 171);
    (187, 187, 187); (203, 203, 203); (219, 219, 219); (235, 235, 235);
    (15, 11, 7); (23, 15, 11); (31, 23, 11); (39, 27, 15);
    (47, 35, 19); (55, 43, 23); (63, 47, 23); (75, 55, 27);
    (83, 59, 27); (91, 67, 31); (99, 75, 31); (107, 83, 31);
    (115, 87, 31); (123, 95, 35); (131, 103, 35); (143, 111, 35);
    (11, 11, 15); (19, 19, 27); (27, 27, 39); (39, 39, 51);
    (47, 47, 63); (55, 55, 75); (63, 63, 87); (71, 71, 103);
    (79, 79, 115); (91, 91, 127); (99, 99, 139); (107, 107, 151);
    (115, 115, 163); (123, 123, 175); (131, 131, 187); (139, 139, 203);
    (0, 0, 0); (7, 7, 0); (11, 11, 0); (19, 19, 0);
    (27, 27, 0); (35, 35, 0); (43, 43, 7); (47, 47, 7);
    (55, 55, 7); (63, 63, 7); (71, 71, 7); (75, 75, 11);
    (83, 83, 11); (91, 91, 11); (99, 99, 11); (107, 107, 15);
    (7, 0, 0); (15, 0, 0); (23, 0, 0); (31, 0, 0);
    (39, 0, 0); (47, 0, 0); (55, 0, 0); (63, 0, 0);
    (71, 0, 0); (79, 0, 0); (87, 0, 0); (95, 0, 0);
    (103, 0, 0); (111, 0, 0); (119, 0, 0); (127, 0, 0);
    (19, 19, 0); (27, 27, 0); (35, 35, 0); (47, 43, 0);
    (55, 47, 0); (67, 55, 0); (75, 59, 7); (87, 67, 7);
    (95, 71, 7); (107, 75, 11); (119, 83, 15); (131, 87, 19);
    (139, 91, 19); (151, 95, 27); (163, 99, 31); (175, 103, 35);
    (35, 19, 7); (47, 23, 11); (59, 31, 15); (75, 35, 19);
    (87, 43, 23); (99, 47, 31); (115, 55, 35); (127, 59, 43);
    (143, 67, 51); (159, 79, 51); (175, 99, 47); (191, 119, 47);
    (207, 143, 43); (223, 171, 39); (239, 203, 31); (255, 243, 27);
    (11, 7, 0); (27, 19, 0); (43, 35, 15); (55, 43, 19);
    (71, 51, 27); (83, 55, 35); (99, 63, 43); (111, 71, 51);
    (127, 83, 63); (139, 95, 71); (155, 107, 83); (167, 123, 95);
    (183, 135, 107); (195, 147, 123); (211, 163, 139); (227, 179, 151);
    (171, 139, 163); (159, 127, 151); (147, 115, 135); (139, 103, 123);
    (127, 91, 111); (119, 83, 99); (107, 75, 87); (95, 63, 75);
    (87, 55, 67); (75, 47, 55); (67, 39, 47); (55, 31, 35);
    (43, 23, 27); (35, 19, 19); (23, 11, 11); (15, 7, 7);
    (187, 115, 159); (175, 107, 143); (163, 95, 131); (151, 87, 119);
    (139, 79, 107); (127, 75, 95); (115, 67, 83); (107, 59, 75);
    (95, 51, 63); (83, 43, 55); (71, 35, 43); (59, 31, 35);
    (47, 23, 27); (35, 19, 19); (23, 11, 11); (15, 7, 7);
    (219, 195, 187); (203, 179, 167); (191, 163, 155); (175, 151, 139);
    (163, 135, 123); (151, 123, 111); (135, 111, 95); (123, 99, 83);
    (107, 87, 71); (95, 75, 59); (83, 63, 51); (67, 51, 39);
    (55, 43, 31); (39, 31, 23); (27, 19, 15); (15, 11, 7);
    (111, 131, 123); (103, 123, 111); (95, 115, 103); (87, 107, 95);
    (79, 99, 87); (71, 91, 79); (63, 83, 71); (55, 75, 63);
    (47, 67, 55); (43, 59, 47); (35, 51, 39); (31, 43, 31);
    (23, 35, 23); (15, 27, 19); (11, 19, 11); (7, 11, 7);
    (255, 243, 27); (239, 223, 23); (219, 203, 19); (203, 183, 15);
    (187, 167, 15); (171, 151, 11); (155, 131, 7); (139, 115, 7);
    (123, 99, 7); (107, 83, 0); (91, 71, 0); (75, 55, 0);
    (59, 43, 0); (43, 31, 0); (27, 15, 0); (11, 7, 0);
    (0, 0, 255); (11, 11, 239); (19, 19, 223); (27, 27, 207);
    (35, 35, 191); (43, 43, 175); (47, 47, 159); (47, 47, 143);
    (47, 47, 127); (47, 47, 111); (47, 47, 95); (43, 43, 79);
    (35, 35, 63); (27, 27, 47); (19, 19, 31); (11, 11, 15);
    (43, 0, 0); (59, 0, 0); (75, 7, 0); (95, 7, 0);
    (111, 15, 0); (127, 23, 7); (147, 31, 7); (163, 39, 11);
    (183, 51, 15); (195, 75, 27); (207, 99, 43); (219, 127, 59);
    (227, 151, 79); (231, 171, 95); (239, 191, 119); (247, 211, 139);
    (167, 123, 59); (183, 155, 55); (199, 195, 55); (231, 227, 87);
    (127, 191, 255); (171, 231, 255); (215, 255, 255); (103, 0, 0);
    (139, 0, 0); (179, 0, 0); (215, 0, 0); (255, 0, 0);
    (255, 243, 147); (255, 247, 199); (255, 255, 255); (159, 91, 83)  ].

(** ** The binary reader *)

Module BinaryReader.
Section Reader.
Context {num : Type} {N : Number num} {H : Type}.

(** The [ArrayBuffer] wrapped by the reader; it is never written. *)
Variable data : list byte.

(** The mutable state of a call: the reader's [_byteOffset] and the
    host-side objects the loader touches. *)
Record St := { cursor : Z; host : H }.

(** [new BinaryReader(arrayBuffer)] *)
Definition newBinaryReader (h : H) : St := {| cursor := 0; host := h |}.

Definition M (A : Type) : Type := St -> Result A * St.

Definition ret {A} (a : A) : M A := fun s => (Ok a, s).

Definition bind {A B} (m : M A) (f : A -> M B) : M B :=
  fun s =>
    match m s with
    | (Ok a, s') => f a s'
    | (Return b, s') => (Return b, s')
    | (Throw e, s') => (Throw e, s')
    end.

Definition js_return {A} (b : bool) : M A := fun s => (Return b, s).

Definition lift {A} (r : Res A) : M A :=
  fun s =>
    match r with
    | ROk a => (Ok a, s)
    | RThrow e => (Throw e, s)
    end.

Definition getHost : M H := fun s => (Ok (host s), s).

Definition setHost (h : H) : M unit :=
  fun s => (Ok tt, {| cursor := cursor s; host := h |}).

(** [for (let i = i0; i < i0 + n; ++i) a = body(i, a)]. *)
Fixpoint for_ {A} (n : nat) (i : Z) (body : Z -> A -> M A) (a : A) : M A :=
  match n with
  | O => ret a
  | S n' => bind (body i a) (for_ n' (i + 1) body)
  end.

(** *** DataView *)

Definition byteLength : Z := Z.of_nat (length data).

Definition inBounds (off n : Z) : bool :=
  (0 <=? off) && (off + n <=? byteLength).

Definition byteAt (off : Z) : Z :=
  match zget data off with
  | Some b => Z.of_N (Byte.to_N b)
  | None => 0
  end.

Definition getUint8 (off : Z) : Res Z :=
  if inBounds off 1 then ROk (byteAt off) else RThrow RangeError.

(** Little-endian composition. *)
Definition uint16At (off : Z) : Z :=
  byteAt off + 2 ^ 8 * byteAt (off + 1).

Definition uint32At (off : Z) : Z :=
  byteAt off + 2 ^ 8 * byteAt (off + 1)
  + 2 ^ 16 * byteAt (off + 2) + 2 ^ 24 * byteAt (off + 3).

Definition int32At (off : Z) : Z := toInt32 (uint32At off).

Definition getUint16 (off : Z) : Res Z :=
  if inBounds off 2 then ROk (uint16At off) else RThrow RangeError.

Definition getInt16 (off : Z) : Res Z :=
  let? u := getUint16 off in ROk (toInt16 u).

Definition getUint32 (off : Z) : Res Z :=
  if inBounds off 4 then ROk (uint32At off) else RThrow RangeError.

Definition getInt32 (off : Z) : Res Z :=
  if inBounds off 4 then ROk (int32At off) else RThrow RangeError.

Definition getFloat32 (off : Z) : Res num :=
  let? u := getUint32 off in ROk (num_of_float32_bits u).

(** *** BinaryReader methods: read at [_byteOffset], then advance. *)

Definition advance (n : Z) (s : St) : St :=
  {| cursor := cursor s + n; host := host s |}.

Definition readAt {A} (get : Z -> Res A) (width : Z) : M A :=
  fun s =>
    match get (cursor s) with
    | ROk v => (Ok v, advance width s)
    | RThrow e => (Throw e, s)
    end.

Definition getPosition : M Z := fun s => (Ok (cursor s), s).
Definition getLength : M Z := ret byteLength.

Definition readUint8 : M Z := readAt getUint8 1.
Definition readInt16 : M Z := readAt getInt16 2.
Definition readUint16 : M Z := readAt getUint16 2.
Definition readInt32 : M Z := readAt getInt32 4.
Definition readUint32 : M Z := readAt getUint32 4.
Definition readFloat32 : M num := readAt getFloat32 4.

(** [new Uint8Array(buffer, offset, length)]: a view, checked when made. *)
Definition viewUint8 (len off : Z) : Res (list Z) :=
  if (0 <=? len) && inBounds off len
  then ROk (map byteAt (map (fun i => off + Z.of_nat i) (seq 0 (Z.to_nat len))))
  else RThrow RangeError.

(** [new Uint32Array(buffer, offset, length)]: the offset must be a
    multiple of 4; elements are read little-endian. *)
Definition viewUint32 (len off : Z) : Res (list Z) :=
  if (0 <=? len) && (off mod 4 =? 0) && inBounds off (4 * len)
  then ROk (map (fun i => uint32At (off + 4 * Z.of_nat i)) (seq 0 (Z.to_nat len)))
  else RThrow RangeError.

Definition readUint8Array (length : Z) : M (list Z) :=
  readAt (viewUint8 length) length.

Definition readUint32Array (length : Z) : M (list Z) :=
  readAt (viewUint32 length) (4 * length).

Definition skipBytes (length : Z) : M unit :=
  fun s => (Ok tt, advance length s).

Definition seekBytes (offset : Z) : M unit :=
  fun s => (Ok tt, {| cursor := offset; host := host s |}).

End Reader.

Arguments St H : clear implicits.
Arguments M H A : clear implicits.
Arguments newBinaryReader {H} h.

End BinaryReader.
Import BinaryReader.

Notation "'let*' x ':=' m 'in' k" := (bind m (fun x => k))
  (at level 10, x pattern, m at level 100, k at level 200).

(** ** The model loader (MDLFileLoader.ts) *)

Module MDLFileLoader.
Section Loader.
Context {num : Type} {N : Number num}.

Definition Vector3 : Type := num * num * num.

Record Header := {
  scale : Vector3;
  translate : Vector3;
  numSkins : Z;
  skinWidth : Z;
  skinHeight : Z;
  numVertices : Z;
  numTriangles : Z;
  numFrames : Z
}.

Record Frame := {
  positions : list num;
  normals : list num
}.

(** Host objects, reduced to the data the loader hands to them. *)
Record RawTexture := {
  texture_data : list Z;
  texture_width : Z;
  texture_height : Z
}.

Record MorphTarget := {
  target_positions : list num;
  target_normals : list num;
  target_uvs : list num
}.

(** A mesh refers to its [MorphTargetManager] by its place in the store
    of managers: the manager is filled after the mesh has been pushed. *)
Record Mesh := {
  mesh_positions : list num;
  mesh_normals : list num;
  mesh_uvs : list num;
  mesh_indices : list Z;
  mesh_diffuseTexture : option RawTexture;
  mesh_morphTargetManager : nat
}.

Inductive Alert :=
| NotMDL                 (* "Not a Quake MDL or wrong MDL version." *)
| GroupSkin (index : Z). (* "Skin <index> is a group skin, ..." *)

(** [meshes] is the caller's [Nullable<AbstractMesh[]>]. *)
Record Host := {
  alerts : list Alert;
  meshes : option (list Mesh);
  managers : list (list MorphTarget)
}.

Variable data : list byte.

Local Abbreviation M := (BinaryReader.M Host).

Definition alert (a : Alert) : M unit :=
  let* h := getHost in
  setHost {| alerts := alerts h ++ [a]; meshes := meshes h; managers := managers h |}.

(** [new MorphTargetManager()] *)
Definition newManager : M nat :=
  let* h := getHost in
  let* _ := setHost {| alerts := alerts h; meshes := meshes h;
                       managers := managers h ++ [[]] |} in
  ret (length (managers h)).

(** [manager.addTarget(target)] *)
Definition addTarget (manager : nat) (target : MorphTarget) : M unit :=
  let* h := getHost in
  setHost {| alerts := alerts h; meshes := meshes h;
             managers := alter (fun ts => ts ++ [target]) manager (managers h) |}.

(** [meshes.push(mesh)]; [meshes] may be [null]. *)
Definition pushMesh (mesh : Mesh) : M unit :=
  let* h := getHost in
  match meshes h with
  | Some ms => setHost {| alerts := alerts h; meshes := Some (ms ++ [mesh]);
                          managers := managers h |}
  | None => lift (RThrow TypeError)
  end.

Definition anormals : list Vector3 :=
  map (fun '(a, b, c) => (num_of_micro a, num_of_micro b, num_of_micro c))
      anormals_micro.

(** A read of a [Float32Array] cell used as a number: [undefined] outside
    the array. *)
Definition readNum (a : list num) (i : Z) : num :=
  match zget a i with
  | Some v => v
  | None => nnan
  end.

Definition zeroNum : num := num_of_Z 0.

Definition readVector3 : M Vector3 :=
  let* a := readFloat32 data in
  let* b := readFloat32 data in
  let* c := readFloat32 data in
  ret (a, b, c).

(** [parseFrame(r, header)].  (The array [uvs] the source also allocates
    here is never used and is left out.) *)
Definition parseFrame (header : Header) : M Frame :=
  let* _ := skipBytes (2 * 4 + 16) in (* bboxmin, bboxmax, name[16] *)
  let* positions0 := lift (newTyped zeroNum (3 * numVertices header)) in
  let* normals0 := lift (newTyped zeroNum (3 * numVertices header)) in
  let '(sx, sy, sz) := scale header in
  let '(tx, ty, tz) := translate header in
  let* pn :=
    for_ (Z.to_nat (numVertices header)) 0
      (fun i '(positions, normals) =>
         let* bx := readUint8 data in
         let positions := zset positions (3 * i + 0) (fround (nadd (nmul (num_of_Z bx) sx) tx)) in
         let* by_ := readUint8 data in
         let positions := zset positions (3 * i + 1) (fround (nadd (nmul (num_of_Z by_) sy) ty)) in
         let* bz := readUint8 data in
         let positions := zset positions (3 * i + 2) (fround (nadd (nmul (num_of_Z bz) sz) tz)) in
         let* normalIndex := readUint8 data in
         let* (n0, n1, n2) := lift (defined (zget anormals normalIndex)) in
         let normals := zset normals (3 * i + 0) (fround n0) in
         let normals := zset normals (3 * i + 1) (fround n1) in
         let normals := zset normals (3 * i + 2) (fround n2) in
         ret (positions, normals))
      (positions0, normals0) in
  ret {| positions := fst pn; normals := snd pn |}.

(** The per-corner expansion of one frame (the block that fills
    [positions2], [normals2] and [uvs2]); it reads no file data. *)
Definition expandCorner (header : Header) (indices onSeam faceFront : list Z)
    (uvs : list num) (frame : Frame) (i j : Z)
    (acc : list num * list num * list num) : list num * list num * list num :=
  let '(positions2, normals2, uvs2) := acc in
  let idx := 3 * i + j in
  let vertexIndex := match zget indices idx with Some v => v | None => -1 end in
  let positions2 := zset positions2 (3 * idx + 0) (fround (readNum (positions frame) (3 * vertexIndex + 0))) in
  let positions2 := zset positions2 (3 * idx + 1) (fround (readNum (positions frame) (3 * vertexIndex + 1))) in
  let positions2 := zset positions2 (3 * idx + 2) (fround (readNum (positions frame) (3 * vertexIndex + 2))) in
  let normals2 := zset normals2 (3 * idx + 0) (fround (readNum (normals frame) (3 * vertexIndex + 0))) in
  let normals2 := zset normals2 (3 * idx + 1) (fround (readNum (normals frame) (3 * vertexIndex + 1))) in
  let normals2 := zset normals2 (3 * idx + 2) (fround (readNum (normals frame) (3 * vertexIndex + 2))) in
  let uvs2 := zset uvs2 (2 * idx + 0) (fround (readNum uvs (2 * vertexIndex + 0))) in
  let uvs2 := zset uvs2 (2 * idx + 1) (fround (readNum uvs (2 * vertexIndex + 1))) in
  let s := readNum uvs (2 * vertexIndex + 0) in
  let t := readNum uvs (2 * vertexIndex + 1) in
  let s :=
    if negb (truthyAt faceFront i) && truthyAt onSeam vertexIndex
    then nadd s (nmul nhalf (num_of_Z (skinWidth header)))
    else s in
  let uvs2 := zset uvs2 (2 * idx + 0) (fround (ndiv (nadd s nhalf) (num_of_Z (skinWidth header)))) in
  let uvs2 := zset uvs2 (2 * idx + 1) (fround (ndiv (nadd t nhalf) (num_of_Z (skinHeight header)))) in
  (positions2, normals2, uvs2).

Definition expandFrame (header : Header) (indices onSeam faceFront : list Z)
    (uvs : list num) (frame : Frame) : Res MorphTarget :=
  let? positions2 := newTyped zeroNum (3 * 3 * numTriangles header) in
  let? normals2 := newTyped zeroNum (3 * 3 * numTriangles header) in
  let? uvs2 := newTyped zeroNum (2 * 3 * numTriangles header) in
  let '(positions2, normals2, uvs2) :=
    for_pure (Z.to_nat (numTriangles header)) 0
      (fun i acc =>
         for_pure 3 0 (expandCorner header indices onSeam faceFront uvs frame i) acc)
      (positions2, normals2, uvs2) in
  ROk {| target_positions := positions2;
         target_normals := normals2;
         target_uvs := uvs2 |}.

Definition readHeader : M Header :=
  let* scale := readVector3 in
  let* translate := readVector3 in
  let* _ := skipBytes (4 * 4) in (* float boundingradius, vec3 eyepos *)
  let* numSkins := readInt32 data in
  let* skinWidth := readInt32 data in
  let* skinHeight := readInt32 data in
  let* numVertices := readInt32 data in
  let* numTriangles := readInt32 data in
  let* numFrames := readInt32 data in
  let* _ := skipBytes (4 * 3) in (* int synctype, int flags, float size *)
  ret {| scale := scale; translate := translate; numSkins := numSkins;
         skinWidth := skinWidth; skinHeight := skinHeight;
         numVertices := numVertices; numTriangles := numTriangles;
         numFrames := numFrames |}.

(** One turn of the skin loop. *)
Definition readSkin (header : Header) (index : Z) (textures : list RawTexture)
    : M (list RawTexture) :=
  let* group := readInt32 data in
  if negb (group =? 0) then
    let* _ := alert (GroupSkin index) in
    js_return false
  else
    let* data0 := lift (newTyped 0 (3 * skinWidth header * skinHeight header)) in
    let* data1 :=
      for_ (Z.to_nat (skinWidth header * skinHeight header)) 0
        (fun i d =>
           let* b := readUint8 data in
           let* (c0, c1, c2) := lift (defined (zget colorMap b)) in
           ret (zset (zset (zset d (3 * i + 0) c0) (3 * i + 1) c1) (3 * i + 2) c2))
        data0 in
    ret (textures ++ [{| texture_data := data1;
                         texture_width := skinWidth header;
                         texture_height := skinHeight header |}]).

(** The shared texture-coordinate table: [onSeam] and [uvs]. *)
Definition readUVs (header : Header) : M (list Z * list num) :=
  let* onSeam0 := lift (newTyped 0 (numVertices header)) in
  let* uvs0 := lift (newTyped zeroNum (2 * numVertices header)) in
  for_ (Z.to_nat (numVertices header)) 0
    (fun i '(onSeam, uvs) =>
       let* a := readInt32 data in
       let onSeam := zset onSeam i (toUint32 a) in
       let* s := readInt32 data in
       let uvs := zset uvs (2 * i + 0) (fround (num_of_Z s)) in
       let* t := readInt32 data in
       let uvs := zset uvs (2 * i + 1) (fround (num_of_Z t)) in
       ret (onSeam, uvs))
    (onSeam0, uvs0).

(** The triangle table: [indices] and [faceFront].  (The array [backside]
    the source also fills here is never read and is left out.) *)
Definition readTriangles (header : Header) : M (list Z * list Z) :=
  let* indices0 := lift (newTyped 0 (3 * numTriangles header)) in
  let* faceFront0 := lift (newTyped 0 (numTriangles header)) in
  for_ (Z.to_nat (numTriangles header)) 0
    (fun i '(indices, faceFront) =>
       let* facesFront := readInt32 data in
       let faceFront := zset faceFront i (toUint32 facesFront) in
       let* indices :=
         for_ 3 0
           (fun j indices =>
              let* vertexIndex := readInt32 data in
              ret (zset indices (3 * i + j) (toUint32 vertexIndex)))
           indices in
       ret (indices, faceFront))
    (indices0, faceFront0).

(** One turn of the frame loop. *)
Definition readFrameRecord (header : Header) (indices onSeam faceFront : list Z)
    (uvs : list num) (manager : nat) : M unit :=
  let* type := readInt32 data in
  if type =? 0 then
    (* non-group frame *)
    let* frame := parseFrame header in
    let* target := lift (expandFrame header indices onSeam faceFront uvs frame) in
    addTarget manager target
  else
    let* numFramesInGroup := readInt32 data in
    let* _ := skipBytes (3 * 4) in (* min, max *)
    let* _ := skipBytes (4 * numFramesInGroup) in (* interval *)
    for_ (Z.to_nat numFramesInGroup) 0
      (fun j _ => let* frame := parseFrame header in ret tt) tt.

Definition importMeshBody : M bool :=
  let* magic := readInt32 data in
  if negb (magic =? 1330660425) then
    let* _ := alert NotMDL in js_return false
  else
  let* version := readInt32 data in
  if negb (version =? 6) then
    let* _ := alert NotMDL in js_return false
  else
  let* header := readHeader in
  let* textures := for_ (Z.to_nat (numSkins header)) 0 (readSkin header) [] in
  let* (onSeam, uvs) := readUVs header in
  let* (indices, faceFront) := readTriangles header in
  let* indices2_0 := lift (newTyped 0 (3 * numTriangles header)) in
  let indices2 :=
    for_pure (Z.to_nat (numTriangles header)) 0
      (fun i a =>
         for_pure 3 0 (fun j a => zset a (3 * i + j) (toUint32 (j + 3 * i))) a)
      indices2_0 in
  let* positions0 := lift (newTyped zeroNum (3 * 3 * numTriangles header)) in
  let* normals0 := lift (newTyped zeroNum (3 * 3 * numTriangles header)) in
  let* uvs0 := lift (newTyped zeroNum (2 * 3 * numTriangles header)) in
  let* manager := newManager in
  let* _ := pushMesh {| mesh_positions := positions0;
                        mesh_normals := normals0;
                        mesh_uvs := uvs0;
                        mesh_indices := indices2;
                        mesh_diffuseTexture := textures !! 0%nat;
                        mesh_morphTargetManager := manager |} in
  let* _ :=
    for_ (Z.to_nat (numFrames header)) 0
      (fun i _ => readFrameRecord header indices onSeam faceFront uvs manager) tt in
  js_return true.

(** [importMesh(meshesNames, scene, data, rootUrl, meshes, ...)]: the
    result is [Return b] for [return b] and [Throw e] for an exception;
    the final state holds the caller's [meshes] array. *)
Definition importMesh (h : Host) : Result bool * St Host :=
  importMeshBody (newBinaryReader h).

(** [load(scene, data, rootUrl)]: [importMesh] with [null] for [meshes]. *)
Definition load (h : Host) : Result bool * St Host :=
  importMesh {| alerts := alerts h; meshes := None; managers := managers h |}.

(** [loadAssetContainer(scene, data, rootUrl, onError)]: [importMesh] fills
    the [meshes] array of a new container, which starts empty; its result
    is dropped and the container returned.  An exception of [importMesh]
    goes on to the caller. *)
Definition loadAssetContainer (h : Host) : Res (list Mesh) :=
  let r := importMesh {| alerts := alerts h; meshes := Some []; managers := managers h |} in
  match fst r with
  | Throw e => RThrow e
  | _ => ROk (match meshes (host (snd r)) with Some ms => ms | None => [] end)
  end.

End Loader.
End MDLFileLoader.

(** ** The level loader (BSP) *)

Module BSPFileLoader.
Section Loader.
Context {num : Type} {N : Number num}.

Definition Vector2 : Type := Z * Z.
Definition Vector3 : Type := num * num * num.
Definition Vector4 : Type := num * num * num * num.

(** A directory count is [readInt32() / size]: it is kept as the exact
    fraction, since the division is not rounded to an integer. *)
Record Count := { count_bytes : Z; count_size : Z }.

Record DirectoryEntry := { offset : Z; count : Count }.

Record Header := {
  planes : DirectoryEntry;
  miptex : DirectoryEntry;
  vertices : DirectoryEntry;
  texinfo : DirectoryEntry;
  faces : DirectoryEntry;
  edges : DirectoryEntry;
  ledges : DirectoryEntry
}.

Record Plane := {
  plane_normal : Vector3;
  plane_distance : num;
  plane_type : Z
}.

Record Face := {
  planeIndex : Z;
  side : bool;
  ledgeIndex : Z;
  numLedges : Z;
  texInfoIndex : Z;
  lightType : Z;
  baseLight : Z;
  light : Vector2;
  lightMap : Z
}.

Record Texinfo := {
  texinfo_s : Vector4;
  texinfo_t : Vector4;
  texinfo_miptex : Z;
  texinfo_flags : Z
}.

Record Miptex := {
  miptex_name : list Z;
  miptex_width : Z;
  miptex_height : Z;
  miptex_offsets : Z * Z * Z * Z
}.

(** Host objects, reduced to the data the loader hands to them. *)
Record Material := {
  material_name : list Z;
  material_data : list Z;
  material_width : Z;
  material_height : Z
}.

Record SubMesh := {
  materialIndex : Z;
  verticesStart : Z;
  verticesCount : Z;
  indexStart : Z;
  indexCount : Z
}.

Record VertexData := {
  vd_positions : list num;
  vd_uvs : list num;
  vd_indices : list Z
}.

(** [mesh.subMeshes] is [undefined] until the engine gives the mesh its
    first sub-mesh. *)
Record Mesh := {
  mesh_vertexData : VertexData;
  mesh_material : list Material;
  mesh_subMeshes : option (list SubMesh)
}.

Inductive Alert :=
| NotBSP. (* "Not a Quake BSP or wrong MDL version." *)

Record Host := {
  alerts : list Alert;
  meshes : option (list Mesh)
}.

Variable data : list byte.

Local Abbreviation M := (BinaryReader.M Host).

Definition alert (a : Alert) : M unit :=
  let* h := getHost in
  setHost {| alerts := alerts h ++ [a]; meshes := meshes h |}.

Definition pushMesh (mesh : Mesh) : M unit :=
  let* h := getHost in
  match meshes h with
  | Some ms => setHost {| alerts := alerts h; meshes := Some (ms ++ [mesh]) |}
  | None => lift (RThrow TypeError)
  end.

(** [new Array(count)]: the length must be an integer in [0, 2^32). *)
Definition newArrayLength (c : Count) : Res Z :=
  if (count_bytes c mod count_size c =? 0) && (0 <=? count_bytes c / count_size c)
     && (count_bytes c / count_size c <? 2 ^ 32)
  then ROk (count_bytes c / count_size c)
  else RThrow RangeError.

(** [new Int32Array(count)]: the length is truncated towards zero. *)
Definition typedArrayLength (c : Count) : Res Z :=
  if Z.quot (count_bytes c) (count_size c) <? 0
  then RThrow RangeError
  else ROk (Z.quot (count_bytes c) (count_size c)).

(** The number of turns of [for (let i = 0; i < count; ++i)]. *)
Definition turns (c : Count) : nat :=
  Z.to_nat ((count_bytes c + count_size c - 1) / count_size c).

Definition readEntry (size : Z) : M DirectoryEntry :=
  let* o := readInt32 data in
  let* c := readInt32 data in
  ret {| offset := o; count := {| count_bytes := c; count_size := size |} |}.

Definition readHeader : M Header :=
  let* _ := skipBytes 8 in (* entities *)
  let* planes := readEntry 20 in
  let* miptex := readEntry 1 in
  let* vertices := readEntry 12 in
  let* _ := skipBytes (2 * 8) in (* vislist+nodes *)
  let* texinfo := readEntry 40 in
  let* faces := readEntry 20 in
  let* _ := skipBytes (4 * 8) in (* lightmaps+clipnodes+leaves+lface *)
  let* edges := readEntry 4 in
  let* ledges := readEntry 4 in
  let* _ := skipBytes 8 in (* models *)
  ret {| planes := planes; miptex := miptex; vertices := vertices;
         texinfo := texinfo; faces := faces; edges := edges; ledges := ledges |}.

Definition one : num := num_of_Z 1.
Definition ten : num := num_of_Z 10.
Definition zeroNum : num := num_of_Z 0.

(** [a.divide(b)] on [Vector3], [a.multiply(b)] on [Vector4]. *)
Definition Vector3_divide (a b : Vector3) : Vector3 :=
  let '(ax, ay, az) := a in
  let '(bx, by_, bz) := b in
  (ndiv ax bx, ndiv ay by_, ndiv az bz).

Definition Vector4_multiply (a b : Vector4) : Vector4 :=
  let '(ax, ay, az, aw) := a in
  let '(bx, by_, bz, bw) := b in
  (nmul ax bx, nmul ay by_, nmul az bz, nmul aw bw).

Definition dot (a b : Vector4) : num :=
  let '(ax, ay, az, aw) := a in
  let '(bx, by_, bz, bw) := b in
  nadd (nadd (nadd (nmul ax bx) (nmul ay by_)) (nmul az bz)) (nmul aw bw).

(** *** Section decoders *)

Definition readVertices (header : Header) : M (list Vector3) :=
  let* _ := seekBytes (offset (vertices header)) in
  let* n := lift (newArrayLength (count (vertices header))) in
  for_ (Z.to_nat n) 0
    (fun i vs =>
       let* a := readFloat32 data in
       let* b := readFloat32 data in
       let* c := readFloat32 data in
       ret (vs ++ [Vector3_divide (a, b, c) (ten, ten, ten)]))
    [].

Definition readEdges (header : Header) : M (list Vector2) :=
  let* _ := seekBytes (offset (edges header)) in
  let* n := lift (newArrayLength (count (edges header))) in
  for_ (Z.to_nat n) 0
    (fun i es =>
       let* a := readUint16 data in
       let* b := readUint16 data in
       ret (es ++ [(a, b)]))
    [].

Definition readVector4 : M Vector4 :=
  let* a := readFloat32 data in
  let* b := readFloat32 data in
  let* c := readFloat32 data in
  let* d := readFloat32 data in
  ret (a, b, c, d).

Definition readTexinfos (header : Header) : M (list Texinfo) :=
  let* _ := seekBytes (offset (texinfo header)) in
  let* n := lift (newArrayLength (count (texinfo header))) in
  for_ (Z.to_nat n) 0
    (fun i ts =>
       let* s := readVector4 in
       let* t := readVector4 in
       let* miptex := readUint32 data in
       let* flags := readUint32 data in
       ret (ts ++ [{| texinfo_s := s; texinfo_t := t;
                      texinfo_miptex := miptex; texinfo_flags := flags |}]))
    [].

(** Remove everything after the first null byte. *)
Fixpoint untilNull (array : list Z) : list Z :=
  match array with
  | [] => []
  | v :: rest => if v =? 0 then [] else v :: untilNull rest
  end.

Definition offsetAt (miptexOffsets : list Z) (i : Z) : Z :=
  match zget miptexOffsets i with
  | Some o => o
  | None => 0
  end.

Definition readMiptexs (header : Header) (miptexCount : Z) (miptexOffsets : list Z)
    : M (list Miptex) :=
  for_ (Z.to_nat miptexCount) 0
    (fun i ms =>
       let* _ := seekBytes (offset (miptex header) + offsetAt miptexOffsets i) in
       let* array := readUint8Array data 16 in
       let name := untilNull array in
       let* width := readUint32 data in
       let* height := readUint32 data in
       let* o0 := readUint32 data in
       let* o1 := readUint32 data in
       let* o2 := readUint32 data in
       let* o3 := readUint32 data in
       ret (ms ++ [{| miptex_name := name; miptex_width := width;
                      miptex_height := height; miptex_offsets := (o0, o1, o2, o3) |}]))
    [].

Definition readMaterials (header : Header) (miptexCount : Z) (miptexOffsets : list Z)
    (miptexs : list Miptex) : M (list Material) :=
  for_ (Z.to_nat miptexCount) 0
    (fun i subMaterials =>
       let* m := lift (defined (zget miptexs i)) in
       let '(o0, _, _, _) := miptex_offsets m in
       let* _ := seekBytes (offset (miptex header) + offsetAt miptexOffsets i + o0) in
       let width := miptex_width m in
       let height := miptex_height m in
       let* data0 := lift (newTyped 0 (3 * width * height)) in
       let* data1 :=
         for_ (Z.to_nat (width * height)) 0
           (fun j d =>
              let* b := readUint8 data in
              let* (c0, c1, c2) := lift (defined (zget colorMap b)) in
              ret (zset (zset (zset d (3 * j + 0) c0) (3 * j + 1) c1) (3 * j + 2) c2))
           data0 in
       ret (subMaterials ++ [{| material_name := miptex_name m; material_data := data1;
                                material_width := width; material_height := height |}]))
    [].

Definition readLedges (header : Header) : M (list Z) :=
  let* _ := seekBytes (offset (ledges header)) in
  let* n := lift (typedArrayLength (count (ledges header))) in
  for_ (turns (count (ledges header))) 0
    (fun i ls => let* v := readInt32 data in ret (zset ls i v))
    (replicate (Z.to_nat n) 0).

Definition readPlanes (header : Header) : M (list Plane) :=
  let* _ := seekBytes (offset (planes header)) in
  let* n := lift (newArrayLength (count (planes header))) in
  for_ (Z.to_nat n) 0
    (fun i ps =>
       let* a := readFloat32 data in
       let* b := readFloat32 data in
       let* c := readFloat32 data in
       let* distance := readFloat32 data in
       let* type := readUint32 data in
       ret (ps ++ [{| plane_normal := (a, b, c); plane_distance := distance;
                      plane_type := type |}]))
    [].

Definition readFace : M Face :=
  let* planeIndex := readUint16 data in
  let* side := readUint16 data in
  let* ledgeIndex := readInt32 data in
  let* numLedges := readUint16 data in
  let* texInfoIndex := readInt16 data in
  let* lightType := readUint8 data in
  let* baseLight := readUint8 data in
  let* l0 := readUint8 data in
  let* l1 := readUint8 data in
  let* lightMap := readUint32 data in
  ret {| planeIndex := planeIndex; side := truthy side; ledgeIndex := ledgeIndex;
         numLedges := numLedges; texInfoIndex := texInfoIndex;
         lightType := lightType; baseLight := baseLight; light := (l0, l1);
         lightMap := lightMap |}.

(** The face table, with the running triangle count kept in
    [faceOffsets] (a [Uint32Array]) and [numTriangles]. *)
Definition countFace (i : Z) (face : Face) (acc : list Z * Z) : list Z * Z :=
  let '(faceOffsets, numTriangles) := acc in
  let numTriangles := numTriangles + (numLedges face - 2) in
  (zset faceOffsets (i + 1) (toUint32 numTriangles), numTriangles).

Definition readFaces (header : Header) : M (list Face * (list Z * Z)) :=
  let* _ := seekBytes (offset (faces header)) in
  let* n := lift (newArrayLength (count (faces header))) in
  let* faceOffsets := lift (newTyped 0 (n + 1)) in
  for_ (Z.to_nat n) 0
    (fun i '(fs, acc) =>
       let* face := readFace in
       ret (fs ++ [face], countFace i face acc))
    ([], (faceOffsets, 0)).

(** *** Geometry *)

(** Extract polygon: walk [numLedges] entries of the edge list. *)
Definition extractPolygon (edges : list Vector2) (ledges : list Z) (start : Z)
    (numLedges : Z) : Res (list Z) :=
  for_res (Z.to_nat numLedges) start
    (fun j polygon =>
       let? edgeIndex := defined (zget ledges j) in
       let? edge := defined (zget edges (Z.abs edgeIndex)) in
       ROk (polygon ++ [if edgeIndex <? 0 then fst edge else snd edge]))
    [].

(** One corner [k] of triangle [index], at polygon vertex [tk]. *)
Definition emitCorner (vertices : list Vector3) (texinfo : Texinfo)
    (miptex : option Miptex) (index k tk : Z) (vd : VertexData) : Res VertexData :=
  let? (vx, vy, vz) := defined (zget vertices tk) in
  let positions := vd_positions vd in
  let positions := zset positions (9 * index + (3 * k + 0)) (fround vx) in
  let positions := zset positions (9 * index + (3 * k + 1)) (fround vy) in
  let positions := zset positions (9 * index + (3 * k + 2)) (fround vz) in
  let v := Vector4_multiply (vx, vy, vz, one) (ten, ten, ten, one) in
  let? m := defined miptex in
  let uvs := vd_uvs vd in
  let uvs := zset uvs (6 * index + (2 * k + 0))
               (fround (ndiv (dot v (texinfo_s texinfo)) (num_of_Z (miptex_width m)))) in
  let uvs := zset uvs (6 * index + (2 * k + 1))
               (fround (ndiv (nneg (dot v (texinfo_t texinfo))) (num_of_Z (miptex_height m)))) in
  let indices := zset (vd_indices vd) (3 * index + k) (toUint32 (3 * index + k)) in
  ROk {| vd_positions := positions; vd_uvs := uvs; vd_indices := indices |}.

(** Triangulate polygon: a fan around [polygon[0]]. *)
Definition emitTriangle (vertices : list Vector3) (texinfo : Texinfo)
    (miptex : option Miptex) (polygon : list Z) (offset_i : Z) (j : Z)
    (vd : VertexData) : Res VertexData :=
  let index := offset_i + j in
  let? t0 := defined (zget polygon 0) in
  let? t1 := defined (zget polygon (j + 1)) in
  let? t2 := defined (zget polygon (j + 2)) in
  let? vd := emitCorner vertices texinfo miptex index 0 t0 vd in
  let? vd := emitCorner vertices texinfo miptex index 1 t1 vd in
  emitCorner vertices texinfo miptex index 2 t2 vd.

Definition emitFace (vertices : list Vector3) (edges : list Vector2)
    (texinfos : list Texinfo) (miptexs : list Miptex) (ledges : list Z)
    (faceOffsets : list Z) (i : Z) (face : Face) (vd : VertexData) : Res VertexData :=
  let start := ledgeIndex face in
  let? texinfo := defined (zget texinfos (texInfoIndex face)) in
  let miptex := zget miptexs (texinfo_miptex texinfo) in
  let? polygon := extractPolygon edges ledges start (numLedges face) in
  let numTriangles := Z.of_nat (length polygon) - 2 in
  let offset_i := match zget faceOffsets i with Some o => o | None => 0 end in
  for_res (Z.to_nat numTriangles) 0
    (emitTriangle vertices texinfo miptex polygon offset_i) vd.

Definition buildGeometry (vertices : list Vector3) (edges : list Vector2)
    (texinfos : list Texinfo) (miptexs : list Miptex) (ledges : list Z)
    (fs : list Face) (faceOffsets : list Z) (numTriangles : Z) : Res VertexData :=
  let? positions := newTyped zeroNum (9 * numTriangles) in
  let? uvs := newTyped zeroNum (6 * numTriangles) in
  let? indices := newTyped 0 (3 * numTriangles) in
  for_res (length fs) 0
    (fun i vd =>
       let? face := defined (zget fs i) in
       emitFace vertices edges texinfos miptexs ledges faceOffsets i face vd)
    {| vd_positions := positions; vd_uvs := uvs; vd_indices := indices |}.

(** *** Sub-meshes *)

(** The part of the engine (Babylon.js) in the list [mesh.subMeshes].
    [vertexData.applyToMesh(mesh)] on a new mesh leaves it with one global
    sub-mesh, over all vertices and all indices, when the geometry has at
    least one vertex; with no vertex it makes none and [mesh.subMeshes]
    stays [undefined]. *)
Definition applyToMesh (vd : VertexData) : option (list SubMesh) :=
  let totalVertices := Z.of_nat (length (vd_positions vd)) / 3 in
  if totalVertices =? 0 then None
  else Some [{| materialIndex := 0;
                verticesStart := 0;
                verticesCount := totalVertices;
                indexStart := 0;
                indexCount := Z.of_nat (length (vd_indices vd)) |}].

(** [new SubMesh(..., mesh)]: the constructor appends the new sub-mesh to
    [mesh.subMeshes] itself. *)
Definition newSubMesh (sm : SubMesh) (subMeshes : option (list SubMesh))
    : Res (list SubMesh) :=
  let? l := defined subMeshes in ROk (l ++ [sm]).

(** The sub-mesh loop: a [SubMesh] per face, made for the mesh and then
    pushed to [mesh.subMeshes] once more; [subMeshes] is the list as
    [applyToMesh] left it. *)
Definition buildSubMeshes (texinfos : list Texinfo) (fs : list Face)
    (faceOffsets : list Z) (subMeshes : option (list SubMesh))
    : Res (option (list SubMesh)) :=
  for_res (length fs) 0
    (fun i subMeshes =>
       let? face := defined (zget fs i) in
       let? texinfo := defined (zget texinfos (texInfoIndex face)) in
       let start := match zget faceOffsets i with Some o => o | None => 0 end in
       let end_ := match zget faceOffsets (i + 1) with Some o => o | None => 0 end in
       let num_ := end_ - start in
       let subMesh := {| materialIndex := texinfo_miptex texinfo;
                         verticesStart := 9 * start;
                         verticesCount := 9 * num_;
                         indexStart := 3 * start;
                         indexCount := 3 * num_ |} in
       let? l := newSubMesh subMesh subMeshes in
       ROk (Some (l ++ [subMesh])))
    subMeshes.

Definition importMeshBody : M bool :=
  (* Could handle BSP2 with version number 844124994 (ie. 'BSP2') too. *)
  let* magic := readInt32 data in
  if negb (magic =? 29) then
    let* _ := alert NotBSP in js_return false
  else
  let* header := readHeader in
  let* vertices := readVertices header in
  let* edges := readEdges header in
  let* texinfos := readTexinfos header in
  let* _ := seekBytes (offset (miptex header)) in
  let* miptexCount := readUint32 data in
  let* miptexOffsets := readUint32Array data miptexCount in
  let* miptexs := readMiptexs header miptexCount miptexOffsets in
  let* subMaterials := readMaterials header miptexCount miptexOffsets miptexs in
  let* ledges := readLedges header in
  let* planes := readPlanes header in
  let* (fs, (faceOffsets, numTriangles)) := readFaces header in
  let* vertexData :=
    lift (buildGeometry vertices edges texinfos miptexs ledges fs faceOffsets numTriangles) in
  let* subMeshes :=
    lift (buildSubMeshes texinfos fs faceOffsets (applyToMesh vertexData)) in
  let* _ := pushMesh {| mesh_vertexData := vertexData;
                        mesh_material := subMaterials;
                        mesh_subMeshes := subMeshes |} in
  js_return true.

Definition importMesh (h : Host) : Result bool * St Host :=
  importMeshBody (newBinaryReader h).

(** [load(scene, data, rootUrl)]: [importMesh] with [null] for [meshes]. *)
Definition load (h : Host) : Result bool * St Host :=
  importMesh {| alerts := alerts h; meshes := None |}.

(** [loadAssetContainer(scene, data, rootUrl, onError)]: [importMesh] fills
    the [meshes] array of a new container, which starts empty; its result
    is dropped and the container returned.  An exception of [importMesh]
    goes on to the caller. *)
Definition loadAssetContainer (h : Host) : Res (list Mesh) :=
  let r := importMesh {| alerts := alerts h; meshes := Some [] |} in
  match fst r with
  | Throw e => RThrow e
  | _ => ROk (match meshes (host (snd r)) with Some ms => ms | None => [] end)
  end.

End Loader.
End BSPFileLoader.

(** ** The render callback of the viewer (index.ts) *)

Module Viewer.

(** What the callback registered with [scene.registerBeforeRender] works
    on: the global [time] of the script and the morph-target manager of
    the first mesh, seen through the [influence] of each of its targets.
    [time] starts at 0 and moves in steps of 0.25, so it stays a multiple
    of 0.25, which a binary64 number holds exactly (below [2^51]); the
    arithmetic of the callback is then exact, and the numbers are
    rationals here. *)
Record State := { time : Q; influences : list Q }.

(** [x % n] on numbers: the remainder of the division rounded towards
    zero. *)
Definition truncate (x : Q) : Z := if Qle_bool 0 x then Qfloor x else Qceiling x.

Definition remainder (x n : Q) : Q := (x - n * inject_Z (truncate (x / n)))%Q.

(** [manager.getTarget(i).influence = v]; [getTarget] yields [undefined]
    outside the targets. *)
Definition setInfluence (i : Z) (v : Q) (l : list Q) : Res (list Q) :=
  let? _ := defined (zget l i) in ROk (zset l i v).

(** One call of the callback: the completion and the state it leaves. *)
Definition beforeRender (st : State) : Res unit * State :=
  let numTargets := Z.of_nat (length (influences st)) in
  if numTargets <? 2 then
    match setInfluence 0 1 (influences st) with
    | ROk l => (ROk tt, {| time := time st; influences := l |})
    | RThrow e => (RThrow e, st)
    end
  else
    let frameIndex := Qfloor (remainder (time st) (inject_Z numTargets)) in
    let alpha := (remainder (time st) (inject_Z numTargets) - inject_Z frameIndex)%Q in
    let time' := (time st + (1 # 4))%Q in
    let l0 :=
      for_pure (length (influences st)) 0 (fun i l => zset l i 0%Q) (influences st) in
    match setInfluence frameIndex (1 - alpha)%Q l0 with
    | RThrow e => (RThrow e, {| time := time'; influences := l0 |})
    | ROk l1 =>
        match setInfluence (Z.rem (frameIndex + 1) numTargets) alpha l1 with
        | RThrow e => (RThrow e, {| time := time'; influences := l1 |})
        | ROk l2 => (ROk tt, {| time := time'; influences := l2 |})
        end
    end.

End Viewer.

(** ** The specification's wording, kept apart for comparison *)

Module Spec.

(** The endpoint the specification assigns to a signed edge-list entry:
    [v0] of the edge for a positive entry, [v1] for a negative one. *)
Definition resolveEndpoint (edges : list (Z * Z)) (entry : Z) : option Z :=
  match zget edges (Z.abs entry) with
  | Some (v0, v1) => Some (if 0 <? entry then v0 else v1)
  | None => None
  end.

(** Bytes of a grouped frame record after its 4-byte flag: the sub-frame
    count, two 4-byte bounding-box records, one 4-byte interval per
    sub-frame, and the sub-frames. *)
Definition simpleFrameBytes (vertexCount : Z) : Z :=
  (4 + 4 + 16) + 4 * vertexCount.

Definition groupFrameBytes (n vertexCount : Z) : Z :=
  4 + (4 + 4) + 4 * n + n * simpleFrameBytes vertexCount.

(** The frame records present in a file from [off] on, by that layout:
    [false] for a single frame, [true] for a group. *)
Fixpoint frameRecords (data : list byte) (vertexCount : Z) (k : nat) (off : Z)
    : list bool :=
  match k with
  | O => []
  | S k' =>
      if int32At data off =? 0
      then false :: frameRecords data vertexCount k' (off + 4 + simpleFrameBytes vertexCount)
      else true :: frameRecords data vertexCount k'
                     (off + 4 + groupFrameBytes (int32At data (off + 4)) vertexCount)
  end.

Definition nonGroupedCount (records : list bool) : nat :=
  length (filter (fun g => negb g) records).

Section Arithmetic.
Context {num : Type} {N : Number num}.

(** The texture coordinates of a model triangle corner, by the formula
    [((rawS + (onSeam && !facesFront ? 0.5*skinWidth : 0) + 0.5) / skinWidth,
      (rawT + 0.5) / skinHeight)]; the term 0 is not added. *)
Definition cornerUV (skinWidth skinHeight : Z) (rawS rawT : num) (onSeam facesFront : bool)
    : num * num :=
  (ndiv (nadd (if onSeam && negb facesFront
               then nadd rawS (nmul nhalf (num_of_Z skinWidth)) else rawS) nhalf)
        (num_of_Z skinWidth),
   ndiv (nadd rawT nhalf) (num_of_Z skinHeight)).




End Arithmetic.


End Spec.

(** ** Sample files *)

Module Sample.

Definition bytes (l : list Z) : list byte :=
  map (fun v => match Byte.of_N (Z.to_N v) with Some b => b | None => x00 end) l.

Definition le16 (v : Z) : list Z :=
  let u := v mod 2 ^ 16 in [u mod 256; u / 256].

Definition le32 (v : Z) : list Z :=
  let u := v mod 2 ^ 32 in
  [u mod 256; (u / 2 ^ 8) mod 256; (u / 2 ^ 16) mod 256; u / 2 ^ 24].

Definition zeros (n : nat) : list Z := replicate n 0.

(** 1.0 and 0.0 as IEEE single-precision bytes. *)
Definition f32_one : list Z := [0; 0; 128; 63].
Definition f32_zero : list Z := [0; 0; 0; 0].

(** An MDL header with unit scale and no translation. *)
Definition mdlHeader (skins w h verts tris frames : Z) : list Z :=
  le32 1330660425 ++ le32 6
  ++ f32_one ++ f32_one ++ f32_one ++ f32_zero ++ f32_zero ++ f32_zero
  ++ zeros 16
  ++ le32 skins ++ le32 w ++ le32 h ++ le32 verts ++ le32 tris ++ le32 frames
  ++ zeros 12.

Definition emptyMdlHost {num} : MDLFileLoader.Host (num := num) :=
  {| MDLFileLoader.alerts := []; MDLFileLoader.meshes := Some [];
     MDLFileLoader.managers := [] |}.

Definition emptyBspHost {num} : BSPFileLoader.Host (num := num) :=
  {| BSPFileLoader.alerts := []; BSPFileLoader.meshes := Some [] |}.

(** A model with one vertex, one triangle and one single frame whose
    vertex carries the given normal index. *)
Definition oneVertexTables : list Z :=
  (le32 0 ++ le32 0 ++ le32 0)             (* onSeam, s, t *)
  ++ (le32 1 ++ le32 0 ++ le32 0 ++ le32 0). (* facesFront, three indices *)

Definition oneVertexModel (normalIndex : Z) : list byte :=
  bytes (mdlHeader 0 1 1 1 1 1 ++ oneVertexTables
         ++ le32 0 ++ zeros 24 ++ [1; 2; 3; normalIndex]).

(** A header that announces one frame, and nothing after it. *)
Definition truncatedModel : list byte := bytes (mdlHeader 0 1 1 0 0 1).

(** A grouped frame record with one sub-frame: flag, count, bounding box
    (min, max), one interval, then the sub-frame. *)
Definition groupRecord : list Z :=
  le32 1 ++ le32 1 ++ [0; 0; 0; 0] ++ [9; 9; 9; 0] ++ f32_one
  ++ ([1; 2; 3; 0] ++ [1; 2; 3; 0] ++ zeros 16 ++ [1; 2; 3; 0]).

(** A single frame record: flag, bounding box, name, one vertex. *)
Definition simpleRecord : list Z :=
  le32 0 ++ [0; 0; 0; 1] ++ [0; 0; 0; 0] ++ zeros 16 ++ [0; 0; 0; 0].

(** One grouped frame; the same with four bytes of padding; and a
    grouped frame followed by a single frame. *)
Definition groupModel : list byte :=
  bytes (mdlHeader 0 1 1 1 1 1 ++ oneVertexTables ++ groupRecord).

Definition groupModelPadded : list byte :=
  bytes (mdlHeader 0 1 1 1 1 1 ++ oneVertexTables ++ groupRecord ++ zeros 4).

Definition groupThenSimpleModel : list byte :=
  bytes (mdlHeader 0 1 1 1 1 2 ++ oneVertexTables ++ groupRecord ++ simpleRecord).

(** Two triangles sharing the seam vertex 0; only the first faces front. *)
Definition seamHeader : MDLFileLoader.Header (num := Q) :=
  {| MDLFileLoader.scale := (1, 1, 1)%Q; MDLFileLoader.translate := (0, 0, 0)%Q;
     MDLFileLoader.numSkins := 1; MDLFileLoader.skinWidth := 4;
     MDLFileLoader.skinHeight := 2; MDLFileLoader.numVertices := 3;
     MDLFileLoader.numTriangles := 2; MDLFileLoader.numFrames := 1 |}.
Definition seamIndices : list Z := [0; 1; 2; 0; 2; 1].
Definition seamOnSeam : list Z := [1; 0; 0].
Definition seamFaceFront : list Z := [1; 0].
Definition seamUvs : list Q := [1; 1; 2; 0; 3; 1]%Q.
Definition seamFrame : MDLFileLoader.Frame (num := Q) :=
  {| MDLFileLoader.positions := replicate 9 0%Q;
     MDLFileLoader.normals := replicate 9 0%Q |}.

(** A level with a square face and a triangular face, both with the same
    texture.  Edge 0 is never referred to. *)
Definition levelRawVertices : list (BSPFileLoader.Vector3 (num := Q)) :=
  [(0, 0, 0); (64, 0, 0); (64, 32, 0); (0, 32, 0)]%Q.
Definition levelVertices : list (BSPFileLoader.Vector3 (num := Q)) :=
  map (fun raw => BSPFileLoader.Vector3_divide raw
                    (BSPFileLoader.ten, BSPFileLoader.ten, BSPFileLoader.ten))
      levelRawVertices.
Definition levelEdges : list (Z * Z) := [(0, 0); (0, 1); (1, 2); (2, 3); (3, 0); (2, 0)].
Definition levelLedges : list Z := [1; 2; 3; 4; -5; 3; 4].
Definition levelFace (ledgeIndex numLedges : Z) : BSPFileLoader.Face :=
  {| BSPFileLoader.planeIndex := 0; BSPFileLoader.side := false;
     BSPFileLoader.ledgeIndex := ledgeIndex; BSPFileLoader.numLedges := numLedges;
     BSPFileLoader.texInfoIndex := 0; BSPFileLoader.lightType := 0;
     BSPFileLoader.baseLight := 0; BSPFileLoader.light := (0, 0);
     BSPFileLoader.lightMap := 0 |}.
Definition levelFaces : list BSPFileLoader.Face := [levelFace 0 4; levelFace 4 3].
Definition levelTexinfo : BSPFileLoader.Texinfo (num := Q) :=
  {| BSPFileLoader.texinfo_s := (1, 0, 0, 8)%Q; BSPFileLoader.texinfo_t := (0, 1, 0, 0)%Q;
     BSPFileLoader.texinfo_miptex := 0; BSPFileLoader.texinfo_flags := 0 |}.
Definition levelMiptex : BSPFileLoader.Miptex :=
  {| BSPFileLoader.miptex_name := [119]; BSPFileLoader.miptex_width := 8;
     BSPFileLoader.miptex_height := 4; BSPFileLoader.miptex_offsets := (40, 0, 0, 0) |}.
Definition levelFaceOffsets : list Z := [0; 2; 3].
Definition levelGeometry : BSPFileLoader.VertexData (num := Q) :=
  match BSPFileLoader.buildGeometry levelVertices levelEdges [levelTexinfo] [levelMiptex]
          levelLedges levelFaces levelFaceOffsets 3 with
  | ROk vd => vd
  | RThrow _ => {| BSPFileLoader.vd_positions := []; BSPFileLoader.vd_uvs := [];
                   BSPFileLoader.vd_indices := [] |}
  end.
Definition levelSubMeshes : option (list BSPFileLoader.SubMesh) :=
  match BSPFileLoader.buildSubMeshes [levelTexinfo] levelFaces levelFaceOffsets
          (BSPFileLoader.applyToMesh levelGeometry) with
  | ROk subMeshes => subMeshes
  | RThrow _ => None
  end.

(** The same level as a file: header with its directory, then the
    sections. *)
Definition dirEntry (o len : Z) : list Z := le32 o ++ le32 len.
Definition f32_64 : list Z := [0; 0; 128; 66].
Definition f32_32 : list Z := [0; 0; 0; 66].
Definition f32_8 : list Z := [0; 0; 0; 65].
Definition faceBytes (ledgeIndex numLedges : Z) : list Z :=
  le16 0 ++ le16 0 ++ le32 ledgeIndex ++ le16 numLedges ++ le16 0 ++ [0; 0; 0; 0] ++ le32 0.
Definition levelFile : list byte :=
  bytes (le32 29
         ++ zeros 8 ++ dirEntry 124 20 ++ dirEntry 324 80 ++ dirEntry 144 48
         ++ zeros 16 ++ dirEntry 192 40 ++ dirEntry 232 40
         ++ zeros 32 ++ dirEntry 272 24 ++ dirEntry 296 28 ++ zeros 8
         (* planes, at 124 *)
         ++ (f32_zero ++ f32_zero ++ f32_one ++ f32_zero ++ le32 2)
         (* vertices, at 144 *)
         ++ (f32_zero ++ f32_zero ++ f32_zero) ++ (f32_64 ++ f32_zero ++ f32_zero)
         ++ (f32_64 ++ f32_32 ++ f32_zero) ++ (f32_zero ++ f32_32 ++ f32_zero)
         (* texinfo, at 192 *)
         ++ (f32_one ++ f32_zero ++ f32_zero ++ f32_8)
         ++ (f32_zero ++ f32_one ++ f32_zero ++ f32_zero) ++ le32 0 ++ le32 0
         (* faces, at 232 *)
         ++ faceBytes 0 4 ++ faceBytes 4 3
         (* edges, at 272 *)
         ++ (le16 0 ++ le16 0) ++ (le16 0 ++ le16 1) ++ (le16 1 ++ le16 2)
         ++ (le16 2 ++ le16 3) ++ (le16 3 ++ le16 0) ++ (le16 2 ++ le16 0)
         (* edge list, at 296 *)
         ++ le32 1 ++ le32 2 ++ le32 3 ++ le32 4 ++ le32 (-5) ++ le32 3 ++ le32 4
         (* textures, at 324: count, offsets, then one texture of 8 x 4 *)
         ++ le32 1 ++ le32 8
         ++ ([119] ++ zeros 15) ++ le32 8 ++ le32 4 ++ le32 40 ++ le32 0 ++ le32 0 ++ le32 0
         ++ ([255] ++ zeros 31)).

(** Where the frame records of these models start. *)
Definition framesStart : Z := 84 + 12 + 16.

(** Parts of a model, each in a buffer of its own: a skin of 4 x 2
    pixels, a texture-coordinate table of three vertices, a triangle
    table of two triangles, and a frame of three vertices. *)
Definition skinRecord : list byte := bytes (le32 0 ++ [0; 1; 2; 3; 4; 5; 6; 255]).
Definition uvsTable : list byte :=
  bytes ((le32 1 ++ le32 1 ++ le32 1) ++ (le32 0 ++ le32 2 ++ le32 0)
         ++ (le32 0 ++ le32 3 ++ le32 1)).
Definition trianglesTable : list byte :=
  bytes ((le32 1 ++ le32 0 ++ le32 1 ++ le32 2) ++ (le32 0 ++ le32 0 ++ le32 2 ++ le32 1)).
Definition frameRecord : list byte :=
  bytes (zeros 24 ++ [1; 2; 3; 0] ++ [4; 5; 6; 1] ++ [7; 8; 9; 161]).

(** The header of the one-vertex models. *)
Definition oneVertexHeader : MDLFileLoader.Header (num := Q) :=
  {| MDLFileLoader.scale := (1, 1, 1)%Q; MDLFileLoader.translate := (0, 0, 0)%Q;
     MDLFileLoader.numSkins := 0; MDLFileLoader.skinWidth := 1;
     MDLFileLoader.skinHeight := 1; MDLFileLoader.numVertices := 1;
     MDLFileLoader.numTriangles := 1; MDLFileLoader.numFrames := 1 |}.

(** A grouped frame record followed by four bytes. *)
Definition groupRecordPadded : list byte := bytes (groupRecord ++ zeros 4).

(** A model with two skins of one pixel, the second of them a group. *)
Definition groupSkinModel : list byte :=
  bytes (mdlHeader 2 1 1 0 0 0 ++ (le32 0 ++ [5]) ++ le32 1).

(** The directory of the sample level, and the same with an edge list of
    26 bytes, six entries and a half. *)
Definition levelEntry (o len size : Z) : BSPFileLoader.DirectoryEntry :=
  {| BSPFileLoader.offset := o;
     BSPFileLoader.count :=
       {| BSPFileLoader.count_bytes := len; BSPFileLoader.count_size := size |} |}.
Definition levelHeaderWith (ledgesBytes : Z) : BSPFileLoader.Header :=
  {| BSPFileLoader.planes := levelEntry 124 20 20;
     BSPFileLoader.miptex := levelEntry 324 80 1;
     BSPFileLoader.vertices := levelEntry 144 48 12;
     BSPFileLoader.texinfo := levelEntry 192 40 40;
     BSPFileLoader.faces := levelEntry 232 40 20;
     BSPFileLoader.edges := levelEntry 272 24 4;
     BSPFileLoader.ledges := levelEntry 296 ledgesBytes 4 |}.
Definition levelHeader : BSPFileLoader.Header := levelHeaderWith 28.

(** A level whose vertex section has 10 bytes. *)
Definition raggedLevel : list byte :=
  bytes (le32 29 ++ zeros 8 ++ dirEntry 0 0 ++ dirEntry 0 0 ++ dirEntry 116 10 ++ zeros 84).

(** A model of two triangles on one seam vertex, with no skin and one
    single frame: the vertex has the texel coordinates [(s, 0)], the first
    triangle faces front and the second does not. *)
Definition seamModel (skinWidth s : Z) : list byte :=
  bytes (mdlHeader 0 skinWidth 1 1 2 1
         ++ (le32 1 ++ le32 s ++ le32 0)
         ++ (le32 1 ++ le32 0 ++ le32 0 ++ le32 0)
         ++ (le32 0 ++ le32 0 ++ le32 0 ++ le32 0)
         ++ le32 0 ++ zeros 24 ++ [1; 2; 3; 0]).


End Sample.

(** * Vocabulary of the properties *)

Section Frames.
Context {H X : Type} (proj : H -> X).

(** [m] leaves the [proj] part of the host as it found it, however it ends. *)
Definition keeps {A} (m : M H A) : Prop :=
  forall s, proj (host (snd (m s))) = proj (host s).

(** Every [return b] that [m] executes satisfies [P b]. *)
Definition rets (P : bool -> Prop) {A} (m : M H A) : Prop :=
  forall s b, fst (m s) = Return b -> P b.

End Frames.

Section MdlOutcomes.
Context {num : Type} {N : Number num}.
Local Abbreviation Host := (MDLFileLoader.Host (num := num)).

Definition meshesOf (h : Host) : option (list MDLFileLoader.Mesh) :=
  MDLFileLoader.meshes h.

(** What a caller can see of [meshes] after a call. *)
Definition unchanged (h h' : Host) : Prop :=
  MDLFileLoader.meshes h' = MDLFileLoader.meshes h.

Definition pushedOne (h h' : Host) : Prop :=
  exists ms mesh, MDLFileLoader.meshes h = Some ms
                  /\ MDLFileLoader.meshes h' = Some (ms ++ [mesh]).

(** [meshes] by the way the call ended: [return false], [return true], or
    an exception.  A call never ends otherwise. *)
Definition outcomeSpec (h : Host) (r : Result bool) (h' : Host) : Prop :=
  match r with
  | Return false => unchanged h h'
  | Return true => pushedOne h h'
  | Throw _ => unchanged h h' \/ pushedOne h h'
  | Ok _ => False
  end.

Definition satisfies (m : M Host bool) : Prop :=
  forall s, outcomeSpec (host s) (fst (m s)) (host (snd (m s))).

End MdlOutcomes.

Section MdlCorners.
Context {num : Type} {N : Number num}.

(** The pair [expandCorner] stores at [uvs2[2*idx]], [uvs2[2*idx+1]] for
    corner [j] of triangle [i]. *)
Definition emittedCornerUV (header : MDLFileLoader.Header (num := num))
    (indices onSeam faceFront : list Z) (uvs : list num) (i j : Z) : num * num :=
  let vertexIndex := match zget indices (3 * i + j) with Some v => v | None => -1 end in
  let s := MDLFileLoader.readNum uvs (2 * vertexIndex + 0) in
  let t := MDLFileLoader.readNum uvs (2 * vertexIndex + 1) in
  let s :=
    if negb (truthyAt faceFront i) && truthyAt onSeam vertexIndex
    then nadd s (nmul nhalf (num_of_Z (MDLFileLoader.skinWidth header)))
    else s in
  (fround (ndiv (nadd s nhalf) (num_of_Z (MDLFileLoader.skinWidth header))),
   fround (ndiv (nadd t nhalf) (num_of_Z (MDLFileLoader.skinHeight header)))).

End MdlCorners.

Section BspGeometryVocab.
Context {num : Type} {N : Number num}.
Local Abbreviation VertexData := (BSPFileLoader.VertexData (num := num)).
Local Abbreviation Texinfo := (BSPFileLoader.Texinfo (num := num)).



(** The buffers have room for [numTriangles] triangles. *)
Definition sized (vd : VertexData) (numTriangles : Z) : Prop :=
  Z.of_nat (length (BSPFileLoader.vd_positions vd)) = 9 * numTriangles
  /\ Z.of_nat (length (BSPFileLoader.vd_uvs vd)) = 6 * numTriangles
  /\ Z.of_nat (length (BSPFileLoader.vd_indices vd)) = 3 * numTriangles.


(** [faceOffsets] holds the running sums of [numLedges - 2], none of them
    wrapped, and every face has at least two edges. *)
Definition OffsetsOk (fs : list BSPFileLoader.Face) (faceOffsets : list Z)
    (numTriangles : Z) : Prop :=
  zget faceOffsets 0 = Some 0
  /\ zget faceOffsets (Z.of_nat (length fs)) = Some numTriangles
  /\ forall i face, zget fs i = Some face ->
       2 <= BSPFileLoader.numLedges face
       /\ exists o, zget faceOffsets i = Some o
                    /\ zget faceOffsets (i + 1) = Some (o + (BSPFileLoader.numLedges face - 2)).


End BspGeometryVocab.

Section SubMeshVocab.
Context {num : Type} {N : Number num}.




End SubMeshVocab.

(** The triangles a face table asks for: [numLedges - 2] per face. *)
Definition triangleCount (fs : list BSPFileLoader.Face) : Z :=
  fold_right (fun face acc => (BSPFileLoader.numLedges face - 2) + acc) 0 fs.


Section ReaderVocab.
Context {H : Type}.
Variable data : list byte.

(** The [w] bytes at the cursor lie inside the buffer. *)
Definition fieldInside (s : St H) (w : Z) : Prop :=
  0 <= cursor s /\ cursor s + w <= byteLength data.

(** [m] reads a field of [w] bytes: when the field lies inside the buffer,
    [m] yields a value that satisfies [P] and moves the cursor by [w];
    otherwise it throws [RangeError] and leaves the reader as it was. *)
Definition readsField {A} (m : M H A) (w : Z) (P : A -> Prop) : Prop :=
  forall s,
    (fieldInside s w -> exists v, m s = (Ok v, advance w s) /\ P v)
    /\ (~ fieldInside s w -> m s = (Throw RangeError, s)).

End ReaderVocab.

Section MdlCornerData.
Context {num : Type} {N : Number num}.

(** The vertex a triangle corner refers to: [indices[3*i+j]]. *)
Definition cornerVertex (indices : list Z) (i j : Z) : Z :=
  match zget indices (3 * i + j) with Some v => v | None => -1 end.

(** The three cells at corner [idx] of a per-corner array hold the three
    cells at vertex [v] of a per-vertex array. *)
Definition cornerCopies (perCorner perVertex : list num) (idx v : Z) : Prop :=
  forall k, 0 <= k < 3 ->
    zget perCorner (3 * idx + k) = Some (fround (MDLFileLoader.readNum perVertex (3 * v + k))).

(** What holds of the per-corner arrays once the corners below [idx] are
    filled. *)
Definition cornersDone (indices : list Z) (frame : MDLFileLoader.Frame (num := num))
    (lp ln lu : nat) (idx : Z) (acc : list num * list num * list num) : Prop :=
  length (fst (fst acc)) = lp /\ length (snd (fst acc)) = ln /\ length (snd acc) = lu
  /\ forall i j, 0 <= i -> 0 <= j < 3 -> 3 * i + j < idx ->
       cornerCopies (fst (fst acc)) (MDLFileLoader.positions frame) (3 * i + j)
         (cornerVertex indices i j)
       /\ cornerCopies (snd (fst acc)) (MDLFileLoader.normals frame) (3 * i + j)
            (cornerVertex indices i j).

End MdlCornerData.

Section MdlLayout.
Context {num : Type} {N : Number num}.
Variable data : list byte.
Local Abbreviation Header := (MDLFileLoader.Header (num := num)).

(** The number [getFloat32] yields at [off]. *)
Definition float32At (off : Z) : num := num_of_float32_bits (uint32At data off).

(** The header as it stands in the buffer from [c] on: six numbers, 16
    bytes that are passed, six counts. *)
Definition headerAt (c : Z) : Header :=
  {| MDLFileLoader.scale := (float32At c, float32At (c + 4), float32At (c + 8));
     MDLFileLoader.translate := (float32At (c + 12), float32At (c + 16), float32At (c + 20));
     MDLFileLoader.numSkins := int32At data (c + 40);
     MDLFileLoader.skinWidth := int32At data (c + 44);
     MDLFileLoader.skinHeight := int32At data (c + 48);
     MDLFileLoader.numVertices := int32At data (c + 52);
     MDLFileLoader.numTriangles := int32At data (c + 56);
     MDLFileLoader.numFrames := int32At data (c + 60) |}.

(** Where the parts of a model file with header [hd] stand, when no skin
    and no frame is a group: skins from byte 84 on, then the
    texture-coordinate table, the triangle table and the frames. *)
Definition skinBytes (hd : Header) : Z :=
  4 + MDLFileLoader.skinWidth hd * MDLFileLoader.skinHeight hd.
Definition uvsOffset (hd : Header) : Z := 84 + MDLFileLoader.numSkins hd * skinBytes hd.
Definition trianglesOffset (hd : Header) : Z :=
  uvsOffset hd + 12 * MDLFileLoader.numVertices hd.
Definition framesOffset (hd : Header) : Z :=
  trianglesOffset hd + 16 * MDLFileLoader.numTriangles hd.
Definition frameBytes (hd : Header) : Z := 4 + 24 + 4 * MDLFileLoader.numVertices hd.
Definition modelEnd (hd : Header) : Z :=
  framesOffset hd + MDLFileLoader.numFrames hd * frameBytes hd.

(** A model file without groups: magic number and version, counts that are
    not negative, every part inside the buffer, every skin and every
    frame flagged as single, every normal index inside the table. *)
Definition SingleFrameModel : Prop :=
  let hd := headerAt 8 in
  int32At data 0 = 1330660425 /\ int32At data 4 = 6
  /\ 0 <= MDLFileLoader.numSkins hd
  /\ 0 <= MDLFileLoader.skinWidth hd * MDLFileLoader.skinHeight hd
  /\ 0 <= MDLFileLoader.numVertices hd
  /\ 0 <= MDLFileLoader.numTriangles hd
  /\ 0 <= MDLFileLoader.numFrames hd
  /\ modelEnd hd <= byteLength data
  /\ (forall k, 0 <= k < MDLFileLoader.numSkins hd ->
        int32At data (84 + k * skinBytes hd) = 0)
  /\ (forall f, 0 <= f < MDLFileLoader.numFrames hd ->
        int32At data (framesOffset hd + f * frameBytes hd) = 0
        /\ forall i, 0 <= i < MDLFileLoader.numVertices hd ->
             byteAt data (framesOffset hd + f * frameBytes hd + 28 + 4 * i + 3) < 162).

(** The arrays of a snapshot have room for [numTriangles] triangles. *)
Definition targetSized (hd : Header) (t : MDLFileLoader.MorphTarget (num := num)) : Prop :=
  Z.of_nat (length (MDLFileLoader.target_positions t)) = 9 * MDLFileLoader.numTriangles hd
  /\ Z.of_nat (length (MDLFileLoader.target_normals t)) = 9 * MDLFileLoader.numTriangles hd
  /\ Z.of_nat (length (MDLFileLoader.target_uvs t)) = 6 * MDLFileLoader.numTriangles hd.

End MdlLayout.

Section BspOutcomes.
Context {num : Type} {N : Number num}.
Local Abbreviation Host := (BSPFileLoader.Host (num := num)).

(** The host after a call of the level loader, by the way the call ended:
    [return true] after one push, [return false] after the alert, or an
    exception with nothing touched. *)
Definition bspOutcome (h : Host) (r : Result bool) (h' : Host) : Prop :=
  match r with
  | Return true =>
      exists ms mesh,
        BSPFileLoader.meshes h = Some ms
        /\ h' = {| BSPFileLoader.alerts := BSPFileLoader.alerts h;
                   BSPFileLoader.meshes := Some (ms ++ [mesh]) |}
  | Return false =>
      h' = {| BSPFileLoader.alerts := BSPFileLoader.alerts h ++ [BSPFileLoader.NotBSP];
              BSPFileLoader.meshes := BSPFileLoader.meshes h |}
  | Throw _ => h' = h
  | Ok _ => False
  end.

Definition bspSatisfies (m : M Host bool) : Prop :=
  forall s, bspOutcome (host s) (fst (m s)) (host (snd (m s))).

End BspOutcomes.

Section BspLayout.
Context {num : Type} {N : Number num}.
Variable data : list byte.

(** A directory entry as it stands in the buffer at [c]: offset, then size
    in bytes; [size] is the size of one record of the section. *)
Definition entryAt (c size : Z) : BSPFileLoader.DirectoryEntry :=
  {| BSPFileLoader.offset := int32At data c;
     BSPFileLoader.count :=
       {| BSPFileLoader.count_bytes := int32At data (c + 4);
          BSPFileLoader.count_size := size |} |}.

(** The seven entries the loader uses, of the fifteen that start at [c]. *)
Definition directoryAt (c : Z) : BSPFileLoader.Header :=
  {| BSPFileLoader.planes := entryAt (c + 8) 20;
     BSPFileLoader.miptex := entryAt (c + 16) 1;
     BSPFileLoader.vertices := entryAt (c + 24) 12;
     BSPFileLoader.texinfo := entryAt (c + 48) 40;
     BSPFileLoader.faces := entryAt (c + 56) 20;
     BSPFileLoader.edges := entryAt (c + 96) 4;
     BSPFileLoader.ledges := entryAt (c + 104) 4 |}.

(** The vertex that stands at [off], as the loader stores it. *)
Definition vertexAt (off : Z) : BSPFileLoader.Vector3 (num := num) :=
  BSPFileLoader.Vector3_divide
    (float32At data off, float32At data (off + 4), float32At data (off + 8))
    (BSPFileLoader.ten, BSPFileLoader.ten, BSPFileLoader.ten).

End BspLayout.

Section BspWellFormed.
Context {num : Type} {N : Number num}.

(** Both ends of an edge are vertices. *)
Definition validEdge (numVertices : Z) (e : Z * Z) : Prop :=
  0 <= fst e < numVertices /\ 0 <= snd e < numVertices.

(** The edges of a face lie in the edge list, and the face has a texture
    info whose texture exists. *)
Definition validFace (texinfos : list (BSPFileLoader.Texinfo (num := num)))
    (miptexs : list BSPFileLoader.Miptex) (numLedges : Z) (face : BSPFileLoader.Face)
    : Prop :=
  0 <= BSPFileLoader.ledgeIndex face
  /\ BSPFileLoader.ledgeIndex face + BSPFileLoader.numLedges face <= numLedges
  /\ exists texinfo m,
       zget texinfos (BSPFileLoader.texInfoIndex face) = Some texinfo
       /\ zget miptexs (BSPFileLoader.texinfo_miptex texinfo) = Some m.

(** Tables whose references all resolve. *)
Definition WellFormedTables (vertices : list (BSPFileLoader.Vector3 (num := num)))
    (edges : list (Z * Z)) (texinfos : list (BSPFileLoader.Texinfo (num := num)))
    (miptexs : list BSPFileLoader.Miptex) (ledges : list Z)
    (fs : list BSPFileLoader.Face) : Prop :=
  Forall (validEdge (Z.of_nat (length vertices))) edges
  /\ Forall (fun l => Z.abs l < Z.of_nat (length edges)) ledges
  /\ Forall (validFace texinfos miptexs (Z.of_nat (length ledges))) fs.

End BspWellFormed.



Section BspTextures.
Variable data : list byte.

(** [d] holds, three bytes a pixel, the palette colours of the [n] bytes
    that start at [start]. *)
Definition paletteImage (start n : Z) (d : list Z) : Prop :=
  Z.of_nat (length d) = 3 * n
  /\ forall j, 0 <= j < n ->
       exists r g b,
         zget colorMap (byteAt data (start + j)) = Some (r, g, b)
         /\ zget d (3 * j) = Some r
         /\ zget d (3 * j + 1) = Some g
         /\ zget d (3 * j + 2) = Some b.

(** Where the pixels of texture [i] start: the offset of the texture
    section, the offset of the texture in it, the offset of the first
    picture in the texture. *)
Definition pixelsOffset (hd : BSPFileLoader.Header) (miptexOffsets : list Z) (i : Z)
    (m : BSPFileLoader.Miptex) : Z :=
  BSPFileLoader.offset (BSPFileLoader.miptex hd)
  + BSPFileLoader.offsetAt miptexOffsets i
  + fst (fst (fst (BSPFileLoader.miptex_offsets m))).

End BspTextures.

Section BspRecords.
Context {num : Type} {N : Number num}.
Variable data : list byte.

(** The records of the sections, as they stand in the buffer at [off]. *)
Definition edgeAt (off : Z) : BSPFileLoader.Vector2 :=
  (uint16At data off, uint16At data (off + 2)).

Definition vector4At (off : Z) : BSPFileLoader.Vector4 (num := num) :=
  (float32At data off, float32At data (off + 4), float32At data (off + 8),
   float32At data (off + 12)).

Definition texinfoAt (off : Z) : BSPFileLoader.Texinfo (num := num) :=
  {| BSPFileLoader.texinfo_s := vector4At off;
     BSPFileLoader.texinfo_t := vector4At (off + 16);
     BSPFileLoader.texinfo_miptex := uint32At data (off + 32);
     BSPFileLoader.texinfo_flags := uint32At data (off + 36) |}.

Definition planeAt (off : Z) : BSPFileLoader.Plane (num := num) :=
  {| BSPFileLoader.plane_normal :=
       (float32At data off, float32At data (off + 4), float32At data (off + 8));
     BSPFileLoader.plane_distance := float32At data (off + 12);
     BSPFileLoader.plane_type := uint32At data (off + 16) |}.

(** The 16 bytes of a texture name. *)
Definition nameBytesAt (off : Z) : list Z :=
  map (fun i => byteAt data (off + Z.of_nat i)) (seq 0 16).

Definition miptexAt (off : Z) : BSPFileLoader.Miptex :=
  {| BSPFileLoader.miptex_name := BSPFileLoader.untilNull (nameBytesAt off);
     BSPFileLoader.miptex_width := uint32At data (off + 16);
     BSPFileLoader.miptex_height := uint32At data (off + 20);
     BSPFileLoader.miptex_offsets :=
       (uint32At data (off + 24), uint32At data (off + 28),
        uint32At data (off + 32), uint32At data (off + 36)) |}.

(** A section of [n] whole records of [size] bytes that lies inside the
    buffer. *)
Definition wholeSection (entry : BSPFileLoader.DirectoryEntry) (size n : Z) : Prop :=
  BSPFileLoader.count entry
  = {| BSPFileLoader.count_bytes := size * n; BSPFileLoader.count_size := size |}
  /\ 0 <= n < 2 ^ 32
  /\ 0 <= BSPFileLoader.offset entry
  /\ BSPFileLoader.offset entry + size * n <= byteLength data.

End BspRecords.

Section CutShort.
Context {H : Type}.

(** [m'] ends as [m] does, in the same state, or it ends in
    [RangeError]: what reading from a buffer that has been cut short can
    change. *)
Definition cutShort {A} (m' m : M H A) : Prop :=
  forall s, m' s = m s \/ fst (m' s) = Throw RangeError.

End CutShort.

Section ModelFile.
Context {num : Type} {N : Number num}.
Variable data : list byte.
Local Abbreviation hd := (headerAt (num := num) data 8).

(** The tables of a model file without group skins, read off the buffer:
    the vertex of a triangle corner, the flag of a triangle, the seam flag
    and the texel coordinates of a vertex as the loader keeps them, in
    single precision. *)
Definition modelCornerVertex (i j : Z) : Z :=
  toUint32 (int32At data (trianglesOffset hd + 16 * i + 4 + 4 * j)).

Definition modelFacesFront (i : Z) : bool :=
  truthy (int32At data (trianglesOffset hd + 16 * i)).

Definition modelOnSeam (v : Z) : bool :=
  truthy (int32At data (uvsOffset hd + 12 * v)).

Definition modelRawS (v : Z) : num :=
  fround (num_of_Z (int32At data (uvsOffset hd + 12 * v + 4))).

Definition modelRawT (v : Z) : num :=
  fround (num_of_Z (int32At data (uvsOffset hd + 12 * v + 8))).

(** The pair of texture coordinates the formula gives for corner [j] of
    triangle [i], each stored in single precision. *)
Definition modelCornerUV (i j : Z) : num * num :=
  let v := modelCornerVertex i j in
  let uv := Spec.cornerUV (MDLFileLoader.skinWidth hd) (MDLFileLoader.skinHeight hd)
              (modelRawS v) (modelRawT v) (modelOnSeam v) (modelFacesFront i) in
  (fround (fst uv), fround (snd uv)).

(** The snapshot [target] carries the pair [uv] at corner [j] of triangle
    [i]. *)
Definition cornerHolds (target : MDLFileLoader.MorphTarget (num := num)) (i j : Z)
    (uv : num * num) : Prop :=
  zget (MDLFileLoader.target_uvs target) (2 * (3 * i + j)) = Some (fst uv)
  /\ zget (MDLFileLoader.target_uvs target) (2 * (3 * i + j) + 1) = Some (snd uv).

End ModelFile.

Section LevelFile.
Context {num : Type} {N : Number num}.
Variable data : list byte.
Local Abbreviation hd := (directoryAt data 4).

(** The records [record 0], ..., [record (n - 1)]. *)
Definition tableOf {A} (record : Z -> A) (n : Z) : list A :=
  map (fun k => record (Z.of_nat k)) (seq 0 (Z.to_nat n)).

(** The number of records of a section whose size is a whole number of
    records. *)
Definition records (e : BSPFileLoader.DirectoryEntry) : Z :=
  BSPFileLoader.count_bytes (BSPFileLoader.count e)
  / BSPFileLoader.count_size (BSPFileLoader.count e).














End LevelFile.

Section LevelCorners.
Context {num : Type} {N : Number num}.




End LevelCorners.



(** * Properties *)

(** ** Stepping through reader code *)

Section Stepping.
Context {num : Type} {N : Number num} {H : Type}.
Variable data : list byte.

Lemma bind_Ok {A B} (m : M H A) (f : A -> M H B) s a s' :
  m s = (Ok a, s') -> bind m f s = f a s'.
Proof. intros E. unfold bind. now rewrite E. Qed.

Lemma bind_Return {A B} (m : M H A) (f : A -> M H B) s b s' :
  m s = (Return b, s') -> bind m f s = (Return b, s').
Proof. intros E. unfold bind. now rewrite E. Qed.

Lemma bind_Throw {A B} (m : M H A) (f : A -> M H B) s e s' :
  m s = (Throw e, s') -> bind m f s = (Throw e, s').
Proof. intros E. unfold bind. now rewrite E. Qed.

Lemma inBounds_true off n :
  0 <= off -> off + n <= byteLength data -> inBounds data off n = true.
Proof.
  intros H0 H1. unfold inBounds.
  apply andb_true_intro. split; apply Z.leb_le; lia.
Qed.

Lemma bind_readInt32 {B} (f : Z -> M H B) s :
  0 <= cursor s -> cursor s + 4 <= byteLength data ->
  bind (readInt32 data) f s = f (int32At data (cursor s)) (advance 4 s).
Proof.
  intros H0 H1. apply bind_Ok.
  unfold readInt32, readAt, getInt32. now rewrite inBounds_true.
Qed.

Lemma bind_readFloat32 {B} (f : num -> M H B) s :
  0 <= cursor s -> cursor s + 4 <= byteLength data ->
  bind (readFloat32 data) f s
  = f (num_of_float32_bits (uint32At data (cursor s))) (advance 4 s).
Proof.
  intros H0 H1. apply bind_Ok.
  unfold readFloat32, readAt, getFloat32, getUint32. now rewrite inBounds_true.
Qed.

Lemma bind_skipBytes {B} n (f : unit -> M H B) s :
  bind (skipBytes n) f s = f tt (advance n s).
Proof. reflexivity. Qed.

Lemma bind_ret {A B} (a : A) (f : A -> M H B) s : bind (ret a) f s = f a s.
Proof. reflexivity. Qed.

Lemma bind_bind {A B C} (m : M H A) (f : A -> M H B) (g : B -> M H C) s :
  bind (bind m f) g s = bind m (fun a => bind (f a) g) s.
Proof. unfold bind. destruct (m s) as [[a | b | e] s']; reflexivity. Qed.

End Stepping.

(** Closed sums and products of numerals, as they pile up in cursors. *)
Ltac fold_sums :=
  repeat match goal with
    | |- context [Z.add (Zpos ?a) (Zpos ?b)] =>
        let v := eval vm_compute in (Z.add (Zpos a) (Zpos b)) in
        change (Z.add (Zpos a) (Zpos b)) with v
    | |- context [Z.add Z0 ?b] => change (Z.add Z0 b) with b
    | |- context [Z.mul (Zpos ?a) (Zpos ?b)] =>
        let v := eval vm_compute in (Z.mul (Zpos a) (Zpos b)) in
        change (Z.mul (Zpos a) (Zpos b)) with v
    end.

Ltac step_reads :=
  repeat (first
    [ rewrite bind_bind
    | rewrite bind_ret
    | rewrite bind_skipBytes
    | rewrite bind_readInt32 by (cbn [cursor advance newBinaryReader]; lia)
    | rewrite bind_readFloat32 by (cbn [cursor advance newBinaryReader]; lia) ];
    cbv beta; cbn [cursor advance newBinaryReader host]; fold_sums).

(** Closed side conditions of the sample files. *)
Ltac by_compute :=
  first
    [ lia
    | vm_compute; repeat split;
      first [ reflexivity | lia | discriminate | (intro; discriminate) ] ].

(** ** The level loader rejects every magic number but 29 *)

Section BspMagic.
Context {num : Type} {N : Number num}.

(** C8: a level buffer of at least four bytes whose leading little-endian
    [i32] is not 29 makes [importMesh] return [false] (a value, not an
    exception) after the alert; nothing else is read and [meshes] is left
    as it was.  This covers every other value, the 'BSP2' magic
    844124994 included: there is no fallback path. *)
Theorem bsp_importMesh_bad_magic (data : list byte) (h : BSPFileLoader.Host (num := num)) :
  4 <= byteLength data ->
  int32At data 0 <> 29 ->
  BSPFileLoader.importMesh data h
  = (Return false,
     {| cursor := 4;
        host := {| BSPFileLoader.alerts := BSPFileLoader.alerts h ++ [BSPFileLoader.NotBSP];
                   BSPFileLoader.meshes := BSPFileLoader.meshes h |} |}).
Proof.
  intros Hlen Hmagic.
  unfold BSPFileLoader.importMesh, BSPFileLoader.importMeshBody.
  rewrite bind_readInt32 by (cbn; lia). cbv beta.
  cbn [cursor newBinaryReader].
  apply Z.eqb_neq in Hmagic. rewrite Hmagic. reflexivity.
Qed.

End BspMagic.

(** The 'BSP2' magic number, in a buffer of twelve bytes. *)
Lemma bsp_importMesh_bad_magic_witness :
  let data := Sample.bytes (Sample.le32 844124994 ++ Sample.zeros 8) in
  (4 <= byteLength data /\ int32At data 0 <> 29)
  /\ BSPFileLoader.importMesh data (Sample.emptyBspHost (num := Q))
     = (Return false,
        {| cursor := 4;
           host := {| BSPFileLoader.alerts := [BSPFileLoader.NotBSP];
                      BSPFileLoader.meshes := Some [] |} |}).
Proof.
  intros data.
  assert (H1 : 4 <= byteLength data) by by_compute.
  assert (H2 : int32At data 0 <> 29) by by_compute.
  split; [ split; assumption | ].
  exact (bsp_importMesh_bad_magic data Sample.emptyBspHost H1 H2).
Defined.

(** ** Group skins are refused before their pixels are read *)

Section MdlSkin.
Context {num : Type} {N : Number num}.

(** C7: in a model file with a good magic and version whose header
    announces at least one skin, a nonzero group flag in the first skin
    record (the [i32] at byte 84) makes [importMesh] alert and return
    [false] with the cursor at byte 88, just after the flag: no pixel of
    the skin has been read, no mesh is pushed and no morph target made. *)
Theorem mdl_importMesh_group_skin (data : list byte)
    (h : MDLFileLoader.Host (num := num)) :
  88 <= byteLength data ->
  int32At data 0 = 1330660425 ->
  int32At data 4 = 6 ->
  1 <= int32At data 48 ->
  int32At data 84 <> 0 ->
  MDLFileLoader.importMesh data h
  = (Return false,
     {| cursor := 88;
        host := {| MDLFileLoader.alerts :=
                     MDLFileLoader.alerts h ++ [MDLFileLoader.GroupSkin 0];
                   MDLFileLoader.meshes := MDLFileLoader.meshes h;
                   MDLFileLoader.managers := MDLFileLoader.managers h |} |}).
Proof.
  intros Hlen Hmagic Hversion Hskins Hgroup.
  unfold MDLFileLoader.importMesh, MDLFileLoader.importMeshBody.
  rewrite bind_readInt32 by (cbn; lia). cbv beta.
  cbn [cursor newBinaryReader advance]. rewrite Hmagic. cbn [Z.eqb Pos.eqb negb].
  rewrite bind_readInt32 by (cbn; lia). cbv beta.
  cbn [cursor newBinaryReader advance]. fold_sums.
  rewrite Hversion. cbn [Z.eqb Pos.eqb negb].
  unfold MDLFileLoader.readHeader, MDLFileLoader.readVector3.
  step_reads.
  cbn [MDLFileLoader.numSkins].
  destruct (Z.to_nat (int32At data 48)) as [|k] eqn:Ek; [lia|].
  cbn [for_]. rewrite bind_bind.
  unfold MDLFileLoader.readSkin at 1.
  step_reads.
  apply Z.eqb_neq in Hgroup. rewrite Hgroup. cbn [negb].
  reflexivity.
Qed.

End MdlSkin.

(** A model with one skin of 2 x 1 pixels, flagged as a group. *)
Lemma mdl_importMesh_group_skin_witness :
  let data := Sample.bytes (Sample.mdlHeader 1 2 1 0 0 0 ++ Sample.le32 1 ++ [7; 9]) in
  (88 <= byteLength data /\ int32At data 0 = 1330660425 /\ int32At data 4 = 6
   /\ 1 <= int32At data 48 /\ int32At data 84 <> 0)
  /\ MDLFileLoader.importMesh data (Sample.emptyMdlHost (num := Q))
     = (Return false,
        {| cursor := 88;
           host := {| MDLFileLoader.alerts := [MDLFileLoader.GroupSkin 0];
                      MDLFileLoader.meshes := Some [];
                      MDLFileLoader.managers := [] |} |}).
Proof.
  intros data.
  assert (H1 : 88 <= byteLength data) by by_compute.
  assert (H2 : int32At data 0 = 1330660425) by by_compute.
  assert (H3 : int32At data 4 = 6) by by_compute.
  assert (H4 : 1 <= int32At data 48) by by_compute.
  assert (H5 : int32At data 84 <> 0) by by_compute.
  split; [ repeat split; assumption | ].
  exact (mdl_importMesh_group_skin data Sample.emptyMdlHost H1 H2 H3 H4 H5).
Defined.

(** ** What a computation leaves alone *)

Section FrameLemmas.
Context {H X : Type} (proj : H -> X).

Lemma keeps_ret {A} (a : A) : keeps proj (ret a).
Proof. intros s. reflexivity. Qed.

Lemma keeps_js_return {A} b : keeps proj (js_return (A := A) b).
Proof. intros s. reflexivity. Qed.

Lemma keeps_lift {A} (r : Res A) : keeps proj (lift r).
Proof. intros s. destruct r; reflexivity. Qed.

Lemma keeps_readAt {A} (get : Z -> Res A) w : keeps proj (readAt get w).
Proof. intros s. unfold readAt. destruct (get (cursor s)); reflexivity. Qed.

Lemma keeps_skipBytes n : keeps proj (skipBytes n).
Proof. intros s. reflexivity. Qed.

Lemma keeps_seekBytes n : keeps proj (seekBytes n).
Proof. intros s. reflexivity. Qed.

Lemma keeps_bind {A B} (m : M H A) (f : A -> M H B) :
  keeps proj m -> (forall a, keeps proj (f a)) -> keeps proj (bind m f).
Proof.
  intros Hm Hf s. unfold bind. specialize (Hm s).
  destruct (m s) as [[a | b | e] s1]; cbn [snd] in *; try assumption.
  rewrite Hf. assumption.
Qed.

Lemma keeps_for {A} (body : Z -> A -> M H A) :
  (forall i a, keeps proj (body i a)) -> forall n i a, keeps proj (for_ n i body a).
Proof.
  intros Hb n. induction n as [|n IH]; intros i a; cbn [for_].
  - apply keeps_ret.
  - apply keeps_bind; [apply Hb | intros a'; apply IH].
Qed.

Section Rets.
Variable P : bool -> Prop.

Lemma rets_ret {A} (a : A) : rets (H := H) P (ret a).
Proof. intros s b. discriminate. Qed.

Lemma rets_js_return {A} b : P b -> rets (H := H) P (js_return (A := A) b).
Proof. intros Hb s b' E. cbn in E. congruence. Qed.

Lemma rets_lift {A} (r : Res A) : rets (H := H) P (lift r).
Proof. intros s b. destruct r; discriminate. Qed.

Lemma rets_readAt {A} (get : Z -> Res A) w : rets (H := H) P (readAt get w).
Proof. intros s b. unfold readAt. destruct (get (cursor s)); discriminate. Qed.

Lemma rets_skipBytes n : rets (H := H) P (skipBytes n).
Proof. intros s b. discriminate. Qed.

Lemma rets_seekBytes n : rets (H := H) P (seekBytes n).
Proof. intros s b. discriminate. Qed.

Lemma rets_getHost : rets (H := H) P getHost.
Proof. intros s b. discriminate. Qed.

Lemma rets_setHost h : rets (H := H) P (setHost h).
Proof. intros s b. discriminate. Qed.

Lemma rets_bind {A B} (m : M H A) (f : A -> M H B) :
  rets (H := H) P m -> (forall a, rets (H := H) P (f a)) -> rets (H := H) P (bind m f).
Proof.
  intros Hm Hf s b. unfold bind. specialize (Hm s).
  destruct (m s) as [[a | b' | e] s1]; cbn [fst] in *.
  - apply Hf.
  - intros E. apply Hm. congruence.
  - discriminate.
Qed.

Lemma rets_for {A} (body : Z -> A -> M H A) :
  (forall i a, rets (H := H) P (body i a)) -> forall n i a, rets (H := H) P (for_ n i body a).
Proof.
  intros Hb n. induction n as [|n IH]; intros i a; cbn [for_].
  - apply rets_ret.
  - apply rets_bind; [apply Hb | intros a'; apply IH].
Qed.

End Rets.

End FrameLemmas.

Ltac keeps_step :=
  first
    [ apply keeps_ret | apply keeps_js_return | apply keeps_lift
    | apply keeps_readAt | apply keeps_skipBytes | apply keeps_seekBytes
    | apply keeps_for | apply keeps_bind
    | match goal with
      | |- keeps _ (let '(_, _) := ?p in _) => destruct p
      | |- keeps _ (if ?c then _ else _) => destruct c
      | |- keeps _ (match ?p with _ => _ end) => destruct p
      end
    | intro ].

Ltac rets_step :=
  first
    [ apply rets_ret | apply rets_lift | apply rets_js_return
    | apply rets_readAt | apply rets_skipBytes | apply rets_seekBytes
    | apply rets_getHost | apply rets_setHost
    | apply rets_for | apply rets_bind
    | match goal with
      | |- rets _ (let '(_, _) := ?p in _) => destruct p
      | |- rets _ (if ?c then _ else _) => destruct c
      | |- rets _ (match ?p with _ => _ end) => destruct p
      end
    | intro ].

(** ** How a call of the model loader can end *)

Section MdlFrames.
Context {num : Type} {N : Number num}.
Variable data : list byte.
Local Abbreviation Host := (MDLFileLoader.Host (num := num)).

Lemma keeps_alert a : keeps (meshesOf (num := num)) (MDLFileLoader.alert a).
Proof. intros s. reflexivity. Qed.

Lemma keeps_newManager : keeps (meshesOf (num := num)) MDLFileLoader.newManager.
Proof. intros s. reflexivity. Qed.

Lemma keeps_addTarget m t : keeps (meshesOf (num := num)) (MDLFileLoader.addTarget m t).
Proof. intros s. reflexivity. Qed.

Lemma keeps_parseFrame header : keeps (meshesOf (num := num)) (MDLFileLoader.parseFrame data header).
Proof.
  unfold MDLFileLoader.parseFrame, readUint8.
  repeat keeps_step.
Qed.

Lemma rets_parseFrame P header : rets P (MDLFileLoader.parseFrame data header).
Proof.
  unfold MDLFileLoader.parseFrame, readUint8.
  repeat rets_step.
Qed.

Lemma keeps_readFrameRecord header indices onSeam faceFront uvs manager :
  keeps (meshesOf (num := num))
    (MDLFileLoader.readFrameRecord data header indices onSeam faceFront uvs manager).
Proof.
  unfold MDLFileLoader.readFrameRecord, readInt32.
  repeat first [ apply keeps_parseFrame | apply keeps_addTarget | keeps_step ].
Qed.

Lemma rets_readFrameRecord P header indices onSeam faceFront uvs manager :
  rets P (MDLFileLoader.readFrameRecord data header indices onSeam faceFront uvs manager).
Proof.
  unfold MDLFileLoader.readFrameRecord, readInt32, MDLFileLoader.addTarget.
  repeat first [ apply rets_parseFrame | rets_step ].
Qed.

Lemma keeps_readHeader : keeps (meshesOf (num := num)) (MDLFileLoader.readHeader data).
Proof.
  unfold MDLFileLoader.readHeader, MDLFileLoader.readVector3, readInt32, readFloat32.
  repeat keeps_step.
Qed.

Lemma rets_readHeader P : rets P (MDLFileLoader.readHeader data).
Proof.
  unfold MDLFileLoader.readHeader, MDLFileLoader.readVector3, readInt32, readFloat32.
  repeat rets_step.
Qed.

Lemma keeps_readSkin header index textures :
  keeps (meshesOf (num := num)) (MDLFileLoader.readSkin data header index textures).
Proof.
  unfold MDLFileLoader.readSkin, readInt32, readUint8.
  repeat first [ apply keeps_alert | keeps_step ].
Qed.

Lemma rets_readSkin header index textures :
  rets (H := Host) (fun b => b = false) (MDLFileLoader.readSkin data header index textures).
Proof.
  unfold MDLFileLoader.readSkin, readInt32, readUint8, MDLFileLoader.alert.
  repeat first [ rets_step | reflexivity ].
Qed.

Lemma keeps_readUVs header : keeps (meshesOf (num := num)) (MDLFileLoader.readUVs data header).
Proof.
  unfold MDLFileLoader.readUVs, readInt32. repeat keeps_step.
Qed.

Lemma rets_readUVs P header : rets P (MDLFileLoader.readUVs data header).
Proof.
  unfold MDLFileLoader.readUVs, readInt32. repeat rets_step.
Qed.

Lemma keeps_readTriangles header : keeps (meshesOf (num := num)) (MDLFileLoader.readTriangles data header).
Proof.
  unfold MDLFileLoader.readTriangles, readInt32. repeat keeps_step.
Qed.

Lemma rets_readTriangles P header :
  rets (H := Host) P (MDLFileLoader.readTriangles data header).
Proof.
  unfold MDLFileLoader.readTriangles, readInt32. repeat rets_step.
Qed.

Lemma satisfies_bind {A} (m : M Host A) (f : A -> M Host bool) :
  keeps (meshesOf (num := num)) m -> rets (fun b => b = false) m ->
  (forall a, satisfies (num := num) (f a)) -> satisfies (num := num) (bind m f).
Proof.
  intros Hk Hr Hf s. unfold bind.
  specialize (Hk s). specialize (Hr s). specialize (Hf).
  destruct (m s) as [[a | b | e] s1] eqn:E; cbn [fst snd] in *.
  - specialize (Hf a s1). unfold meshesOf in Hk.
    destruct (fst (f a s1)) as [? | [] | ?]; cbn in *;
      unfold unchanged, pushedOne in *; rewrite <- ?Hk; assumption.
  - rewrite (Hr b eq_refl). exact Hk.
  - left. exact Hk.
Qed.

Lemma satisfies_alert_return a :
  satisfies (num := num) (let* _ := MDLFileLoader.alert a in js_return false).
Proof. intros s. reflexivity. Qed.

Lemma satisfies_after_push (mesh : MDLFileLoader.Mesh) (frames : M Host unit) :
  keeps (meshesOf (num := num)) frames -> rets (fun _ => False) frames ->
  satisfies (num := num) (let* _ := MDLFileLoader.pushMesh mesh in
             let* _ := frames in js_return true).
Proof.
  intros Hk Hr s.
  destruct (MDLFileLoader.meshes (host s)) as [ms|] eqn:Ems.
  - set (s1 := {| cursor := cursor s;
                  host := {| MDLFileLoader.alerts := MDLFileLoader.alerts (host s);
                             MDLFileLoader.meshes := Some (ms ++ [mesh]);
                             MDLFileLoader.managers := MDLFileLoader.managers (host s) |} |}).
    assert (Epush : MDLFileLoader.pushMesh mesh s = (Ok tt, s1)).
    { unfold MDLFileLoader.pushMesh, bind, getHost. now rewrite Ems. }
    rewrite (bind_Ok _ _ _ _ _ Epush).
    specialize (Hk s1). specialize (Hr s1). unfold meshesOf in Hk.
    assert (P1 : forall s2, MDLFileLoader.meshes (host s2) = MDLFileLoader.meshes (host s1) ->
                            pushedOne (num := num) (host s) (host s2)).
    { intros s2 E2. exists ms, mesh. split; [assumption | now rewrite E2]. }
    destruct (frames s1) as [[[] | b | e] s2] eqn:Ef; cbn [fst snd] in *.
    + rewrite (bind_Ok _ _ _ _ _ Ef). cbn. now apply P1.
    + exfalso. exact (Hr b eq_refl).
    + rewrite (bind_Throw _ _ _ _ _ Ef). cbn. right. now apply P1.
  - assert (Epush : MDLFileLoader.pushMesh mesh s = (Throw TypeError, s)).
    { unfold MDLFileLoader.pushMesh, bind, getHost. now rewrite Ems. }
    rewrite (bind_Throw _ _ _ _ _ Epush). left. reflexivity.
Qed.

Lemma importMesh_completion (h : Host) :
  outcomeSpec h (fst (MDLFileLoader.importMesh data h))
              (host (snd (MDLFileLoader.importMesh data h))).
Proof.
  unfold MDLFileLoader.importMesh.
  change h with (host (newBinaryReader h)) at 1.
  generalize (newBinaryReader h).
  change (satisfies (MDLFileLoader.importMeshBody data)).
  unfold MDLFileLoader.importMeshBody.
  apply satisfies_bind; [apply keeps_readAt | apply rets_readAt | intros magic].
  destruct (negb _); [apply satisfies_alert_return|].
  apply satisfies_bind; [apply keeps_readAt | apply rets_readAt | intros version].
  destruct (negb _); [apply satisfies_alert_return|].
  apply satisfies_bind; [apply keeps_readHeader | apply rets_readHeader | intros header].
  apply satisfies_bind;
    [apply keeps_for; intros; apply keeps_readSkin
    |apply rets_for; intros; apply rets_readSkin | intros textures].
  apply satisfies_bind; [apply keeps_readUVs | apply rets_readUVs | intros [onSeam uvs]].
  apply satisfies_bind;
    [apply keeps_readTriangles | apply rets_readTriangles | intros [indices faceFront]].
  do 4 (apply satisfies_bind; [apply keeps_lift | apply rets_lift | intro]).
  apply satisfies_bind;
    [apply keeps_newManager
    |unfold MDLFileLoader.newManager; repeat rets_step | intros manager].
  apply satisfies_after_push.
  - apply keeps_for. intros. apply keeps_readFrameRecord.
  - apply rets_for. intros. apply rets_readFrameRecord.
Qed.

(** A wrong magic number, or a wrong version after a good magic number,
    makes [importMesh] alert and return [false]. *)
Lemma importMesh_bad_magic (h : Host) :
  (4 <= byteLength data /\ int32At data 0 <> 1330660425)
  \/ (8 <= byteLength data /\ int32At data 0 = 1330660425 /\ int32At data 4 <> 6) ->
  fst (MDLFileLoader.importMesh data h) = Return false
  /\ MDLFileLoader.alerts (host (snd (MDLFileLoader.importMesh data h)))
     = MDLFileLoader.alerts h ++ [MDLFileLoader.NotMDL].
Proof.
  intros Hbad. unfold MDLFileLoader.importMesh, MDLFileLoader.importMeshBody.
  destruct Hbad as [[Hlen Hmagic] | (Hlen & Hmagic & Hversion)].
  - rewrite bind_readInt32 by (cbn; lia). cbv beta. cbn [cursor newBinaryReader].
    apply Z.eqb_neq in Hmagic. rewrite Hmagic. split; reflexivity.
  - rewrite bind_readInt32 by (cbn; lia). cbv beta. cbn [cursor newBinaryReader].
    rewrite Hmagic. cbn [Z.eqb Pos.eqb negb].
    rewrite bind_readInt32 by (cbn; lia). cbv beta. cbn [cursor newBinaryReader advance].
    fold_sums. apply Z.eqb_neq in Hversion. rewrite Hversion. split; reflexivity.
Qed.

End MdlFrames.

(** C9, as stated, fails: a header that announces a frame the file does
    not contain raises [RangeError] after the mesh has been pushed. *)
Lemma mdl_importMesh_partial_output :
  let r := MDLFileLoader.importMesh Sample.truncatedModel (Sample.emptyMdlHost (num := Q)) in
  fst r = Throw RangeError
  /\ MDLFileLoader.meshes (host (snd r)) <> MDLFileLoader.meshes (Sample.emptyMdlHost (num := Q)).
Proof. vm_compute. split; [reflexivity | discriminate]. Qed.

(** ** Lists indexed by integers *)

Section ZLists.
Context {A : Type}.
Implicit Types (l : list A) (i j : Z) (x : A).

Lemma zset_length l i x : length (zset l i x) = length l.
Proof. unfold zset. destruct (i <? 0); [reflexivity | apply length_insert]. Qed.

Lemma zget_zset_eq l i j x :
  i = j -> 0 <= i -> i < Z.of_nat (length l) -> zget (zset l i x) j = Some x.
Proof.
  intros <- H0 H1. unfold zget, zset.
  destruct (i <? 0) eqn:E; [apply Z.ltb_lt in E; lia|].
  apply list_lookup_insert_eq. lia.
Qed.

Lemma zget_zset_ne l i j x : i <> j -> zget (zset l i x) j = zget l j.
Proof.
  intros Hne. unfold zget, zset.
  destruct (j <? 0) eqn:Ej; [reflexivity|].
  destruct (i <? 0) eqn:Ei; [reflexivity|].
  apply Z.ltb_ge in Ej, Ei.
  apply list_lookup_insert_ne. lia.
Qed.

Lemma zget_Some_lt l i x : zget l i = Some x -> 0 <= i < Z.of_nat (length l).
Proof.
  unfold zget. destruct (i <? 0) eqn:E; [discriminate|].
  apply Z.ltb_ge in E. intros Hl. apply lookup_lt_Some in Hl. lia.
Qed.

Lemma zget_lt_Some l i : 0 <= i < Z.of_nat (length l) -> exists x, zget l i = Some x.
Proof.
  intros [H0 H1]. unfold zget.
  destruct (i <? 0) eqn:E; [apply Z.ltb_lt in E; lia|].
  destruct (lookup_lt_is_Some_2 l (Z.to_nat i)) as [x Hx]; [lia|]. now exists x.
Qed.

Lemma zget_ge_None l i : Z.of_nat (length l) <= i -> zget l i = None.
Proof.
  intros Hge. unfold zget. destruct (i <? 0); [reflexivity|].
  apply lookup_ge_None. lia.
Qed.

Lemma zget_replicate n x i :
  0 <= i < Z.of_nat n -> zget (replicate n x) i = Some x.
Proof.
  intros [H0 H1]. unfold zget.
  destruct (i <? 0) eqn:E; [apply Z.ltb_lt in E; lia|].
  apply lookup_replicate_2. lia.
Qed.

End ZLists.

Lemma newTyped_ok {A} (zero : A) n l :
  newTyped zero n = ROk l -> 0 <= n /\ l = replicate (Z.to_nat n) zero.
Proof.
  unfold newTyped. destruct (n <? 0) eqn:E; [discriminate|].
  apply Z.ltb_ge in E. intros [= <-]. split; [assumption | reflexivity].
Qed.

Lemma for_pure_inv {A} (Inv : Z -> A -> Prop) (body : Z -> A -> A) n :
  forall i0 a,
    Inv i0 a ->
    (forall i a, i0 <= i < i0 + Z.of_nat n -> Inv i a -> Inv (i + 1) (body i a)) ->
    Inv (i0 + Z.of_nat n) (for_pure n i0 body a).
Proof.
  induction n as [|n IH]; intros i0 a H0 Hstep; cbn [for_pure].
  - now replace (i0 + Z.of_nat 0) with i0 by lia.
  - replace (i0 + Z.of_nat (S n)) with ((i0 + 1) + Z.of_nat n) by lia.
    apply IH.
    + apply Hstep; [lia | assumption].
    + intros i a' Hi. apply Hstep. lia.
Qed.

(** ** Texture coordinates of model corners *)

Section MdlExpand.
Context {num : Type} {N : Number num}.
Local Abbreviation Header := (MDLFileLoader.Header (num := num)).

Variables (header : Header) (indices onSeam faceFront : list Z) (uvs : list num)
  (frame : MDLFileLoader.Frame (num := num)).

Local Abbreviation corner := (MDLFileLoader.expandCorner header indices onSeam faceFront uvs frame).

Lemma expandCorner_uvs i j p2 n2 u2 :
  let u' := snd (corner i j (p2, n2, u2)) in
  length u' = length u2
  /\ (forall q, q <> 2 * (3 * i + j) -> q <> 2 * (3 * i + j) + 1 -> zget u' q = zget u2 q)
  /\ (0 <= 3 * i + j -> 2 * (3 * i + j) + 1 < Z.of_nat (length u2) ->
      zget u' (2 * (3 * i + j)) = Some (fst (emittedCornerUV header indices onSeam faceFront uvs i j))
      /\ zget u' (2 * (3 * i + j) + 1)
         = Some (snd (emittedCornerUV header indices onSeam faceFront uvs i j))).
Proof.
  unfold MDLFileLoader.expandCorner, emittedCornerUV. cbn [snd fst].
  repeat split.
  - now rewrite !zset_length.
  - intros q H1 H2. rewrite !zget_zset_ne by lia. reflexivity.
  - rewrite zget_zset_ne by lia. apply zget_zset_eq; rewrite ?zset_length; lia.
  - apply zget_zset_eq; rewrite ?zset_length; lia.
Qed.

Lemma expandTriangle_uvs i (acc : list num * list num * list num) :
  let acc' := for_pure 3 0 (corner i) acc in
  length (snd acc') = length (snd acc)
  /\ (forall q, q < 2 * (3 * i) \/ 2 * (3 * i + 3) <= q -> zget (snd acc') q = zget (snd acc) q)
  /\ (0 <= i -> 2 * (3 * i + 3) <= Z.of_nat (length (snd acc)) ->
      forall j, 0 <= j < 3 ->
        zget (snd acc') (2 * (3 * i + j))
        = Some (fst (emittedCornerUV header indices onSeam faceFront uvs i j))
        /\ zget (snd acc') (2 * (3 * i + j) + 1)
           = Some (snd (emittedCornerUV header indices onSeam faceFront uvs i j))).
Proof.
  cbn [for_pure]. change (0 + 1) with 1. change (1 + 1) with 2.
  destruct acc as [[p0 n0] u0].
  destruct (corner i 0 (p0, n0, u0)) as [[p1 n1] u1] eqn:E1.
  destruct (corner i 1 (p1, n1, u1)) as [[p2 n2] u2] eqn:E2.
  destruct (corner i 2 (p2, n2, u2)) as [[p3 n3] u3] eqn:E3.
  pose proof (expandCorner_uvs i 0 p0 n0 u0) as (L1 & F1 & W1).
  pose proof (expandCorner_uvs i 1 p1 n1 u1) as (L2 & F2 & W2).
  pose proof (expandCorner_uvs i 2 p2 n2 u2) as (L3 & F3 & W3).
  rewrite E1 in L1, F1, W1. rewrite E2 in L2, F2, W2. rewrite E3 in L3, F3, W3.
  cbn [snd] in *.
  split; [congruence|]. split.
  - intros q Hq. rewrite F3, F2, F1 by lia. reflexivity.
  - intros Hi Hlen j Hj.
    assert (Hcases : j = 0 \/ j = 1 \/ j = 2) by lia.
    destruct Hcases as [-> | [-> | ->]].
    + rewrite !F3, !F2 by lia. apply W1; lia.
    + rewrite !F3 by lia. apply W2; lia.
    + apply W3; lia.
Qed.

(** Every corner of a decoded frame carries the texture coordinates
    [emittedCornerUV] computes for it. *)
Lemma expandFrame_uvs target :
  MDLFileLoader.expandFrame header indices onSeam faceFront uvs frame = ROk target ->
  forall i j, 0 <= i < MDLFileLoader.numTriangles header -> 0 <= j < 3 ->
    zget (MDLFileLoader.target_uvs target) (2 * (3 * i + j))
    = Some (fst (emittedCornerUV header indices onSeam faceFront uvs i j))
    /\ zget (MDLFileLoader.target_uvs target) (2 * (3 * i + j) + 1)
       = Some (snd (emittedCornerUV header indices onSeam faceFront uvs i j)).
Proof.
  unfold MDLFileLoader.expandFrame.
  set (T := MDLFileLoader.numTriangles header).
  destruct (newTyped _ (3 * 3 * T)) as [p0|] eqn:Ep; [|discriminate].
  cbn [rbind].
  destruct (newTyped _ (2 * 3 * T)) as [u0|] eqn:Eu; [|discriminate].
  cbn [rbind].
  apply newTyped_ok in Eu as [HT ->].
  set (body := fun i acc => for_pure 3 0 (corner i) acc).
  set (acc0 := (p0, p0, replicate (Z.to_nat (2 * 3 * T)) MDLFileLoader.zeroNum)).
  pose (Inv := fun (i : Z) (acc : list num * list num * list num) =>
    length (snd acc) = Z.to_nat (2 * 3 * T)
    /\ forall i' j, 0 <= i' < i -> 0 <= j < 3 ->
        zget (snd acc) (2 * (3 * i' + j))
        = Some (fst (emittedCornerUV header indices onSeam faceFront uvs i' j))
        /\ zget (snd acc) (2 * (3 * i' + j) + 1)
           = Some (snd (emittedCornerUV header indices onSeam faceFront uvs i' j))).
  assert (HInv : Inv (0 + Z.of_nat (Z.to_nat T)) (for_pure (Z.to_nat T) 0 body acc0)).
  { apply for_pure_inv.
    - split; [apply length_replicate | intros; lia].
    - intros i acc Hi [Hlen Hprev].
      pose proof (expandTriangle_uvs i acc) as (L & F & W).
      split; [unfold body; congruence|].
      intros i' j Hi' Hj.
      destruct (Z.eq_dec i' i) as [-> | Hne].
      + apply W; lia.
      + unfold body. rewrite !F by lia. apply Hprev; lia. }
  destruct (for_pure (Z.to_nat T) 0 body acc0) as [[p n] u] eqn:E.
  intros [= <-]. cbn [MDLFileLoader.target_uvs].
  destruct HInv as [_ HInv]. intros i j Hi Hj. apply HInv; lia.
Qed.

End MdlExpand.

(** ** The normal table is indexed without a check *)

Lemma anormals_length {num : Type} {N : Number num} :
  length (MDLFileLoader.anormals (num := num)) = 162%nat.
Proof. reflexivity. Qed.

(** C10: the table of normals has 162 entries, so a lookup at 162 or more
    is outside it; [parseFrame] makes the lookup with the byte it has read,
    whatever its value.  A model that is well formed in every other respect
    (it loads when the byte is 161) reaches the out-of-table branch when
    the byte is 200: the call ends in [TypeError], the cursor just past
    the normal-index byte. *)
Theorem mdl_normal_index_unchecked :
  forall (num : Type) (N : Number num),
    length (MDLFileLoader.anormals (num := num)) = 162%nat
    /\ (forall normalIndex,
          162 <= normalIndex -> zget (MDLFileLoader.anormals (num := num)) normalIndex = None)
    /\ fst (MDLFileLoader.importMesh (Sample.oneVertexModel 161)
              (Sample.emptyMdlHost (num := num))) = Return true
    /\ exists normalIndex,
         162 <= normalIndex <= 255
         /\ byteAt (Sample.oneVertexModel normalIndex) 143 = normalIndex
         /\ fst (MDLFileLoader.importMesh (Sample.oneVertexModel normalIndex)
                   (Sample.emptyMdlHost (num := num))) = Throw TypeError
         /\ cursor (snd (MDLFileLoader.importMesh (Sample.oneVertexModel normalIndex)
                           (Sample.emptyMdlHost (num := num)))) = 144.
Proof.
  intros num N. split; [apply anormals_length|]. split.
  - intros normalIndex Hge. apply zget_ge_None. rewrite anormals_length. lia.
  - split; [vm_compute; reflexivity|].
    exists 200. split; [lia|]. repeat split; vm_compute; reflexivity.
Qed.

(** ** Grouped frames *)

(** C4 fails on the code: a grouped frame record with one sub-frame of one
    vertex occupies [4 + groupFrameBytes 1 1 = 48] bytes, but the group
    branch skips twelve bytes for the two 4-byte bounding-box records and so
    consumes 52.  On a file that ends with the record the last vertex read
    runs off the buffer; with four bytes of padding the call succeeds and
    the cursor ends four bytes past the record. *)
Theorem mdl_group_frame_overrun :
  forall (num : Type) (N : Number num),
    byteLength Sample.groupModel = Sample.framesStart + 4 + Spec.groupFrameBytes 1 1
    /\ fst (MDLFileLoader.importMesh Sample.groupModel (Sample.emptyMdlHost (num := num)))
       = Throw RangeError
    /\ fst (MDLFileLoader.importMesh Sample.groupModelPadded
              (Sample.emptyMdlHost (num := num))) = Return true
    /\ cursor (snd (MDLFileLoader.importMesh Sample.groupModelPadded
                      (Sample.emptyMdlHost (num := num))))
       = Sample.framesStart + 4 + Spec.groupFrameBytes 1 1 + 4.
Proof. intros num N. repeat split; vm_compute; reflexivity. Qed.

(** C6 fails on the code, for the same reason: in a file holding a grouped
    frame and then a single frame, the decoder is four bytes off after the
    group, takes the single frame's bounding box for a group flag, and
    returns [true] without having made a snapshot of the one non-grouped
    frame record the file contains. *)
Theorem mdl_group_frame_hides_next_frame :
  forall (num : Type) (N : Number num),
    byteLength Sample.groupThenSimpleModel
    = Sample.framesStart + (4 + Spec.groupFrameBytes 1 1) + (4 + Spec.simpleFrameBytes 1)
    /\ Spec.frameRecords Sample.groupThenSimpleModel 1 2 Sample.framesStart = [true; false]
    /\ Spec.nonGroupedCount
         (Spec.frameRecords Sample.groupThenSimpleModel 1 2 Sample.framesStart) = 1%nat
    /\ fst (MDLFileLoader.importMesh Sample.groupThenSimpleModel
              (Sample.emptyMdlHost (num := num))) = Return true
    /\ MDLFileLoader.managers
         (host (snd (MDLFileLoader.importMesh Sample.groupThenSimpleModel
                       (Sample.emptyMdlHost (num := num))))) = [[]].
Proof. intros num N. repeat split; vm_compute; reflexivity. Qed.

(** ** More on integer-indexed lists and pure loops *)

Section ZLists3.
Context {A B : Type}.
Lemma lookup_map (f : A -> B) (l : list A) (n : nat) :
  map f l !! n = option_map f (l !! n).
Proof.
  revert n. induction l as [|x l IH]; intros [|n]; cbn; try reflexivity. apply IH.
Qed.
Lemma zget_map (f : A -> B) (l : list A) i : zget (map f l) i = option_map f (zget l i).
Proof. unfold zget. destruct (i <? 0); [reflexivity | apply lookup_map]. Qed.
End ZLists3.

Section ZLists4.
Context {A : Type}.
Lemma zget_app_l (l1 l2 : list A) i :
  i < Z.of_nat (length l1) -> zget (l1 ++ l2) i = zget l1 i.
Proof.
  intros Hi. unfold zget. destruct (i <? 0) eqn:E; [reflexivity|].
  apply Z.ltb_ge in E. apply lookup_app_l. lia.
Qed.
Lemma zget_app_last (l : list A) x i :
  i = Z.of_nat (length l) -> zget (l ++ [x]) i = Some x.
Proof.
  intros ->. unfold zget.
  destruct (Z.of_nat (length l) <? 0) eqn:E; [apply Z.ltb_lt in E; lia|].
  rewrite lookup_app_r by lia.
  now replace (Z.to_nat (Z.of_nat (length l)) - length l)%nat with 0%nat by lia.
Qed.
End ZLists4.

Section ZLists5.
Context {A : Type}.
End ZLists5.

Lemma for_res_inv {A} (Inv : Z -> A -> Prop) (body : Z -> A -> Res A) n :
  forall i0 a,
    Inv i0 a ->
    (forall i a, i0 <= i < i0 + Z.of_nat n -> Inv i a ->
                 exists a', body i a = ROk a' /\ Inv (i + 1) a') ->
    exists a', for_res n i0 body a = ROk a' /\ Inv (i0 + Z.of_nat n) a'.
Proof.
  induction n as [|n IH]; intros i0 a H0 Hstep; cbn [for_res].
  - exists a. split; [reflexivity|]. now replace (i0 + Z.of_nat 0) with i0 by lia.
  - destruct (Hstep i0 a) as (a1 & E1 & H1); [lia | assumption |].
    rewrite E1. cbn [rbind].
    replace (i0 + Z.of_nat (S n)) with ((i0 + 1) + Z.of_nat n) by lia.
    apply IH; [assumption|]. intros i a' Hi. apply Hstep. lia.
Qed.






(** ** Walking the edge list of a face *)

(** C1 (amended): when the entries of a face's edge-list range and the
    edges they name exist, the walk yields a loop of [numLedges] vertex
    indices, entry [k] giving an endpoint of the edge at its absolute
    value: the second endpoint ([v1], where the edge ends) when the entry is
    not negative, the first ([v0]) when it is negative. *)
Theorem bsp_polygon_walk (edges : list (Z * Z)) (ledges : list Z) (start numLedges : Z) :
  0 <= numLedges ->
  (forall j, start <= j < start + numLedges ->
             exists e edge, zget ledges j = Some e /\ zget edges (Z.abs e) = Some edge) ->
  exists polygon,
    BSPFileLoader.extractPolygon edges ledges start numLedges = ROk polygon
    /\ length polygon = Z.to_nat numLedges
    /\ forall k e v0 v1,
         0 <= k < numLedges ->
         zget ledges (start + k) = Some e ->
         zget edges (Z.abs e) = Some (v0, v1) ->
         zget polygon k = Some (if e <? 0 then v0 else v1).
Proof.
  intros Hn Hin. unfold BSPFileLoader.extractPolygon.
  pose (Inv := fun (j : Z) (polygon : list Z) =>
    Z.of_nat (length polygon) = j - start
    /\ forall k e v0 v1,
         0 <= k < j - start ->
         zget ledges (start + k) = Some e ->
         zget edges (Z.abs e) = Some (v0, v1) ->
         zget polygon k = Some (if e <? 0 then v0 else v1)).
  destruct (for_res_inv Inv
              (fun j polygon =>
                 let? edgeIndex := defined (zget ledges j) in
                 let? edge := defined (zget edges (Z.abs edgeIndex)) in
                 ROk (polygon ++ [if edgeIndex <? 0 then fst edge else snd edge]))
              (Z.to_nat numLedges) start [])
    as (polygon & E & Hlen & Hall).
  - split; [cbn; lia | intros; lia].
  - intros j polygon Hj [Hlen Hprev].
    destruct (Hin j) as (e & edge & He & Hedge); [lia|].
    rewrite He. cbn [defined rbind]. rewrite Hedge. cbn [defined rbind].
    eexists. split; [reflexivity|]. split.
    + rewrite length_app. cbn [length]. lia.
    + intros k e' v0 v1 Hk He' Hedge'.
      destruct (Z.eq_dec k (j - start)) as [-> | Hne].
      * replace (start + (j - start)) with j in He' by lia.
        assert (e' = e) by congruence. subst e'.
        assert (edge = (v0, v1)) by congruence. subst edge. cbn [fst snd].
        apply zget_app_last. lia.
      * rewrite zget_app_l by lia. apply (Hprev k e' v0 v1); [lia | assumption | assumption].
  - exists polygon. split; [exact E|]. split; [lia|].
    intros k e v0 v1 Hk. apply Hall. lia.
Qed.

(** C1, as stated, fails: for the triangular face of the sample level the
    walk yields the end of each edge in walking order, [2; 3; 0], where the
    specification's rule ([v0] for a positive entry, [v1] for a negative
    one) gives [0; 2; 3]. *)
Lemma bsp_polygon_endpoints_swapped :
  BSPFileLoader.extractPolygon Sample.levelEdges Sample.levelLedges 4 3 = ROk [2; 3; 0]
  /\ map (Spec.resolveEndpoint Sample.levelEdges) [-5; 3; 4] = [Some 0; Some 2; Some 3]
  /\ map Some [2; 3; 0] <> map (Spec.resolveEndpoint Sample.levelEdges) [-5; 3; 4].
Proof.
  split; [vm_compute; reflexivity|].
  split; [vm_compute; reflexivity | vm_compute; discriminate].
Qed.

(** The triangular face of the sample level. *)
Lemma bsp_polygon_walk_witness :
  (0 <= 3
   /\ forall j, 4 <= j < 4 + 3 ->
         exists e edge, zget Sample.levelLedges j = Some e
                        /\ zget Sample.levelEdges (Z.abs e) = Some edge)
  /\ exists polygon,
      BSPFileLoader.extractPolygon Sample.levelEdges Sample.levelLedges 4 3 = ROk polygon
      /\ length polygon = Z.to_nat 3
      /\ forall k e v0 v1,
           0 <= k < 3 ->
           zget Sample.levelLedges (4 + k) = Some e ->
           zget Sample.levelEdges (Z.abs e) = Some (v0, v1) ->
           zget polygon k = Some (if e <? 0 then v0 else v1).
Proof.
  assert (H1 : 0 <= 3) by lia.
  assert (H2 : forall j, 4 <= j < 4 + 3 ->
                 exists e edge, zget Sample.levelLedges j = Some e
                                /\ zget Sample.levelEdges (Z.abs e) = Some edge).
  { intros j Hj. assert (Hc : j = 4 \/ j = 5 \/ j = 6) by lia.
    destruct Hc as [-> | [-> | ->]]; eexists; eexists; split; reflexivity. }
  split; [split; assumption|].
  exact (bsp_polygon_walk Sample.levelEdges Sample.levelLedges 4 3 H1 H2).
Defined.


(** ** Level geometry, slot by slot *)

Section BspGeometry.
Context {num : Type} {N : Number num}.
Local Abbreviation VertexData := (BSPFileLoader.VertexData (num := num)).
Local Abbreviation Texinfo := (BSPFileLoader.Texinfo (num := num)).

Variables (vertices : list (BSPFileLoader.Vector3 (num := num))) (texinfo : Texinfo)
  (miptex : option BSPFileLoader.Miptex).




End BspGeometry.

Section BspFaces.
Context {num : Type} {N : Number num}.
Local Abbreviation VertexData := (BSPFileLoader.VertexData (num := num)).
Local Abbreviation Texinfo := (BSPFileLoader.Texinfo (num := num)).

Variables (vertices : list (BSPFileLoader.Vector3 (num := num)))
  (edges : list (Z * Z)) (texinfos : list Texinfo) (miptexs : list BSPFileLoader.Miptex)
  (ledges : list Z) (fs : list BSPFileLoader.Face) (faceOffsets : list Z) (nt : Z).



Hypothesis Hoffsets : OffsetsOk fs faceOffsets nt.

Lemma offsets_step i face :
  zget fs i = Some face ->
  2 <= BSPFileLoader.numLedges face
  /\ exists o, zget faceOffsets i = Some o
               /\ zget faceOffsets (i + 1) = Some (o + (BSPFileLoader.numLedges face - 2)).
Proof. destruct Hoffsets as (_ & _ & H). apply H. Qed.

Lemma offsets_mono (d : nat) :
  forall i o o',
    0 <= i -> i + Z.of_nat d <= Z.of_nat (length fs) ->
    zget faceOffsets i = Some o -> zget faceOffsets (i + Z.of_nat d) = Some o' ->
    o <= o'.
Proof.
  induction d as [|d IH]; intros i o o' Hi Hle Ho Ho'.
  - replace (i + Z.of_nat 0) with i in Ho' by lia. assert (o = o') by congruence. lia.
  - destruct (zget_lt_Some fs (i + Z.of_nat d)) as [face Hface]; [lia|].
    destruct (offsets_step _ _ Hface) as (Hn & o1 & Ho1 & Ho2).
    replace (i + Z.of_nat d + 1) with (i + Z.of_nat (S d)) in Ho2 by lia.
    assert (o' = o1 + (BSPFileLoader.numLedges face - 2)) by congruence.
    specialize (IH i o o1 Hi ltac:(lia) Ho Ho1). lia.
Qed.




End BspFaces.

Lemma levelOffsets_ok : OffsetsOk Sample.levelFaces Sample.levelFaceOffsets 3.
Proof.
  split; [reflexivity|]. split; [reflexivity|].
  intros i face Hf. pose proof (zget_Some_lt _ _ _ Hf) as Hi. cbn in Hi.
  assert (Hc : i = 0 \/ i = 1) by lia.
  destruct Hc as [-> | ->]; injection Hf as <-; (split; [cbn; lia|]); eexists;
    split; reflexivity.
Qed.

(** ** Indices and sub-meshes *)

Section BspIndices.
Context {num : Type} {N : Number num}.
Local Abbreviation VertexData := (BSPFileLoader.VertexData (num := num)).
Local Abbreviation Texinfo := (BSPFileLoader.Texinfo (num := num)).






End BspIndices.


(** ** The running triangle counts kept while faces are read *)

Lemma for_ok {H A} (Inv : Z -> A -> Prop) (body : Z -> A -> M H A) n :
  forall i0 a s a' s',
    Inv i0 a ->
    (forall i a s a' s', i0 <= i < i0 + Z.of_nat n -> Inv i a ->
                         body i a s = (Ok a', s') -> Inv (i + 1) a') ->
    for_ n i0 body a s = (Ok a', s') ->
    Inv (i0 + Z.of_nat n) a'.
Proof.
  induction n as [|n IH]; intros i0 a s a' s' H0 Hstep; cbn [for_].
  - intros [= <- <-]. now replace (i0 + Z.of_nat 0) with i0 by lia.
  - unfold bind. destruct (body i0 a s) as [[a1 | b | e] s1] eqn:E1; try discriminate.
    intros Hrest.
    replace (i0 + Z.of_nat (S n)) with ((i0 + 1) + Z.of_nat n) by lia.
    apply (IH (i0 + 1) a1 s1 a' s'); [| |assumption].
    + apply (Hstep i0 a s a1 s1); [lia | assumption | assumption].
    + intros i b s2 b' s2' Hi. apply Hstep. lia.
Qed.

Lemma bind_ok_inv {H A B} (m : M H A) (f : A -> M H B) s b s' :
  bind m f s = (Ok b, s') -> exists a s1, m s = (Ok a, s1) /\ f a s1 = (Ok b, s').
Proof.
  unfold bind. destruct (m s) as [[a | r | e] s1]; try discriminate. eauto.
Qed.

Lemma lift_ok_inv {H A} (r : Res A) (s : St H) a s' :
  lift r s = (Ok a, s') -> r = ROk a /\ s' = s.
Proof. destruct r; cbn; [intros [= <- <-]; auto | discriminate]. Qed.

Lemma triangleCount_app fs face :
  triangleCount (fs ++ [face]) = triangleCount fs + (BSPFileLoader.numLedges face - 2).
Proof.
  unfold triangleCount. induction fs as [|f fs IH]; cbn [app fold_right]; [lia | rewrite IH; lia].
Qed.

Lemma triangleCount_take_mono fs :
  Forall (fun face => 2 <= BSPFileLoader.numLedges face) fs ->
  forall k, 0 <= triangleCount (take k fs) <= triangleCount fs.
Proof.
  unfold triangleCount.
  induction 1 as [|f fs Hf _ IH]; intros [|k]; cbn [take fold_right]; try lia.
  - specialize (IH 0%nat). rewrite take_0 in IH. cbn [fold_right] in IH. lia.
  - specialize (IH k). lia.
Qed.

Section ReadFaces.
Context {num : Type} {N : Number num}.
Variable data : list byte.

Lemma readFaces_offsets header s fs faceOffsets numTriangles s' :
  BSPFileLoader.readFaces (num := num) data header s = (Ok (fs, (faceOffsets, numTriangles)), s') ->
  numTriangles = triangleCount fs
  /\ forall k, (k <= length fs)%nat ->
       zget faceOffsets (Z.of_nat k) = Some (toUint32 (triangleCount (take k fs))).
Proof.
  unfold BSPFileLoader.readFaces. intros E.
  apply bind_ok_inv in E as ([] & s1 & _ & E).
  apply bind_ok_inv in E as (n & s2 & En & E). apply lift_ok_inv in En as [En ->].
  apply bind_ok_inv in E as (fo0 & s3 & Efo & E). apply lift_ok_inv in Efo as [Efo ->].
  assert (Hn : 0 <= n).
  { unfold BSPFileLoader.newArrayLength in En.
    destruct (_ =? 0); [|discriminate]. cbn [andb] in En.
    destruct (0 <=? _) eqn:E0; [|discriminate]. cbn [andb] in En.
    destruct (_ <? _); [|discriminate]. injection En as <-. now apply Z.leb_le. }
  apply newTyped_ok in Efo as [_ ->].
  pose (Inv := fun (i : Z) (acc : list BSPFileLoader.Face * (list Z * Z)) =>
    Z.of_nat (length (fst acc)) = i
    /\ length (fst (snd acc)) = Z.to_nat (n + 1)
    /\ snd (snd acc) = triangleCount (fst acc)
    /\ forall k, (k <= length (fst acc))%nat ->
         zget (fst (snd acc)) (Z.of_nat k)
         = Some (toUint32 (triangleCount (take k (fst acc))))).
  assert (HInv : Inv (0 + Z.of_nat (Z.to_nat n)) (fs, (faceOffsets, numTriangles))).
  { eapply (for_ok Inv); [| |exact E].
    - unfold Inv. cbn [fst snd length]. split; [reflexivity|].
      split; [apply length_replicate|]. split; [reflexivity|].
      intros k Hk. assert (k = 0%nat) by lia. subst k. cbn [take].
      apply zget_replicate. lia.
    - intros i [fs1 [fo1 nt1]] t [fs2 [fo2 nt2]] t' Hi (Hlen & Hfo & Hnt & Hall) Eb.
      cbn [fst snd] in *.
      apply bind_ok_inv in Eb as (face & t1 & _ & Eb).
      unfold ret, BSPFileLoader.countFace in Eb. injection Eb as E1 E2 E3 E4.
      subst fs2 fo2 nt2.
      unfold Inv. cbn [fst snd].
      split; [rewrite length_app; cbn [length]; lia|].
      split; [now rewrite zset_length|].
      split; [rewrite triangleCount_app; lia|].
      intros k Hk. rewrite length_app in Hk. cbn [length] in Hk.
      destruct (Nat.eq_dec k (length fs1 + 1)%nat) as [-> | Hne].
      + rewrite take_ge by (rewrite length_app; cbn [length]; lia).
        rewrite triangleCount_app, <- Hnt.
        apply zget_zset_eq; lia.
      + rewrite zget_zset_ne by lia.
        rewrite take_app_le by lia. apply Hall. lia. }
  destruct HInv as (_ & _ & Hnt & Hall). cbn [fst snd] in *. split; assumption.
Qed.

(** For a face table whose faces all have at least two edges and whose
    triangles number less than [2^32], the running counts kept while the
    faces are read are what [OffsetsOk] asks for. *)
Lemma readFaces_OffsetsOk header s fs faceOffsets numTriangles s' :
  BSPFileLoader.readFaces (num := num) data header s = (Ok (fs, (faceOffsets, numTriangles)), s') ->
  Forall (fun face => 2 <= BSPFileLoader.numLedges face) fs ->
  numTriangles < 2 ^ 32 ->
  OffsetsOk fs faceOffsets numTriangles.
Proof.
  intros E Hall Hsmall.
  destruct (readFaces_offsets _ _ _ _ _ _ E) as [-> Hfo].
  assert (Hu : forall k, toUint32 (triangleCount (take k fs)) = triangleCount (take k fs)).
  { intros k. pose proof (triangleCount_take_mono fs Hall k).
    unfold toUint32. apply Z.mod_small. lia. }
  split; [|split].
  - pose proof (Hfo 0%nat ltac:(lia)) as H0. rewrite Hu in H0. exact H0.
  - pose proof (Hfo (length fs) ltac:(lia)) as Hl. rewrite Hu, take_ge in Hl by lia. exact Hl.
  - intros i face Hf.
    pose proof (zget_Some_lt _ _ _ Hf) as Hi.
    assert (Hlook : fs !! Z.to_nat i = Some face).
    { unfold zget in Hf. destruct (i <? 0) eqn:Ei; [discriminate | assumption]. }
    split.
    + exact (Forall_lookup_1 _ _ _ _ Hall Hlook).
    + exists (triangleCount (take (Z.to_nat i) fs)). split.
      * rewrite <- Hu, <- Hfo by lia. f_equal. lia.
      * replace (i + 1) with (Z.of_nat (S (Z.to_nat i))) by lia.
        rewrite Hfo by lia. rewrite Hu.
        rewrite (take_S_r _ _ _ Hlook), triangleCount_app. reflexivity.
Qed.

End ReadFaces.

(** ** The sample level, from bytes to mesh *)

Example float32_bits_sample :
  (float32_bits_to_Q 1115684864 == 64)%Q        (* 0x42800000 *)
  /\ (float32_bits_to_Q 1065353216 == 1)%Q     (* 0x3F800000 *)
  /\ (float32_bits_to_Q 3204448256 == - (1 # 2))%Q. (* 0xBF000000 *)
Proof. split; [|split]; vm_compute; reflexivity. Qed.

(** The sample level file decodes to the sample tables: the call returns
    [true] and pushes one mesh with the geometry and the two sub-meshes
    computed from the tables, and one material. *)
Example bsp_importMesh_sample_level :
  let r := BSPFileLoader.importMesh Sample.levelFile (Sample.emptyBspHost (num := Q)) in
  fst r = Return true
  /\ exists mesh,
      BSPFileLoader.meshes (host (snd r)) = Some [mesh]
      /\ map Qred (BSPFileLoader.vd_positions (BSPFileLoader.mesh_vertexData mesh))
         = map Qred (BSPFileLoader.vd_positions Sample.levelGeometry)
      /\ map Qred (BSPFileLoader.vd_uvs (BSPFileLoader.mesh_vertexData mesh))
         = map Qred (BSPFileLoader.vd_uvs Sample.levelGeometry)
      /\ BSPFileLoader.vd_indices (BSPFileLoader.mesh_vertexData mesh)
         = BSPFileLoader.vd_indices Sample.levelGeometry
      /\ BSPFileLoader.mesh_subMeshes mesh = Sample.levelSubMeshes
      /\ map BSPFileLoader.material_name (BSPFileLoader.mesh_material mesh) = [[119]].
Proof.
  cbv zeta. split; [vm_compute; reflexivity|].
  eexists. split; [vm_compute; reflexivity|].
  repeat (split; [vm_compute; reflexivity|]). vm_compute; reflexivity.
Qed.

(** ** The samples in IEEE arithmetic *)

(** In binary64/binary32 arithmetic the sample level yields 6.4 and 3.2
    rounded to binary32 for the scaled coordinates, and the same texture
    coordinates as in exact arithmetic. *)
Example bsp_importMesh_sample_level_ieee :
  let r := BSPFileLoader.importMesh (N := Ieee.IeeeNumber) Sample.levelFile
             Sample.emptyBspHost in
  fst r = Return true
  /\ exists mesh,
      BSPFileLoader.meshes (host (snd r)) = Some [mesh]
      /\ map Ieee.toQ (take 6 (BSPFileLoader.vd_positions (BSPFileLoader.mesh_vertexData mesh)))
         = [13421773 # 2097152; 0; 0; 13421773 # 2097152; 13421773 # 4194304; 0]%Q
      /\ map Ieee.toQ (BSPFileLoader.vd_uvs (BSPFileLoader.mesh_vertexData mesh))
         = map Qred (BSPFileLoader.vd_uvs Sample.levelGeometry)
      /\ BSPFileLoader.mesh_subMeshes mesh = Sample.levelSubMeshes.
Proof.
  cbv zeta. split; [vm_compute; reflexivity|].
  eexists. split; [vm_compute; reflexivity|].
  repeat (split; [vm_compute; reflexivity|]). vm_compute; reflexivity.
Qed.

(** The one-vertex model in IEEE arithmetic: one snapshot, with the vertex
    (1, 2, 3) at each corner and normal 161 of the table. *)
Example mdl_importMesh_sample_ieee :
  let r := MDLFileLoader.importMesh (N := Ieee.IeeeNumber) (Sample.oneVertexModel 161)
             Sample.emptyMdlHost in
  fst r = Return true
  /\ exists target,
      MDLFileLoader.managers (host (snd r)) = [[target]]
      /\ map Ieee.toQ (MDLFileLoader.target_positions target) = [1; 2; 3; 1; 2; 3; 1; 2; 3]%Q
      /\ map Ieee.toQ (MDLFileLoader.target_uvs target)
         = [1 # 2; 1 # 2; 1 # 2; 1 # 2; 1 # 2; 1 # 2]%Q
      /\ length (MDLFileLoader.target_normals target) = 9%nat.
Proof.
  cbv zeta. split; [vm_compute; reflexivity|].
  eexists. split; [vm_compute; reflexivity|].
  repeat (split; [vm_compute; reflexivity|]). vm_compute; reflexivity.
Qed.

(** * Further properties of the reader and the loaders *)

(** ** The reader: bounds, ranges and byte order *)

Section ReaderFacts.
Context {num : Type} {N : Number num} {H : Type}.
Variable data : list byte.

Lemma byteAt_range off : 0 <= byteAt data off < 256.
Proof.
  unfold byteAt. destruct (zget data off) as [b|]; [|lia].
  pose proof (Byte.to_N_bounded b). lia.
Qed.

Lemma uint16At_range off : 0 <= uint16At data off < 2 ^ 16.
Proof.
  unfold uint16At.
  pose proof (byteAt_range off). pose proof (byteAt_range (off + 1)). lia.
Qed.

Lemma uint32At_range off : 0 <= uint32At data off < 2 ^ 32.
Proof.
  unfold uint32At.
  pose proof (byteAt_range off). pose proof (byteAt_range (off + 1)).
  pose proof (byteAt_range (off + 2)). pose proof (byteAt_range (off + 3)). lia.
Qed.

Lemma toInt32_range v : - 2 ^ 31 <= toInt32 v < 2 ^ 31.
Proof.
  unfold toInt32. cbv zeta.
  pose proof (Z.mod_pos_bound v (2 ^ 32) ltac:(lia)).
  destruct (v mod 2 ^ 32 <? 2 ^ 31) eqn:E;
    [apply Z.ltb_lt in E | apply Z.ltb_ge in E]; lia.
Qed.

Lemma toInt16_range v : - 2 ^ 15 <= toInt16 v < 2 ^ 15.
Proof.
  unfold toInt16. cbv zeta.
  pose proof (Z.mod_pos_bound v (2 ^ 16) ltac:(lia)).
  destruct (v mod 2 ^ 16 <? 2 ^ 15) eqn:E;
    [apply Z.ltb_lt in E | apply Z.ltb_ge in E]; lia.
Qed.

Lemma inBounds_false off n :
  ~ (0 <= off /\ off + n <= byteLength data) -> inBounds data off n = false.
Proof.
  intros Hn. unfold inBounds.
  destruct (0 <=? off) eqn:E0; [|reflexivity].
  destruct (off + n <=? byteLength data) eqn:E1; [|reflexivity].
  apply Z.leb_le in E0, E1. exfalso. apply Hn. lia.
Qed.

Lemma readAt_inside {A} (get : Z -> Res A) w v (s : St H) :
  get (cursor s) = ROk v -> readAt get w s = (Ok v, advance w s).
Proof. intros E. unfold readAt. now rewrite E. Qed.

Lemma readAt_outside {A} (get : Z -> Res A) w e (s : St H) :
  get (cursor s) = RThrow e -> readAt get w s = (Throw e, s).
Proof. intros E. unfold readAt. now rewrite E. Qed.

(** X1: each integer read of the reader either succeeds, yielding a value
    in the range of its type and moving the cursor by the width of the
    type, or throws [RangeError] and leaves the cursor where it was; it
    succeeds exactly when the whole field lies inside the buffer. *)
Theorem reader_integer_reads :
  readsField (H := H) data (readUint8 data) 1 (fun v => 0 <= v < 2 ^ 8)
  /\ readsField (H := H) data (readUint16 data) 2 (fun v => 0 <= v < 2 ^ 16)
  /\ readsField (H := H) data (readInt16 data) 2 (fun v => - 2 ^ 15 <= v < 2 ^ 15)
  /\ readsField (H := H) data (readUint32 data) 4 (fun v => 0 <= v < 2 ^ 32)
  /\ readsField (H := H) data (readInt32 data) 4 (fun v => - 2 ^ 31 <= v < 2 ^ 31).
Proof.
  repeat apply conj; intros s; (split; intros Hin;
    [ destruct Hin as [H0 H1]; eexists; split;
      [ apply readAt_inside;
        unfold getInt16; unfold getUint8, getUint16, getUint32, getInt32;
        rewrite inBounds_true by assumption; reflexivity
      | ]
    | apply readAt_outside;
      unfold getInt16; unfold getUint8, getUint16, getUint32, getInt32;
      rewrite inBounds_false by exact Hin; reflexivity ]).
  - apply byteAt_range.
  - apply uint16At_range.
  - apply toInt16_range.
  - apply uint32At_range.
  - unfold int32At. apply toInt32_range.
Qed.

End ReaderFacts.

(** Arithmetic with division and remainder by constants. *)
Ltac euclid :=
  repeat match goal with
    | |- context [Z.pow 2 (Zpos ?k)] =>
        let v := eval vm_compute in (Z.pow 2 (Zpos k)) in
        change (Z.pow 2 (Zpos k)) with v
    | Hyp : context [Z.pow 2 (Zpos ?k)] |- _ =>
        let v := eval vm_compute in (Z.pow 2 (Zpos k)) in
        change (Z.pow 2 (Zpos k)) with v in Hyp
    end;
  Z.to_euclidean_division_equations; lia.

Section ZListsMore.
Context {A : Type}.

Lemma zget_app_r (l1 l2 : list A) i :
  0 <= i -> zget (l1 ++ l2) (Z.of_nat (length l1) + i) = zget l2 i.
Proof.
  intros Hi. unfold zget.
  destruct (Z.of_nat (length l1) + i <? 0) eqn:E; [apply Z.ltb_lt in E; lia|].
  destruct (i <? 0) eqn:E'; [apply Z.ltb_lt in E'; lia|].
  rewrite lookup_app_r by lia. f_equal. lia.
Qed.

End ZListsMore.

(** The encoders of the samples produce bytes. *)
Lemma byteAt_bytes (l : list Z) i v :
  zget l i = Some v -> 0 <= v < 256 -> byteAt (Sample.bytes l) i = v.
Proof.
  intros Hl Hv. unfold byteAt, Sample.bytes.
  rewrite zget_map, Hl. cbn [option_map].
  destruct (Byte.of_N (Z.to_N v)) as [b|] eqn:E.
  - apply Byte.to_of_N in E. lia.
  - apply Byte.of_N_None_iff in E. lia.
Qed.

Lemma byteAt_bytes_middle (pre mid post : list Z) k v :
  zget mid k = Some v -> 0 <= v < 256 ->
  byteAt (Sample.bytes (pre ++ mid ++ post)) (Z.of_nat (length pre) + k) = v.
Proof.
  intros Hk Hv. apply byteAt_bytes; [|assumption].
  pose proof (zget_Some_lt _ _ _ Hk) as Hr.
  rewrite zget_app_r by lia. rewrite zget_app_l by lia. exact Hk.
Qed.

Lemma byteLength_bytes (l : list Z) : byteLength (Sample.bytes l) = Z.of_nat (length l).
Proof. unfold byteLength, Sample.bytes. now rewrite length_map. Qed.

Lemma toInt32_small v : - 2 ^ 31 <= v < 2 ^ 31 -> toInt32 v = v.
Proof.
  intros Hv. unfold toInt32. cbv zeta.
  destruct (Z_lt_le_dec v 0).
  - replace (v mod 2 ^ 32) with (v + 2 ^ 32)
      by (apply Z.mod_unique with (q := -1); lia).
    destruct (v + 2 ^ 32 <? 2 ^ 31) eqn:E;
      [apply Z.ltb_lt in E | apply Z.ltb_ge in E]; lia.
  - rewrite Z.mod_small by lia.
    destruct (v <? 2 ^ 31) eqn:E; [apply Z.ltb_lt in E | apply Z.ltb_ge in E]; lia.
Qed.

Lemma toInt16_small v : - 2 ^ 15 <= v < 2 ^ 15 -> toInt16 v = v.
Proof.
  intros Hv. unfold toInt16. cbv zeta.
  destruct (Z_lt_le_dec v 0).
  - replace (v mod 2 ^ 16) with (v + 2 ^ 16)
      by (apply Z.mod_unique with (q := -1); lia).
    destruct (v + 2 ^ 16 <? 2 ^ 15) eqn:E;
      [apply Z.ltb_lt in E | apply Z.ltb_ge in E]; lia.
  - rewrite Z.mod_small by lia.
    destruct (v <? 2 ^ 15) eqn:E; [apply Z.ltb_lt in E | apply Z.ltb_ge in E]; lia.
Qed.

Section RoundTrip.
Context {num : Type} {N : Number num} {H : Type}.

Lemma uint32At_le32 (pre post : list Z) v :
  uint32At (Sample.bytes (pre ++ Sample.le32 v ++ post)) (Z.of_nat (length pre))
  = v mod 2 ^ 32.
Proof.
  unfold uint32At.
  pose proof (Z.mod_pos_bound v (2 ^ 32) ltac:(lia)) as Hu.
  assert (E : Sample.le32 v
              = [(v mod 2 ^ 32) mod 256; ((v mod 2 ^ 32) / 2 ^ 8) mod 256;
                 ((v mod 2 ^ 32) / 2 ^ 16) mod 256; (v mod 2 ^ 32) / 2 ^ 24])
    by reflexivity.
  set (u := v mod 2 ^ 32) in *.
  set (p := Z.of_nat (length pre)).
  replace p with (p + 0) at 1 by lia.
  unfold p.
  rewrite (byteAt_bytes_middle pre _ post 0 (u mod 256));
    [| rewrite E; reflexivity | euclid].
  rewrite (byteAt_bytes_middle pre _ post 1 ((u / 2 ^ 8) mod 256));
    [| rewrite E; reflexivity | euclid].
  rewrite (byteAt_bytes_middle pre _ post 2 ((u / 2 ^ 16) mod 256));
    [| rewrite E; reflexivity | euclid].
  rewrite (byteAt_bytes_middle pre _ post 3 (u / 2 ^ 24));
    [| rewrite E; reflexivity | euclid].
  euclid.
Qed.

Lemma uint16At_le16 (pre post : list Z) v :
  uint16At (Sample.bytes (pre ++ Sample.le16 v ++ post)) (Z.of_nat (length pre))
  = v mod 2 ^ 16.
Proof.
  unfold uint16At.
  pose proof (Z.mod_pos_bound v (2 ^ 16) ltac:(lia)) as Hu.
  assert (E : Sample.le16 v = [(v mod 2 ^ 16) mod 256; (v mod 2 ^ 16) / 256])
    by reflexivity.
  set (u := v mod 2 ^ 16) in *.
  set (p := Z.of_nat (length pre)).
  replace p with (p + 0) at 1 by lia.
  unfold p.
  rewrite (byteAt_bytes_middle pre _ post 0 (u mod 256));
    [| rewrite E; reflexivity | euclid].
  rewrite (byteAt_bytes_middle pre _ post 1 (u / 256));
    [| rewrite E; reflexivity | euclid].
  euclid.
Qed.

Lemma length_le32 v : length (Sample.le32 v) = 4%nat.
Proof. reflexivity. Qed.

Lemma length_le16 v : length (Sample.le16 v) = 2%nat.
Proof. reflexivity. Qed.

(** X2: the reader decodes little-endian.  Wherever the four bytes of the
    little-endian encoding of [v] stand in a buffer, [readUint32] at that
    place yields [v] modulo [2^32] and [readInt32] yields [v] itself when
    [v] is a signed 32-bit integer; likewise [readUint16] and [readInt16]
    on the two bytes of the 16-bit encoding.  Each moves the cursor over
    the field. *)
Theorem reader_little_endian_round_trip (pre post : list Z) (v : Z) (h : H) :
  let s := {| cursor := Z.of_nat (length pre); host := h |} in
  let data32 := Sample.bytes (pre ++ Sample.le32 v ++ post) in
  let data16 := Sample.bytes (pre ++ Sample.le16 v ++ post) in
  readUint32 data32 s = (Ok (v mod 2 ^ 32), advance 4 s)
  /\ (- 2 ^ 31 <= v < 2 ^ 31 -> readInt32 data32 s = (Ok v, advance 4 s))
  /\ readUint16 data16 s = (Ok (v mod 2 ^ 16), advance 2 s)
  /\ (- 2 ^ 15 <= v < 2 ^ 15 -> readInt16 data16 s = (Ok v, advance 2 s)).
Proof.
  intros s data32 data16.
  assert (H32 : inBounds data32 (cursor s) 4 = true).
  { apply inBounds_true; cbn [cursor s]; [lia|].
    unfold data32. rewrite byteLength_bytes, !length_app, length_le32. lia. }
  assert (H16 : inBounds data16 (cursor s) 2 = true).
  { apply inBounds_true; cbn [cursor s]; [lia|].
    unfold data16. rewrite byteLength_bytes, !length_app, length_le16. lia. }
  repeat apply conj.
  - apply readAt_inside. unfold getUint32. rewrite H32.
    unfold data32. cbn [cursor s]. now rewrite uint32At_le32.
  - intros Hv. apply readAt_inside. unfold getInt32. rewrite H32.
    unfold int32At, data32. cbn [cursor s]. rewrite uint32At_le32.
    f_equal. rewrite <- (toInt32_small v Hv) at 2.
    unfold toInt32. now rewrite Z.mod_mod by lia.
  - apply readAt_inside. unfold getUint16. rewrite H16.
    unfold data16. cbn [cursor s]. now rewrite uint16At_le16.
  - intros Hv. apply readAt_inside. unfold getInt16, getUint16. rewrite H16.
    cbn [rbind]. unfold data16. cbn [cursor s]. rewrite uint16At_le16.
    f_equal. rewrite <- (toInt16_small v Hv) at 2.
    unfold toInt16. now rewrite Z.mod_mod by lia.
Qed.

End RoundTrip.

(** ** The reader: array views, skipping and seeking *)

Section ReaderViews.
Context {num : Type} {N : Number num} {H : Type}.
Variable data : list byte.

Lemma zget_seq_map {A} (f : Z -> A) (n : nat) i :
  0 <= i < Z.of_nat n ->
  zget (map (fun k => f (Z.of_nat k)) (seq 0 n)) i = Some (f i).
Proof.
  intros Hi. rewrite zget_map. unfold zget.
  destruct (i <? 0) eqn:E; [apply Z.ltb_lt in E; lia|].
  rewrite lookup_seq_lt by lia. cbn [option_map]. do 2 f_equal. lia.
Qed.

(** X3: [readUint8Array(n)] yields the [n] bytes at the cursor, the same
    bytes [n] calls of [readUint8] would read one after the other, and
    moves the cursor by [n]; when [n] is negative or the range is not
    inside the buffer it throws [RangeError] and the cursor stays. *)
Theorem reader_readUint8Array (n : Z) (s : St H) :
  (0 <= n /\ fieldInside data s n ->
   exists l,
     readUint8Array data n s = (Ok l, advance n s)
     /\ Z.of_nat (length l) = n
     /\ forall i, 0 <= i < n ->
          zget l i = Some (byteAt data (cursor s + i))
          /\ readUint8 data (advance i s)
             = (Ok (byteAt data (cursor s + i)), advance 1 (advance i s)))
  /\ (~ (0 <= n /\ fieldInside data s n) ->
      readUint8Array data n s = (Throw RangeError, s)).
Proof.
  split.
  - intros (Hn & H0 & H1). eexists. split; [|split].
    + apply readAt_inside. unfold viewUint8.
      rewrite (inBounds_true data) by assumption.
      destruct (0 <=? n) eqn:E; [reflexivity | apply Z.leb_gt in E; lia].
    + rewrite !length_map, length_seq. lia.
    + intros i Hi. split.
      * rewrite map_map.
        rewrite (zget_seq_map (fun k => byteAt data (cursor s + k))) by lia.
        reflexivity.
      * apply readAt_inside. unfold getUint8.
        rewrite inBounds_true by (cbn [cursor advance]; lia). reflexivity.
  - intros Hout. apply readAt_outside. unfold viewUint8.
    destruct (0 <=? n) eqn:E; [|reflexivity]. apply Z.leb_le in E.
    rewrite inBounds_false; [reflexivity|].
    intros Hin. apply Hout. split; assumption.
Qed.

(** X4: [readUint32Array(n)] makes a view on the buffer, which must start
    at a multiple of four: at such a cursor, with the range inside the
    buffer, it yields the [n] little-endian words [readUint32] would read
    one after the other and moves the cursor by [4*n]; at any other
    cursor, for a negative [n] or for a range outside the buffer it throws
    [RangeError] and the cursor stays. *)
Theorem reader_readUint32Array (n : Z) (s : St H) :
  (0 <= n /\ cursor s mod 4 = 0 /\ fieldInside data s (4 * n) ->
   exists l,
     readUint32Array data n s = (Ok l, advance (4 * n) s)
     /\ Z.of_nat (length l) = n
     /\ forall i, 0 <= i < n ->
          zget l i = Some (uint32At data (cursor s + 4 * i))
          /\ readUint32 data (advance (4 * i) s)
             = (Ok (uint32At data (cursor s + 4 * i)), advance 4 (advance (4 * i) s)))
  /\ (~ (0 <= n /\ cursor s mod 4 = 0 /\ fieldInside data s (4 * n)) ->
      readUint32Array data n s = (Throw RangeError, s)).
Proof.
  split.
  - intros (Hn & Hal & H0 & H1). eexists. split; [|split].
    + apply readAt_inside. unfold viewUint32.
      rewrite (inBounds_true data) by assumption.
      rewrite Hal. cbn [Z.eqb andb].
      destruct (0 <=? n) eqn:E; [reflexivity | apply Z.leb_gt in E; lia].
    + rewrite !length_map, length_seq. lia.
    + intros i Hi. split.
      * rewrite (zget_seq_map (fun k => uint32At data (cursor s + 4 * k))) by lia.
        reflexivity.
      * apply readAt_inside. unfold getUint32.
        rewrite inBounds_true by (cbn [cursor advance]; lia). reflexivity.
  - intros Hout. apply readAt_outside. unfold viewUint32.
    destruct (0 <=? n) eqn:E; [|reflexivity]. apply Z.leb_le in E.
    destruct (cursor s mod 4 =? 0) eqn:Ea; [|reflexivity]. apply Z.eqb_eq in Ea.
    rewrite inBounds_false; [reflexivity|].
    intros Hin. apply Hout. repeat split; tauto.
Qed.

(** X5: [skipBytes] and [seekBytes] check nothing.  They never fail, two
    skips add up, a skip after a seek is a seek, and a cursor they leave
    outside the buffer is found out only by the next read, which throws
    [RangeError] with the cursor where the skip put it. *)
Theorem reader_skip_seek_unchecked (m n : Z) (s : St H) :
  (let* _ := skipBytes m in skipBytes n) s = skipBytes (m + n) s
  /\ (let* _ := seekBytes m in skipBytes n) s = seekBytes (m + n) s
  /\ (~ fieldInside data (advance n s) 1 ->
      (let* _ := skipBytes n in readUint8 data) s = (Throw RangeError, advance n s))
  /\ (~ (0 <= n /\ n + 1 <= byteLength data) ->
      (let* _ := seekBytes n in readUint8 data) s
      = (Throw RangeError, {| cursor := n; host := host s |})).
Proof.
  repeat apply conj.
  - rewrite bind_skipBytes. unfold skipBytes, advance. cbn [cursor host].
    now rewrite Z.add_assoc.
  - reflexivity.
  - intros Hout. rewrite bind_skipBytes. apply readAt_outside. unfold getUint8.
    now rewrite inBounds_false.
  - intros Hout. unfold bind, seekBytes. apply readAt_outside. unfold getUint8.
    now rewrite inBounds_false.
Qed.

End ReaderViews.

(** ** Running reader code forwards *)

Section Running.
Context {num : Type} {N : Number num} {H : Type}.
Variable data : list byte.

Lemma bind_readUint8 {B} (f : Z -> M H B) s :
  0 <= cursor s -> cursor s + 1 <= byteLength data ->
  bind (readUint8 data) f s = f (byteAt data (cursor s)) (advance 1 s).
Proof.
  intros H0 H1. apply bind_Ok. apply readAt_inside.
  unfold getUint8. now rewrite inBounds_true.
Qed.

Lemma bind_readUint16 {B} (f : Z -> M H B) s :
  0 <= cursor s -> cursor s + 2 <= byteLength data ->
  bind (readUint16 data) f s = f (uint16At data (cursor s)) (advance 2 s).
Proof.
  intros H0 H1. apply bind_Ok. apply readAt_inside.
  unfold getUint16. now rewrite inBounds_true.
Qed.

Lemma bind_readInt16 {B} (f : Z -> M H B) s :
  0 <= cursor s -> cursor s + 2 <= byteLength data ->
  bind (readInt16 data) f s = f (toInt16 (uint16At data (cursor s))) (advance 2 s).
Proof.
  intros H0 H1. apply bind_Ok. apply readAt_inside.
  unfold getInt16, getUint16. now rewrite inBounds_true.
Qed.

Lemma bind_readUint32 {B} (f : Z -> M H B) s :
  0 <= cursor s -> cursor s + 4 <= byteLength data ->
  bind (readUint32 data) f s = f (uint32At data (cursor s)) (advance 4 s).
Proof.
  intros H0 H1. apply bind_Ok. apply readAt_inside.
  unfold getUint32. now rewrite inBounds_true.
Qed.

Lemma bind_seekBytes {B} n (f : unit -> M H B) s :
  bind (seekBytes n) f s = f tt {| cursor := n; host := host s |}.
Proof. reflexivity. Qed.

Lemma bind_lift_ok {A B} (a : A) (f : A -> M H B) s : bind (lift (ROk a)) f s = f a s.
Proof. reflexivity. Qed.

Lemma bind_lift_throw {A B} e (f : A -> M H B) s :
  bind (lift (RThrow e)) f s = (Throw e, s).
Proof. reflexivity. Qed.

(** A read outside the buffer ends the code that follows it. *)
Lemma bind_read_outside {A B} (get : Z -> Res A) w (f : A -> M H B) s :
  get (cursor s) = RThrow RangeError ->
  bind (readAt get w) f s = (Throw RangeError, s).
Proof. intros E. apply bind_Throw. now apply readAt_outside. Qed.

Lemma getInt32_outside off :
  ~ (0 <= off /\ off + 4 <= byteLength data) -> getInt32 data off = RThrow RangeError.
Proof. intros Hout. unfold getInt32. now rewrite inBounds_false. Qed.

Lemma getUint32_outside off :
  ~ (0 <= off /\ off + 4 <= byteLength data) -> getUint32 data off = RThrow RangeError.
Proof. intros Hout. unfold getUint32. now rewrite inBounds_false. Qed.

Lemma getFloat32_outside off :
  ~ (0 <= off /\ off + 4 <= byteLength data) -> getFloat32 data off = RThrow RangeError.
Proof. intros Hout. unfold getFloat32. now rewrite getUint32_outside. Qed.

Lemma getUint8_outside off :
  ~ (0 <= off /\ off + 1 <= byteLength data) -> getUint8 data off = RThrow RangeError.
Proof. intros Hout. unfold getUint8. now rewrite inBounds_false. Qed.

Lemma newTyped_nonneg {A} (zero : A) n :
  0 <= n -> newTyped zero n = ROk (replicate (Z.to_nat n) zero).
Proof.
  intros Hn. unfold newTyped.
  destruct (n <? 0) eqn:E; [apply Z.ltb_lt in E; lia | reflexivity].
Qed.

Lemma newTyped_negative {A} (zero : A) n : n < 0 -> newTyped zero n = RThrow RangeError.
Proof. intros Hn. unfold newTyped. apply Z.ltb_lt in Hn. now rewrite Hn. Qed.

(** A loop whose every turn goes on, under an invariant on the counter,
    the accumulator and the reader. *)
Lemma for_run {A} (Inv : Z -> A -> St H -> Prop) (body : Z -> A -> M H A) n :
  forall i0 a s,
    Inv i0 a s ->
    (forall i a s, i0 <= i < i0 + Z.of_nat n -> Inv i a s ->
       exists a' s', body i a s = (Ok a', s') /\ Inv (i + 1) a' s') ->
    exists a' s', for_ n i0 body a s = (Ok a', s') /\ Inv (i0 + Z.of_nat n) a' s'.
Proof.
  induction n as [|n IH]; intros i0 a s H0 Hstep; cbn [for_].
  - exists a, s. split; [reflexivity|]. now replace (i0 + Z.of_nat 0) with i0 by lia.
  - destruct (Hstep i0 a s) as (a1 & s1 & E1 & H1); [lia | assumption |].
    rewrite (bind_Ok _ _ _ _ _ E1).
    replace (i0 + Z.of_nat (S n)) with ((i0 + 1) + Z.of_nat n) by lia.
    apply IH; [assumption|]. intros i a' s' Hi. apply Hstep. lia.
Qed.

Lemma bind_ext {A B} (m : M H A) (f g : A -> M H B) s :
  (forall a s', f a s' = g a s') -> bind m f s = bind m g s.
Proof.
  intros E. unfold bind. destruct (m s) as [[a | r | e] s1]; [apply E | reflexivity..].
Qed.

(** A loop of [a + b] turns is a loop of [a] turns, then one of [b]. *)
Lemma for_app {A} (body : Z -> A -> M H A) (a b : nat) :
  forall i0 x s,
    for_ (a + b) i0 body x s
    = bind (for_ a i0 body x) (for_ b (i0 + Z.of_nat a) body) s.
Proof.
  induction a as [|a IH]; intros i0 x s; cbn [for_ Nat.add].
  - rewrite bind_ret. change (Z.of_nat 0) with 0. now rewrite Z.add_0_r.
  - rewrite bind_bind. apply bind_ext. intros y s1.
    rewrite IH. now replace (i0 + 1 + Z.of_nat a) with (i0 + Z.of_nat (S a)) by lia.
Qed.

End Running.

Ltac step_more :=
  repeat (first
    [ rewrite bind_bind
    | rewrite bind_ret
    | rewrite bind_skipBytes
    | rewrite bind_seekBytes
    | rewrite bind_lift_ok
    | rewrite bind_readInt32 by (cbn [cursor advance host]; lia)
    | rewrite bind_readUint32 by (cbn [cursor advance host]; lia)
    | rewrite bind_readUint16 by (cbn [cursor advance host]; lia)
    | rewrite bind_readInt16 by (cbn [cursor advance host]; lia)
    | rewrite bind_readUint8 by (cbn [cursor advance host]; lia)
    | rewrite bind_readFloat32 by (cbn [cursor advance host]; lia) ];
    cbv beta; cbn [cursor advance host]).

(** One step of code that ends in [RangeError] at its first read outside
    the buffer: the read is passed when it is inside. *)
Ltac read_or_throw :=
  match goal with
  | |- exists s', bind (skipBytes ?n) ?f ?s = _ /\ _ =>
      rewrite bind_skipBytes; cbv beta; cbn [cursor advance host]
  | |- exists s', bind (seekBytes ?n) ?f ?s = _ /\ _ =>
      rewrite bind_seekBytes; cbv beta; cbn [cursor advance host]
  | |- exists s', bind (readFloat32 ?data) ?f ?s = _ /\ _ =>
      let L0 := fresh "L" in
      let L1 := fresh "L" in
      destruct (Z_le_dec 0 (cursor s)) as [L0|L0];
      [ destruct (Z_le_dec (cursor s + 4) (byteLength data)) as [L1|L1];
        [ rewrite bind_readFloat32 by assumption; cbv beta;
          cbn [cursor advance host] in *
        | eexists; split;
          [ apply bind_read_outside; apply getFloat32_outside; lia | reflexivity ] ]
      | eexists; split;
        [ apply bind_read_outside; apply getFloat32_outside; lia | reflexivity ] ]
  | |- exists s', bind (readInt32 ?data) ?f ?s = _ /\ _ =>
      let L0 := fresh "L" in
      let L1 := fresh "L" in
      destruct (Z_le_dec 0 (cursor s)) as [L0|L0];
      [ destruct (Z_le_dec (cursor s + 4) (byteLength data)) as [L1|L1];
        [ rewrite bind_readInt32 by assumption; cbv beta;
          cbn [cursor advance host] in *
        | eexists; split;
          [ apply bind_read_outside; apply getInt32_outside; lia | reflexivity ] ]
      | eexists; split;
        [ apply bind_read_outside; apply getInt32_outside; lia | reflexivity ] ]
  end.

(** ** The palette *)

Section Palette.
Context {num : Type} {N : Number num} {H : Type}.
Variable data : list byte.

Lemma colorMap_length : length colorMap = 256%nat.
Proof. reflexivity. Qed.

Lemma colorMap_byte off : exists c, zget colorMap (byteAt data off) = Some c.
Proof.
  apply zget_lt_Some. rewrite colorMap_length.
  pose proof (byteAt_range data off). lia.
Qed.

(** The pixel loop shared by the skins of a model and the textures of a
    level: every byte is looked up in the palette, which has an entry for
    each of the 256 byte values. *)
Lemma palette_loop (h : H) (c n : Z) (d0 : list Z) :
  0 <= c -> 0 <= n -> c + n <= byteLength data ->
  Z.of_nat (length d0) = 3 * n ->
  exists d,
    for_ (Z.to_nat n) 0
      (fun i d =>
         let* b := readUint8 data in
         let* (c0, c1, c2) := lift (defined (zget colorMap b)) in
         ret (zset (zset (zset d (3 * i + 0) c0) (3 * i + 1) c1) (3 * i + 2) c2))
      d0 {| cursor := c; host := h |}
    = (Ok d, {| cursor := c + n; host := h |})
    /\ Z.of_nat (length d) = 3 * n
    /\ forall i, 0 <= i < n ->
         exists r g b,
           zget colorMap (byteAt data (c + i)) = Some (r, g, b)
           /\ zget d (3 * i) = Some r
           /\ zget d (3 * i + 1) = Some g
           /\ zget d (3 * i + 2) = Some b.
Proof.
  intros Hc Hn Hin Hlen.
  pose (Inv := fun (i : Z) (d : list Z) (s : St H) =>
    s = {| cursor := c + i; host := h |}
    /\ Z.of_nat (length d) = 3 * n
    /\ forall p, 0 <= p < i ->
         exists r g b,
           zget colorMap (byteAt data (c + p)) = Some (r, g, b)
           /\ zget d (3 * p) = Some r
           /\ zget d (3 * p + 1) = Some g
           /\ zget d (3 * p + 2) = Some b).
  destruct (for_run Inv
              (fun i d =>
                 let* b := readUint8 data in
                 let* (c0, c1, c2) := lift (defined (zget colorMap b)) in
                 ret (zset (zset (zset d (3 * i + 0) c0) (3 * i + 1) c1) (3 * i + 2) c2))
              (Z.to_nat n) 0 d0 {| cursor := c; host := h |})
    as (d & s' & E & Hs & Hl & Hall).
  - split; [f_equal; lia|]. split; [assumption|]. intros p Hp. lia.
  - intros i d s Hi (-> & Hl & Hall).
    rewrite bind_readUint8 by (cbn [cursor]; lia). cbn [cursor advance host].
    destruct (colorMap_byte (c + i)) as [[[r g] b] Ecol].
    rewrite Ecol. cbn [defined]. rewrite bind_lift_ok, Z.add_0_r.
    eexists. eexists. split; [reflexivity|].
    unfold Inv, advance. cbn [cursor host].
    split; [f_equal; lia|].
    split; [now rewrite !zset_length|].
    intros p Hp. destruct (Z.eq_dec p i) as [-> | Hne].
    + exists r, g, b. split; [assumption|].
      split; [|split].
      * rewrite !zget_zset_ne by lia. apply zget_zset_eq; lia.
      * rewrite zget_zset_ne by lia. apply zget_zset_eq; rewrite ?zset_length; lia.
      * apply zget_zset_eq; rewrite ?zset_length; lia.
    + destruct (Hall p) as (r' & g' & b' & E0 & E1 & E2 & E3); [lia|].
      exists r', g', b'. split; [assumption|].
      rewrite !zget_zset_ne by lia. auto.
  - exists d. replace (0 + Z.of_nat (Z.to_nat n)) with n in * by lia.
    subst s'. split; [exact E|]. split; [assumption|]. exact Hall.
Qed.

End Palette.

(** ** The model loader: header and tables *)

Section MdlTables.
Context {num : Type} {N : Number num}.
Variable data : list byte.
Local Abbreviation Host := (MDLFileLoader.Host (num := num)).

Lemma readHeader_run (s : St Host) :
  fieldInside data s 64 ->
  MDLFileLoader.readHeader data s = (Ok (headerAt data (cursor s)), advance 76 s).
Proof.
  destruct s as [c h]. unfold fieldInside. cbn [cursor]. intros [H0 H1].
  unfold MDLFileLoader.readHeader, MDLFileLoader.readVector3, headerAt, float32At.
  step_more.
  replace (c + 4 + 4) with (c + 8) by lia.
  replace (c + 8 + 4) with (c + 12) by lia.
  replace (c + 12 + 4) with (c + 16) by lia.
  replace (c + 16 + 4) with (c + 20) by lia.
  replace (c + 20 + 4 + 4 * 4) with (c + 40) by lia.
  replace (c + 40 + 4) with (c + 44) by lia.
  replace (c + 44 + 4) with (c + 48) by lia.
  replace (c + 48 + 4) with (c + 52) by lia.
  replace (c + 52 + 4) with (c + 56) by lia.
  replace (c + 56 + 4) with (c + 60) by lia.
  unfold ret, advance. cbn [cursor host]. f_equal. f_equal. lia.
Qed.

(** X6: the model header.  [readHeader] takes the scale and the
    translation from the first 24 bytes at the cursor, passes 16 bytes,
    takes the six counts from the next 24 bytes and passes 12 bytes more,
    leaving the cursor 76 bytes on.  It goes through exactly when the 64
    bytes up to the last count lie inside the buffer: the 12 bytes passed
    at the end need not exist.  Otherwise it throws [RangeError]. *)
Theorem mdl_readHeader_layout (s : St Host) :
  (fieldInside data s 64 ->
   MDLFileLoader.readHeader data s = (Ok (headerAt data (cursor s)), advance 76 s))
  /\ (~ fieldInside data s 64 ->
      exists s', MDLFileLoader.readHeader data s = (Throw RangeError, s')
                 /\ host s' = host s).
Proof.
  split; [apply readHeader_run|].
  destruct s as [c h]. unfold fieldInside. cbn [cursor host]. intros Hout.
  unfold MDLFileLoader.readHeader, MDLFileLoader.readVector3.
  repeat rewrite bind_bind.
  repeat (read_or_throw; repeat (first [rewrite bind_bind | rewrite bind_ret]; cbv beta)).
  exfalso. apply Hout. lia.
Qed.

Lemma readSkin_run (header : MDLFileLoader.Header (num := num)) (index : Z)
    (textures : list MDLFileLoader.RawTexture) (s : St Host) :
  let w := MDLFileLoader.skinWidth header in
  let h := MDLFileLoader.skinHeight header in
  int32At data (cursor s) = 0 ->
  0 <= w * h ->
  fieldInside data s (4 + w * h) ->
  exists texture,
    MDLFileLoader.readSkin data header index textures s
    = (Ok (textures ++ [texture]), advance (4 + w * h) s)
    /\ MDLFileLoader.texture_width texture = w
    /\ MDLFileLoader.texture_height texture = h
    /\ Z.of_nat (length (MDLFileLoader.texture_data texture)) = 3 * (w * h)
    /\ forall i, 0 <= i < w * h ->
         exists r g b,
           zget colorMap (byteAt data (cursor s + 4 + i)) = Some (r, g, b)
           /\ zget (MDLFileLoader.texture_data texture) (3 * i) = Some r
           /\ zget (MDLFileLoader.texture_data texture) (3 * i + 1) = Some g
           /\ zget (MDLFileLoader.texture_data texture) (3 * i + 2) = Some b.
Proof.
  intros w h Hflag Hwh [H0 H1]. destruct s as [c hs]. cbn [cursor] in *.
  unfold MDLFileLoader.readSkin.
  rewrite bind_readInt32 by (cbn [cursor]; lia). cbn [cursor advance host].
  rewrite Hflag. cbn [Z.eqb negb].
  fold w h. replace (3 * w * h) with (3 * (w * h)) by lia.
  rewrite newTyped_nonneg by lia. rewrite bind_lift_ok.
  destruct (palette_loop data hs (c + 4) (w * h) (replicate (Z.to_nat (3 * (w * h))) 0))
    as (d & E & Hl & Hall); [lia | lia | lia | rewrite length_replicate; lia |].
  rewrite (bind_Ok _ _ _ _ _ E). cbv beta.
  eexists. split.
  - unfold ret, advance. cbn [cursor host]. f_equal. f_equal. lia.
  - cbn [MDLFileLoader.texture_width MDLFileLoader.texture_height MDLFileLoader.texture_data].
    repeat split; try assumption.
Qed.

(** X7: a skin that is not a group.  Behind the four bytes of the group
    flag stand [skinWidth * skinHeight] palette indices; [readSkin] turns
    them into a texture of three bytes per pixel, the red, green and blue
    of the palette entry, and appends it to the textures read so far.  The
    palette lookup cannot fail, and exactly the flag and the pixels are
    consumed. *)
Theorem mdl_readSkin_palette (header : MDLFileLoader.Header (num := num)) (index : Z)
    (textures : list MDLFileLoader.RawTexture) (s : St Host) :
  let w := MDLFileLoader.skinWidth header in
  let h := MDLFileLoader.skinHeight header in
  int32At data (cursor s) = 0 ->
  0 <= w * h ->
  fieldInside data s (4 + w * h) ->
  exists texture,
    MDLFileLoader.readSkin data header index textures s
    = (Ok (textures ++ [texture]), advance (4 + w * h) s)
    /\ MDLFileLoader.texture_width texture = w
    /\ MDLFileLoader.texture_height texture = h
    /\ Z.of_nat (length (MDLFileLoader.texture_data texture)) = 3 * (w * h)
    /\ forall i, 0 <= i < w * h ->
         exists r g b,
           zget colorMap (byteAt data (cursor s + 4 + i)) = Some (r, g, b)
           /\ zget (MDLFileLoader.texture_data texture) (3 * i) = Some r
           /\ zget (MDLFileLoader.texture_data texture) (3 * i + 1) = Some g
           /\ zget (MDLFileLoader.texture_data texture) (3 * i + 2) = Some b.
Proof. exact (readSkin_run header index textures s). Qed.

Lemma truthy_toUint32 v : - 2 ^ 31 <= v < 2 ^ 31 -> truthy (toUint32 v) = truthy v.
Proof.
  intros Hv. unfold truthy, toUint32. f_equal.
  destruct (Z.eq_dec v 0) as [-> | Hne]; [reflexivity|].
  rewrite (proj2 (Z.eqb_neq v 0)) by assumption.
  apply Z.eqb_neq. intros E.
  destruct (Z_lt_le_dec v 0).
  - assert (v mod 2 ^ 32 = v + 2 ^ 32)
      by (symmetry; apply Z.mod_unique with (q := -1); lia). lia.
  - rewrite Z.mod_small in E by lia. lia.
Qed.

Lemma int32At_range off : - 2 ^ 31 <= int32At data off < 2 ^ 31.
Proof. unfold int32At. apply toInt32_range. Qed.

Lemma readUVs_run (header : MDLFileLoader.Header (num := num)) (s : St Host) :
  let n := MDLFileLoader.numVertices header in
  0 <= n ->
  fieldInside data s (12 * n) ->
  exists onSeam uvs,
    MDLFileLoader.readUVs data header s = (Ok (onSeam, uvs), advance (12 * n) s)
    /\ Z.of_nat (length onSeam) = n
    /\ Z.of_nat (length uvs) = 2 * n
    /\ forall i, 0 <= i < n ->
         truthyAt onSeam i = truthy (int32At data (cursor s + 12 * i))
         /\ zget uvs (2 * i)
            = Some (fround (num_of_Z (int32At data (cursor s + 12 * i + 4))))
         /\ zget uvs (2 * i + 1)
            = Some (fround (num_of_Z (int32At data (cursor s + 12 * i + 8)))).
Proof.
  intros n Hn [H0 H1]. destruct s as [c h]. cbn [cursor] in *.
  unfold MDLFileLoader.readUVs. fold n.
  rewrite !newTyped_nonneg by lia. rewrite !bind_lift_ok.
  pose (Inv := fun (i : Z) (acc : list Z * list num) (s : St Host) =>
    s = {| cursor := c + 12 * i; host := h |}
    /\ Z.of_nat (length (fst acc)) = n
    /\ Z.of_nat (length (snd acc)) = 2 * n
    /\ forall p, 0 <= p < i ->
         truthyAt (fst acc) p = truthy (int32At data (c + 12 * p))
         /\ zget (snd acc) (2 * p) = Some (fround (num_of_Z (int32At data (c + 12 * p + 4))))
         /\ zget (snd acc) (2 * p + 1)
            = Some (fround (num_of_Z (int32At data (c + 12 * p + 8))))).
  match goal with
  | |- exists _ _, for_ ?k 0 ?body ?a0 ?s0 = _ /\ _ =>
      destruct (for_run Inv body k 0 a0 s0) as ([onSeam uvs] & s' & E & Hs & Hl1 & Hl2 & Hall)
  end.
  - unfold Inv. cbn [fst snd]. rewrite !length_replicate.
    split; [f_equal; lia|]. split; [lia|]. split; [lia|]. intros p Hp. lia.
  - intros i [os us] s Hi (-> & Hl1 & Hl2 & Hall). cbn [fst snd] in *.
    step_more.
    eexists. eexists. split; [reflexivity|].
    unfold Inv, advance. cbn [cursor host fst snd].
    split; [f_equal; lia|].
    rewrite !zset_length. split; [assumption|]. split; [assumption|].
    intros p Hp. destruct (Z.eq_dec p i) as [-> | Hne].
    + split; [|split].
      * unfold truthyAt. rewrite zget_zset_eq by lia.
        apply truthy_toUint32, int32At_range.
      * rewrite zget_zset_ne by lia. rewrite Z.add_0_r.
        rewrite zget_zset_eq by lia. reflexivity.
      * rewrite zget_zset_eq by (rewrite ?zset_length; lia).
        do 4 f_equal. lia.
    + destruct (Hall p) as (E1 & E2 & E3); [lia|].
      split; [|split].
      * unfold truthyAt in *. rewrite zget_zset_ne by lia. assumption.
      * rewrite !zget_zset_ne by lia. assumption.
      * rewrite !zget_zset_ne by lia. assumption.
  - exists onSeam, uvs. replace (0 + Z.of_nat (Z.to_nat n)) with n in * by lia.
    cbn [fst snd] in *. subst s'. split.
    + rewrite E. unfold advance. cbn [cursor host]. reflexivity.
    + repeat split; try assumption; apply Hall; assumption.
Qed.

(** X8: the texture-coordinate table.  For a vertex count [n] that is not
    negative and [12 * n] bytes inside the buffer, [readUVs] takes three
    little-endian integers per vertex: the seam flag, which is non-zero in
    [onSeam] exactly when it is non-zero in the file, and the texel
    coordinates s and t, stored as numbers.  The cursor ends [12 * n]
    bytes on. *)
Theorem mdl_readUVs_table (header : MDLFileLoader.Header (num := num)) (s : St Host) :
  let n := MDLFileLoader.numVertices header in
  0 <= n ->
  fieldInside data s (12 * n) ->
  exists onSeam uvs,
    MDLFileLoader.readUVs data header s = (Ok (onSeam, uvs), advance (12 * n) s)
    /\ Z.of_nat (length onSeam) = n
    /\ Z.of_nat (length uvs) = 2 * n
    /\ forall i, 0 <= i < n ->
         truthyAt onSeam i = truthy (int32At data (cursor s + 12 * i))
         /\ zget uvs (2 * i)
            = Some (fround (num_of_Z (int32At data (cursor s + 12 * i + 4))))
         /\ zget uvs (2 * i + 1)
            = Some (fround (num_of_Z (int32At data (cursor s + 12 * i + 8)))).
Proof. exact (readUVs_run header s). Qed.

Lemma readTriangles_run (header : MDLFileLoader.Header (num := num)) (s : St Host) :
  let n := MDLFileLoader.numTriangles header in
  0 <= n ->
  fieldInside data s (16 * n) ->
  exists indices faceFront,
    MDLFileLoader.readTriangles data header s
    = (Ok (indices, faceFront), advance (16 * n) s)
    /\ Z.of_nat (length indices) = 3 * n
    /\ Z.of_nat (length faceFront) = n
    /\ forall i, 0 <= i < n ->
         truthyAt faceFront i = truthy (int32At data (cursor s + 16 * i))
         /\ forall j, 0 <= j < 3 ->
              zget indices (3 * i + j)
              = Some (toUint32 (int32At data (cursor s + 16 * i + 4 + 4 * j))).
Proof.
  intros n Hn [H0 H1]. destruct s as [c h]. cbn [cursor] in *.
  unfold MDLFileLoader.readTriangles. fold n.
  rewrite !newTyped_nonneg by lia. rewrite !bind_lift_ok.
  pose (Inv := fun (i : Z) (acc : list Z * list Z) (s : St Host) =>
    s = {| cursor := c + 16 * i; host := h |}
    /\ Z.of_nat (length (fst acc)) = 3 * n
    /\ Z.of_nat (length (snd acc)) = n
    /\ forall p, 0 <= p < i ->
         truthyAt (snd acc) p = truthy (int32At data (c + 16 * p))
         /\ forall j, 0 <= j < 3 ->
              zget (fst acc) (3 * p + j)
              = Some (toUint32 (int32At data (c + 16 * p + 4 + 4 * j)))).
  match goal with
  | |- exists _ _, for_ ?k 0 ?body ?a0 ?s0 = _ /\ _ =>
      destruct (for_run Inv body k 0 a0 s0)
        as ([indices faceFront] & s' & E & Hs & Hl1 & Hl2 & Hall)
  end.
  - unfold Inv. cbn [fst snd]. rewrite !length_replicate.
    split; [f_equal; lia|]. split; [lia|]. split; [lia|]. intros p Hp. lia.
  - intros i [ix ff] s Hi (-> & Hl1 & Hl2 & Hall). cbn [fst snd] in *.
    cbn [for_]. step_more.
    eexists. eexists. split; [reflexivity|].
    unfold Inv, advance. cbn [cursor host fst snd].
    split; [f_equal; lia|].
    rewrite !zset_length. split; [assumption|]. split; [assumption|].
    intros p Hp. destruct (Z.eq_dec p i) as [-> | Hne].
    + split.
      * unfold truthyAt. rewrite zget_zset_eq by lia.
        apply truthy_toUint32, int32At_range.
      * intros j Hj.
        assert (Hc : j = 0 \/ j = 1 \/ j = 2) by lia.
        destruct Hc as [-> | [-> | ->]].
        -- rewrite !zget_zset_ne by lia.
           rewrite zget_zset_eq by (rewrite ?zset_length; lia).
           repeat (f_equal; try lia).
        -- rewrite !zget_zset_ne by lia.
           rewrite zget_zset_eq by (rewrite ?zset_length; lia).
           repeat (f_equal; try lia).
        -- rewrite zget_zset_eq by (rewrite ?zset_length; lia).
           repeat (f_equal; try lia).
    + destruct (Hall p) as (E1 & E2); [lia|].
      split.
      * unfold truthyAt in *. rewrite zget_zset_ne by lia. assumption.
      * intros j Hj. rewrite !zget_zset_ne by lia. apply E2. assumption.
  - exists indices, faceFront. replace (0 + Z.of_nat (Z.to_nat n)) with n in * by lia.
    cbn [fst snd] in *. subst s'. split.
    + rewrite E. unfold advance. cbn [cursor host]. reflexivity.
    + repeat split; try assumption; apply Hall; assumption.
Qed.

(** X9: the triangle table.  For a triangle count [n] that is not
    negative and [16 * n] bytes inside the buffer, [readTriangles] takes
    four little-endian integers per triangle: the front flag, non-zero in
    [faceFront] exactly when it is non-zero in the file, and the three
    vertex indices of the corners, stored as unsigned 32-bit integers (a
    negative index wraps).  The cursor ends [16 * n] bytes on. *)
Theorem mdl_readTriangles_table (header : MDLFileLoader.Header (num := num)) (s : St Host) :
  let n := MDLFileLoader.numTriangles header in
  0 <= n ->
  fieldInside data s (16 * n) ->
  exists indices faceFront,
    MDLFileLoader.readTriangles data header s
    = (Ok (indices, faceFront), advance (16 * n) s)
    /\ Z.of_nat (length indices) = 3 * n
    /\ Z.of_nat (length faceFront) = n
    /\ forall i, 0 <= i < n ->
         truthyAt faceFront i = truthy (int32At data (cursor s + 16 * i))
         /\ forall j, 0 <= j < 3 ->
              zget indices (3 * i + j)
              = Some (toUint32 (int32At data (cursor s + 16 * i + 4 + 4 * j))).
Proof. exact (readTriangles_run header s). Qed.

End MdlTables.

(** ** The model loader: frames *)

Section MdlFrameData.
Context {num : Type} {N : Number num}.
Variable data : list byte.
Local Abbreviation Host := (MDLFileLoader.Host (num := num)).

Lemma anormals_entry b :
  0 <= b < 162 -> exists n, zget (MDLFileLoader.anormals (num := num)) b = Some n.
Proof.
  intros Hb. apply zget_lt_Some. rewrite anormals_length. lia.
Qed.

Lemma parseFrame_run (header : MDLFileLoader.Header (num := num))
    (sx sy sz tx ty tz : num) (s : St Host) :
  let n := MDLFileLoader.numVertices header in
  let at_ i k := byteAt data (cursor s + 24 + 4 * i + k) in
  MDLFileLoader.scale header = (sx, sy, sz) ->
  MDLFileLoader.translate header = (tx, ty, tz) ->
  0 <= n ->
  0 <= cursor s + 24 ->
  cursor s + 24 + 4 * n <= byteLength data ->
  (forall i, 0 <= i < n -> at_ i 3 < 162) ->
  exists frame,
    MDLFileLoader.parseFrame data header s = (Ok frame, advance (24 + 4 * n) s)
    /\ Z.of_nat (length (MDLFileLoader.positions frame)) = 3 * n
    /\ Z.of_nat (length (MDLFileLoader.normals frame)) = 3 * n
    /\ forall i, 0 <= i < n ->
         zget (MDLFileLoader.positions frame) (3 * i)
         = Some (fround (nadd (nmul (num_of_Z (at_ i 0)) sx) tx))
         /\ zget (MDLFileLoader.positions frame) (3 * i + 1)
            = Some (fround (nadd (nmul (num_of_Z (at_ i 1)) sy) ty))
         /\ zget (MDLFileLoader.positions frame) (3 * i + 2)
            = Some (fround (nadd (nmul (num_of_Z (at_ i 2)) sz) tz))
         /\ exists n0 n1 n2,
              zget MDLFileLoader.anormals (at_ i 3) = Some (n0, n1, n2)
              /\ zget (MDLFileLoader.normals frame) (3 * i) = Some (fround n0)
              /\ zget (MDLFileLoader.normals frame) (3 * i + 1) = Some (fround n1)
              /\ zget (MDLFileLoader.normals frame) (3 * i + 2) = Some (fround n2).
Proof.
  intros n at_ Hscale Htrans Hn H0 H1 Hnormal. destruct s as [c h]. cbn [cursor] in *.
  unfold MDLFileLoader.parseFrame. fold n. rewrite Hscale, Htrans.
  rewrite bind_skipBytes.
  change (advance (2 * 4 + 16) {| cursor := c; host := h |})
    with {| cursor := c + 24; host := h |}.
  rewrite !newTyped_nonneg by lia. rewrite !bind_lift_ok.
  pose (P := fun (i : Z) (ps ns : list num) =>
    zget ps (3 * i) = Some (fround (nadd (nmul (num_of_Z (at_ i 0)) sx) tx))
    /\ zget ps (3 * i + 1) = Some (fround (nadd (nmul (num_of_Z (at_ i 1)) sy) ty))
    /\ zget ps (3 * i + 2) = Some (fround (nadd (nmul (num_of_Z (at_ i 2)) sz) tz))
    /\ exists n0 n1 n2,
         zget MDLFileLoader.anormals (at_ i 3) = Some (n0, n1, n2)
         /\ zget ns (3 * i) = Some (fround n0)
         /\ zget ns (3 * i + 1) = Some (fround n1)
         /\ zget ns (3 * i + 2) = Some (fround n2)).
  pose (Inv := fun (i : Z) (acc : list num * list num) (s : St Host) =>
    s = {| cursor := c + 24 + 4 * i; host := h |}
    /\ Z.of_nat (length (fst acc)) = 3 * n
    /\ Z.of_nat (length (snd acc)) = 3 * n
    /\ forall p, 0 <= p < i -> P p (fst acc) (snd acc)).
  match goal with
  | |- exists _, bind (for_ ?k 0 ?body ?a0) _ ?s0 = _ /\ _ =>
      destruct (for_run Inv body k 0 a0 s0) as ([ps ns] & s' & E & Hs & Hl1 & Hl2 & Hall)
  end.
  - unfold Inv. cbn [fst snd]. rewrite !length_replicate.
    split; [f_equal; lia|]. split; [lia|]. split; [lia|]. intros p Hp. lia.
  - intros i [ps ns] s Hi (-> & Hl1 & Hl2 & Hall). cbn [fst snd] in *.
    step_more.
    replace (c + 24 + 4 * i + 1 + 1 + 1) with (c + 24 + 4 * i + 3) by lia.
    destruct (anormals_entry (at_ i 3)) as [[[n0 n1] n2] En].
    { pose proof (byteAt_range data (c + 24 + 4 * i + 3)). specialize (Hnormal i).
      unfold at_ in *. lia. }
    unfold at_ in En. rewrite En. cbn [defined]. rewrite bind_lift_ok.
    eexists. eexists. split; [reflexivity|].
    unfold Inv, advance. cbn [cursor host fst snd].
    split; [f_equal; lia|].
    rewrite !zset_length. split; [assumption|]. split; [assumption|].
    intros p Hp. unfold P. destruct (Z.eq_dec p i) as [-> | Hne].
    + rewrite !Z.add_0_r.
      split; [|split; [|split]].
      * rewrite !zget_zset_ne by lia. rewrite zget_zset_eq by lia.
        unfold at_. now rewrite Z.add_0_r.
      * rewrite zget_zset_ne by lia.
        rewrite zget_zset_eq by (rewrite ?zset_length; lia).
        unfold at_. repeat (f_equal; try lia).
      * rewrite zget_zset_eq by (rewrite ?zset_length; lia).
        unfold at_. repeat (f_equal; try lia).
      * exists n0, n1, n2. unfold at_. split; [assumption|].
        split; [|split].
        -- rewrite !zget_zset_ne by lia. apply zget_zset_eq; lia.
        -- rewrite zget_zset_ne by lia. apply zget_zset_eq; rewrite ?zset_length; lia.
        -- apply zget_zset_eq; rewrite ?zset_length; lia.
    + destruct (Hall p) as (E1 & E2 & E3 & m0 & m1 & m2 & E4 & E5 & E6 & E7); [lia|].
      rewrite !zget_zset_ne by lia.
      split; [assumption|]. split; [assumption|]. split; [assumption|].
      exists m0, m1, m2. auto.
  - replace (0 + Z.of_nat (Z.to_nat n)) with n in * by lia.
    cbn [fst snd] in *. subst s'.
    rewrite (bind_Ok _ _ _ _ _ E). cbv beta.
    eexists. split.
    + unfold ret, advance. cbn [cursor host fst snd]. f_equal. f_equal. lia.
    + cbn [MDLFileLoader.positions MDLFileLoader.normals].
      split; [assumption|]. split; [assumption|]. exact Hall.
Qed.

(** X10: one frame.  [parseFrame] passes 24 bytes (bounding box and name)
    and then takes four bytes per vertex: three packed coordinates, each
    stored as [byte * scale + translate] on its axis, and the index of a
    normal, whose three components are copied from the table of normals.
    When the vertex bytes lie inside the buffer and every normal index is
    below 162 the frame is produced and the cursor ends [24 + 4 * n] bytes
    on. *)
Theorem mdl_parseFrame_vertices (header : MDLFileLoader.Header (num := num))
    (sx sy sz tx ty tz : num) (s : St Host) :
  let n := MDLFileLoader.numVertices header in
  let at_ i k := byteAt data (cursor s + 24 + 4 * i + k) in
  MDLFileLoader.scale header = (sx, sy, sz) ->
  MDLFileLoader.translate header = (tx, ty, tz) ->
  0 <= n ->
  0 <= cursor s + 24 ->
  cursor s + 24 + 4 * n <= byteLength data ->
  (forall i, 0 <= i < n -> at_ i 3 < 162) ->
  exists frame,
    MDLFileLoader.parseFrame data header s = (Ok frame, advance (24 + 4 * n) s)
    /\ Z.of_nat (length (MDLFileLoader.positions frame)) = 3 * n
    /\ Z.of_nat (length (MDLFileLoader.normals frame)) = 3 * n
    /\ forall i, 0 <= i < n ->
         zget (MDLFileLoader.positions frame) (3 * i)
         = Some (fround (nadd (nmul (num_of_Z (at_ i 0)) sx) tx))
         /\ zget (MDLFileLoader.positions frame) (3 * i + 1)
            = Some (fround (nadd (nmul (num_of_Z (at_ i 1)) sy) ty))
         /\ zget (MDLFileLoader.positions frame) (3 * i + 2)
            = Some (fround (nadd (nmul (num_of_Z (at_ i 2)) sz) tz))
         /\ exists n0 n1 n2,
              zget MDLFileLoader.anormals (at_ i 3) = Some (n0, n1, n2)
              /\ zget (MDLFileLoader.normals frame) (3 * i) = Some (fround n0)
              /\ zget (MDLFileLoader.normals frame) (3 * i + 1) = Some (fround n1)
              /\ zget (MDLFileLoader.normals frame) (3 * i + 2) = Some (fround n2).
Proof. exact (parseFrame_run header sx sy sz tx ty tz s). Qed.

End MdlFrameData.

Section MdlCorners.
Context {num : Type} {N : Number num}.
Local Abbreviation Header := (MDLFileLoader.Header (num := num)).

Variables (header : Header) (indices onSeam faceFront : list Z) (uvs : list num)
  (frame : MDLFileLoader.Frame (num := num)).

Local Abbreviation corner := (MDLFileLoader.expandCorner header indices onSeam faceFront uvs frame).

Lemma expandCorner_done lp ln lu i j acc :
  0 <= i -> 0 <= j < 3 ->
  3 * (3 * i + j) + 3 <= Z.of_nat lp -> 3 * (3 * i + j) + 3 <= Z.of_nat ln ->
  cornersDone indices frame lp ln lu (3 * i + j) acc ->
  cornersDone indices frame lp ln lu (3 * i + j + 1) (corner i j acc).
Proof.
  intros Hi Hj Hp Hn (Lp & Ln & Lu & Hall). destruct acc as [[p2 n2] u2].
  cbn [fst snd] in *.
  unfold cornersDone, MDLFileLoader.expandCorner. cbv zeta. cbn [fst snd].
  fold (cornerVertex indices i j). rewrite !zset_length.
  split; [assumption|]. split; [assumption|]. split; [assumption|].
  intros i' j' Hi' Hj' Hlt.
  destruct (Z.eq_dec (3 * i' + j') (3 * i + j)) as [E | Hne].
  - assert (i' = i) by lia. assert (j' = j) by lia. subst i' j'.
    split; intros k Hk; assert (Hc : k = 0 \/ k = 1 \/ k = 2) by lia;
      destruct Hc as [-> | [-> | ->]].
    + rewrite !zget_zset_ne by lia. apply zget_zset_eq; lia.
    + rewrite zget_zset_ne by lia. apply zget_zset_eq; rewrite ?zset_length; lia.
    + apply zget_zset_eq; rewrite ?zset_length; lia.
    + rewrite !zget_zset_ne by lia. apply zget_zset_eq; lia.
    + rewrite zget_zset_ne by lia. apply zget_zset_eq; rewrite ?zset_length; lia.
    + apply zget_zset_eq; rewrite ?zset_length; lia.
  - destruct (Hall i' j') as [Hp' Hn']; [lia | lia | lia |].
    split; intros k Hk; rewrite !zget_zset_ne by lia; [apply Hp' | apply Hn']; lia.
Qed.

Lemma expandFrame_run :
  0 <= MDLFileLoader.numTriangles header ->
  exists target,
    MDLFileLoader.expandFrame header indices onSeam faceFront uvs frame = ROk target
    /\ Z.of_nat (length (MDLFileLoader.target_positions target))
       = 9 * MDLFileLoader.numTriangles header
    /\ Z.of_nat (length (MDLFileLoader.target_normals target))
       = 9 * MDLFileLoader.numTriangles header
    /\ Z.of_nat (length (MDLFileLoader.target_uvs target))
       = 6 * MDLFileLoader.numTriangles header
    /\ forall i j, 0 <= i < MDLFileLoader.numTriangles header -> 0 <= j < 3 ->
         cornerCopies (MDLFileLoader.target_positions target)
           (MDLFileLoader.positions frame) (3 * i + j) (cornerVertex indices i j)
         /\ cornerCopies (MDLFileLoader.target_normals target)
              (MDLFileLoader.normals frame) (3 * i + j) (cornerVertex indices i j).
Proof.
  set (T := MDLFileLoader.numTriangles header). intros HT.
  unfold MDLFileLoader.expandFrame. fold T.
  rewrite !newTyped_nonneg by lia. cbn [rbind].
  set (lp := Z.to_nat (3 * 3 * T)). set (lu := Z.to_nat (2 * 3 * T)).
  set (body := fun i acc => for_pure 3 0 (corner i) acc).
  set (acc0 := (replicate lp MDLFileLoader.zeroNum, replicate lp MDLFileLoader.zeroNum,
                replicate lu MDLFileLoader.zeroNum)).
  assert (HInv : cornersDone indices frame lp lp lu (3 * (0 + Z.of_nat (Z.to_nat T)))
                   (for_pure (Z.to_nat T) 0 body acc0)).
  { apply (for_pure_inv (fun i acc => cornersDone indices frame lp lp lu (3 * i) acc)).
    - unfold cornersDone, acc0. cbn [fst snd]. rewrite !length_replicate.
      repeat split; intros; lia.
    - intros i acc Hi Hacc. unfold body. cbn [for_pure].
      change (0 + 1) with 1. change (1 + 1) with 2.
      replace (3 * (i + 1)) with (3 * i + 2 + 1) by lia.
      apply expandCorner_done; [lia | lia | unfold lp; lia | unfold lp; lia |].
      replace (3 * i + 2) with (3 * i + 1 + 1) by lia.
      apply expandCorner_done; [lia | lia | unfold lp; lia | unfold lp; lia |].
      replace (3 * i + 1) with (3 * i + 0 + 1) by lia.
      apply expandCorner_done; [lia | lia | unfold lp; lia | unfold lp; lia |].
      now rewrite Z.add_0_r. }
  destruct (for_pure (Z.to_nat T) 0 body acc0) as [[p n] u] eqn:E.
  destruct HInv as (Lp & Ln & Lu & Hall). cbn [fst snd] in *.
  eexists. split; [reflexivity|].
  cbn [MDLFileLoader.target_positions MDLFileLoader.target_normals MDLFileLoader.target_uvs].
  split; [unfold lp in Lp; lia|]. split; [unfold lp in Ln; lia|].
  split; [unfold lu in Lu; lia|].
  intros i j Hi Hj. apply Hall; lia.
Qed.

(** X11: the corners of a snapshot.  For a triangle count [T] that is not
    negative, [expandFrame] produces a morph target whose positions and
    normals have [9 * T] cells and whose texture coordinates have [6 * T];
    corner [j] of triangle [i] holds, in cells [3 * (3 * i + j)] and the
    two that follow, the position and the normal the frame has for the
    vertex [indices[3 * i + j]] (the value of [undefined] when that index
    is outside the frame). *)
Theorem mdl_expandFrame_corners :
  0 <= MDLFileLoader.numTriangles header ->
  exists target,
    MDLFileLoader.expandFrame header indices onSeam faceFront uvs frame = ROk target
    /\ Z.of_nat (length (MDLFileLoader.target_positions target))
       = 9 * MDLFileLoader.numTriangles header
    /\ Z.of_nat (length (MDLFileLoader.target_normals target))
       = 9 * MDLFileLoader.numTriangles header
    /\ Z.of_nat (length (MDLFileLoader.target_uvs target))
       = 6 * MDLFileLoader.numTriangles header
    /\ forall i j, 0 <= i < MDLFileLoader.numTriangles header -> 0 <= j < 3 ->
         cornerCopies (MDLFileLoader.target_positions target)
           (MDLFileLoader.positions frame) (3 * i + j) (cornerVertex indices i j)
         /\ cornerCopies (MDLFileLoader.target_normals target)
              (MDLFileLoader.normals frame) (3 * i + j) (cornerVertex indices i j).
Proof. exact expandFrame_run. Qed.

End MdlCorners.

(** ** The model loader: grouped frames, as they are read *)

Section MdlGroupFrames.
Context {num : Type} {N : Number num}.
Variable data : list byte.
Local Abbreviation Host := (MDLFileLoader.Host (num := num)).

Lemma group_frame_run (header : MDLFileLoader.Header (num := num))
    (indices onSeam faceFront : list Z) (uvs : list num) (manager : nat) (s : St Host) :
  let nv := MDLFileLoader.numVertices header in
  let c := cursor s in
  let n := int32At data (c + 4) in
  let sub := 24 + 4 * nv in
  int32At data c <> 0 ->
  0 <= n -> 0 <= nv -> 0 <= c ->
  c + 20 + 4 * n + n * sub <= byteLength data ->
  (forall j i, 0 <= j < n -> 0 <= i < nv ->
     byteAt data (c + 20 + 4 * n + j * sub + 24 + 4 * i + 3) < 162) ->
  MDLFileLoader.readFrameRecord data header indices onSeam faceFront uvs manager s
  = (Ok tt, advance (20 + 4 * n + n * sub) s).
Proof.
  intros nv c n sub Hflag Hn Hnv Hc Hin Hnormals.
  destruct s as [c0 h]. cbn [cursor] in c. subst c.
  assert (Hsub : 0 <= n * sub) by (unfold sub; nia).
  destruct (MDLFileLoader.scale header) as [[sx sy] sz] eqn:Escale.
  destruct (MDLFileLoader.translate header) as [[tx ty] tz] eqn:Etrans.
  unfold MDLFileLoader.readFrameRecord.
  rewrite bind_readInt32 by (cbn [cursor]; lia). cbn [cursor].
  apply Z.eqb_neq in Hflag. rewrite Hflag.
  rewrite bind_readInt32 by (cbn [cursor advance]; lia). cbn [cursor advance host].
  fold n. rewrite !bind_skipBytes. unfold advance. cbn [cursor host].
  pose (Inv := fun (j : Z) (_ : unit) (t : St Host) =>
    t = {| cursor := c0 + 20 + 4 * n + j * sub; host := h |}).
  match goal with
  | |- for_ ?k 0 ?body ?a0 ?s0 = _ =>
      destruct (for_run Inv body k 0 a0 s0) as ([] & s' & E & Hs)
  end.
  - unfold Inv. f_equal. lia.
  - intros j [] t Hj ->.
    destruct (parseFrame_run data header sx sy sz tx ty tz
                {| cursor := c0 + 20 + 4 * n + j * sub; host := h |})
      as (frame & Eframe & _); try assumption; cbn [cursor].
    + nia.
    + fold nv. fold sub. nia.
    + intros i Hi. apply Hnormals; [lia | exact Hi].
    + rewrite (bind_Ok _ _ _ _ _ Eframe). cbv beta.
      eexists. eexists. split; [reflexivity|].
      unfold Inv, advance. cbn [cursor host]. fold nv. f_equal. unfold sub. lia.
  - rewrite E. unfold Inv in Hs. subst s'. f_equal. f_equal.
    replace (0 + Z.of_nat (Z.to_nat n)) with n by lia. lia.
Qed.

(** X24: a grouped frame, as the loader reads it.  For a frame record
    whose flag is not zero, [readFrameRecord] takes the number [n] of
    sub-frames, passes 12 bytes for the bounding box and [4 * n] bytes of
    intervals, and decodes [n] sub-frames of [24 + 4 * numVertices] bytes
    that it throws away: it consumes [20 + 4 * n + n * (24 + 4 *
    numVertices)] bytes, flag included, and leaves the host as it was, so
    the group adds no snapshot. *)
Theorem mdl_group_frame_consumption (header : MDLFileLoader.Header (num := num))
    (indices onSeam faceFront : list Z) (uvs : list num) (manager : nat) (s : St Host) :
  let nv := MDLFileLoader.numVertices header in
  let c := cursor s in
  let n := int32At data (c + 4) in
  let sub := 24 + 4 * nv in
  int32At data c <> 0 ->
  0 <= n -> 0 <= nv -> 0 <= c ->
  c + 20 + 4 * n + n * sub <= byteLength data ->
  (forall j i, 0 <= j < n -> 0 <= i < nv ->
     byteAt data (c + 20 + 4 * n + j * sub + 24 + 4 * i + 3) < 162) ->
  MDLFileLoader.readFrameRecord data header indices onSeam faceFront uvs manager s
  = (Ok tt, advance (20 + 4 * n + n * sub) s).
Proof. exact (group_frame_run header indices onSeam faceFront uvs manager s). Qed.

End MdlGroupFrames.

(** ** The model loader: a file without groups loads *)

Section MdlLoads.
Context {num : Type} {N : Number num}.
Variable data : list byte.
Local Abbreviation Host := (MDLFileLoader.Host (num := num)).
Local Abbreviation Header := (MDLFileLoader.Header (num := num)).

Lemma newManager_run (s : St Host) :
  MDLFileLoader.newManager s
  = (Ok (length (MDLFileLoader.managers (host s))),
     {| cursor := cursor s;
        host := {| MDLFileLoader.alerts := MDLFileLoader.alerts (host s);
                   MDLFileLoader.meshes := MDLFileLoader.meshes (host s);
                   MDLFileLoader.managers := MDLFileLoader.managers (host s) ++ [[]] |} |}).
Proof. reflexivity. Qed.

Lemma pushMesh_run (mesh : MDLFileLoader.Mesh) (s : St Host) ms :
  MDLFileLoader.meshes (host s) = Some ms ->
  MDLFileLoader.pushMesh mesh s
  = (Ok tt,
     {| cursor := cursor s;
        host := {| MDLFileLoader.alerts := MDLFileLoader.alerts (host s);
                   MDLFileLoader.meshes := Some (ms ++ [mesh]);
                   MDLFileLoader.managers := MDLFileLoader.managers (host s) |} |}).
Proof. intros E. unfold MDLFileLoader.pushMesh, bind, getHost. now rewrite E. Qed.

Lemma addTarget_run (target : MDLFileLoader.MorphTarget (num := num)) c al me
    (mg : list (list MDLFileLoader.MorphTarget)) targets :
  MDLFileLoader.addTarget (length mg) target
    {| cursor := c;
       host := {| MDLFileLoader.alerts := al; MDLFileLoader.meshes := me;
                  MDLFileLoader.managers := mg ++ [targets] |} |}
  = (Ok tt,
     {| cursor := c;
        host := {| MDLFileLoader.alerts := al; MDLFileLoader.meshes := me;
                   MDLFileLoader.managers := mg ++ [targets ++ [target]] |} |}).
Proof.
  unfold MDLFileLoader.addTarget, bind, getHost, setHost.
  cbn [host cursor MDLFileLoader.alerts MDLFileLoader.meshes MDLFileLoader.managers].
  replace (length mg) with (length mg + 0)%nat by lia.
  rewrite alter_app_r. reflexivity.
Qed.

(** The index buffer of the mesh numbers the corners in order. *)
Lemma indices2_identity T :
  0 <= T ->
  let indices2 :=
    for_pure (Z.to_nat T) 0
      (fun i a => for_pure 3 0 (fun j a => zset a (3 * i + j) (toUint32 (j + 3 * i))) a)
      (replicate (Z.to_nat (3 * T)) 0) in
  Z.of_nat (length indices2) = 3 * T
  /\ forall p, 0 <= p < 3 * T -> zget indices2 p = Some (toUint32 p).
Proof.
  intros HT indices2.
  pose (Inv := fun (i : Z) (a : list Z) =>
    Z.of_nat (length a) = 3 * T
    /\ forall p, 0 <= p < 3 * i -> zget a p = Some (toUint32 p)).
  assert (HInv : Inv (0 + Z.of_nat (Z.to_nat T)) indices2).
  { apply for_pure_inv.
    - split; [rewrite length_replicate; lia | intros; lia].
    - intros i a Hi [Hl Hall]. cbn [for_pure].
      split; [now rewrite !zset_length|].
      intros p Hp.
      destruct (Z.eq_dec p (3 * i + 0 + 1 + 1)) as [-> | H2].
      { rewrite zget_zset_eq by (rewrite ?zset_length; lia). do 2 f_equal. lia. }
      rewrite zget_zset_ne by lia.
      destruct (Z.eq_dec p (3 * i + 0 + 1)) as [-> | H1].
      { rewrite zget_zset_eq by (rewrite ?zset_length; lia). do 2 f_equal. lia. }
      rewrite zget_zset_ne by lia.
      destruct (Z.eq_dec p (3 * i + 0)) as [-> | H0].
      { rewrite zget_zset_eq by (rewrite ?zset_length; lia). do 2 f_equal. lia. }
      rewrite zget_zset_ne by lia. apply Hall. lia. }
  destruct HInv as [Hl Hall]. split; [assumption|].
  intros p Hp. apply Hall. lia.
Qed.

(** The skins before skin [k], none of them a group. *)
Lemma skins_prefix_run (hd : Header) (h : Host) (k : Z) :
  0 <= k ->
  0 <= MDLFileLoader.skinWidth hd * MDLFileLoader.skinHeight hd ->
  84 + k * skinBytes hd <= byteLength data ->
  (forall j, 0 <= j < k -> int32At data (84 + j * skinBytes hd) = 0) ->
  exists textures,
    for_ (Z.to_nat k) 0 (MDLFileLoader.readSkin data hd) [] {| cursor := 84; host := h |}
    = (Ok textures, {| cursor := 84 + k * skinBytes hd; host := h |})
    /\ Z.of_nat (length textures) = k.
Proof.
  intros Hk Hwh Hin Hflags.
  assert (Hsb : 4 <= skinBytes hd) by (unfold skinBytes; lia).
  pose (Inv := fun (j : Z) (textures : list MDLFileLoader.RawTexture) (s : St Host) =>
    s = {| cursor := 84 + j * skinBytes hd; host := h |}
    /\ Z.of_nat (length textures) = j).
  destruct (for_run Inv (MDLFileLoader.readSkin data hd)
              (Z.to_nat k) 0 [] {| cursor := 84; host := h |})
    as (textures & s' & E & Hs & Hl).
  - split; [f_equal; lia | reflexivity].
  - intros j textures s Hj [-> Hl].
    destruct (readSkin_run data hd j textures {| cursor := 84 + j * skinBytes hd; host := h |})
      as (texture & E & _).
    + cbn [cursor]. apply Hflags. lia.
    + exact Hwh.
    + unfold fieldInside. cbn [cursor]. fold (skinBytes hd). nia.
    + eexists. eexists. split; [exact E|].
      unfold Inv, advance. cbn [cursor host]. fold (skinBytes hd).
      split; [f_equal; lia|]. rewrite length_app. cbn [length]. lia.
  - exists textures. replace (0 + Z.of_nat (Z.to_nat k)) with k in * by lia.
    subst s'. split; [exact E | exact Hl].
Qed.

Lemma group_skin_run (h : Host) (k : Z) :
  let hd := headerAt (num := num) data 8 in
  int32At data 0 = 1330660425 ->
  int32At data 4 = 6 ->
  0 <= k < MDLFileLoader.numSkins hd ->
  0 <= MDLFileLoader.skinWidth hd * MDLFileLoader.skinHeight hd ->
  84 + k * skinBytes hd + 4 <= byteLength data ->
  (forall j, 0 <= j < k -> int32At data (84 + j * skinBytes hd) = 0) ->
  int32At data (84 + k * skinBytes hd) <> 0 ->
  MDLFileLoader.importMesh data h
  = (Return false,
     {| cursor := 84 + k * skinBytes hd + 4;
        host := {| MDLFileLoader.alerts := MDLFileLoader.alerts h ++ [MDLFileLoader.GroupSkin k];
                   MDLFileLoader.meshes := MDLFileLoader.meshes h;
                   MDLFileLoader.managers := MDLFileLoader.managers h |} |}).
Proof.
  intros hd Hmagic Hver Hk Hwh Hin Hflags Hgroup.
  assert (Hsb : 4 <= skinBytes hd) by (unfold skinBytes; lia).
  assert (Hpos : 0 <= k * skinBytes hd) by nia.
  unfold MDLFileLoader.importMesh, MDLFileLoader.importMeshBody, newBinaryReader.
  rewrite bind_readInt32 by (cbn [cursor]; lia). cbn [cursor advance host].
  rewrite Hmagic. cbn [Z.eqb Pos.eqb negb].
  change (advance 4 {| cursor := 0; host := h |}) with {| cursor := 4; host := h |}.
  rewrite bind_readInt32 by (cbn [cursor]; lia). cbn [cursor advance host].
  rewrite Hver. cbn [Z.eqb Pos.eqb negb].
  change (advance 4 {| cursor := 4; host := h |}) with {| cursor := 8; host := h |}.
  rewrite (bind_Ok _ _ _ _ _ (readHeader_run data {| cursor := 8; host := h |}
                                ltac:(unfold fieldInside; cbn [cursor]; lia))).
  cbn [cursor]. fold hd.
  change (advance 76 {| cursor := 8; host := h |}) with {| cursor := 84; host := h |}.
  apply bind_Return.
  replace (Z.to_nat (MDLFileLoader.numSkins hd))
    with (Z.to_nat k + S (Z.to_nat (MDLFileLoader.numSkins hd - k - 1)))%nat by lia.
  rewrite for_app.
  destruct (skins_prefix_run hd h k) as (textures & E & _); try assumption; try lia.
  rewrite (bind_Ok _ _ _ _ _ E). cbn [for_].
  apply bind_Return.
  unfold MDLFileLoader.readSkin.
  rewrite bind_readInt32 by (cbn [cursor]; lia). cbn [cursor].
  replace (0 + Z.of_nat (Z.to_nat k)) with k by lia.
  apply Z.eqb_neq in Hgroup. rewrite Hgroup. cbn [negb].
  reflexivity.
Qed.

(** X25: a group skin anywhere.  When skin [k] is the first whose group
    flag is not zero, [importMesh] decodes the [k] skins before it, raises
    the alert that names skin [k] and returns [false] with the cursor
    just behind the flag: no pixel of that skin is read, no mesh is
    pushed and no morph-target manager is made. *)
Theorem mdl_importMesh_group_skin_at (h : Host) (k : Z) :
  let hd := headerAt (num := num) data 8 in
  int32At data 0 = 1330660425 ->
  int32At data 4 = 6 ->
  0 <= k < MDLFileLoader.numSkins hd ->
  0 <= MDLFileLoader.skinWidth hd * MDLFileLoader.skinHeight hd ->
  84 + k * skinBytes hd + 4 <= byteLength data ->
  (forall j, 0 <= j < k -> int32At data (84 + j * skinBytes hd) = 0) ->
  int32At data (84 + k * skinBytes hd) <> 0 ->
  MDLFileLoader.importMesh data h
  = (Return false,
     {| cursor := 84 + k * skinBytes hd + 4;
        host := {| MDLFileLoader.alerts := MDLFileLoader.alerts h ++ [MDLFileLoader.GroupSkin k];
                   MDLFileLoader.meshes := MDLFileLoader.meshes h;
                   MDLFileLoader.managers := MDLFileLoader.managers h |} |}).
Proof. exact (group_skin_run h k). Qed.

Section WellFormed.
Hypothesis WF : SingleFrameModel (num := num) data.
Local Abbreviation hd := (headerAt (num := num) data 8).

Lemma layout_order :
  84 <= uvsOffset hd /\ uvsOffset hd <= trianglesOffset hd
  /\ trianglesOffset hd <= framesOffset hd /\ framesOffset hd <= modelEnd hd
  /\ modelEnd hd <= byteLength data
  /\ 4 <= skinBytes hd /\ 28 <= frameBytes hd.
Proof.
  destruct WF as (_ & _ & HS & Hwh & Hnv & Hnt & Hnf & Hend & _).
  unfold modelEnd, framesOffset, trianglesOffset, uvsOffset, frameBytes, skinBytes in *.
  repeat split; try lia; nia.
Qed.

Lemma skin_inside k :
  0 <= k < MDLFileLoader.numSkins hd ->
  84 + k * skinBytes hd + skinBytes hd <= uvsOffset hd.
Proof.
  intros Hk. pose proof layout_order as (_ & _ & _ & _ & _ & Hsb & _).
  unfold uvsOffset. nia.
Qed.

Lemma frame_inside f :
  0 <= f < MDLFileLoader.numFrames hd ->
  framesOffset hd + f * frameBytes hd + frameBytes hd <= modelEnd hd.
Proof.
  intros Hf. pose proof layout_order as (_ & _ & _ & _ & _ & _ & Hfb).
  unfold modelEnd. nia.
Qed.

Lemma skins_run (h : Host) :
  exists textures,
    for_ (Z.to_nat (MDLFileLoader.numSkins hd)) 0 (MDLFileLoader.readSkin data hd) []
      {| cursor := 84; host := h |}
    = (Ok textures, {| cursor := uvsOffset hd; host := h |})
    /\ Z.of_nat (length textures) = MDLFileLoader.numSkins hd.
Proof.
  pose proof layout_order as (L1 & L2 & L3 & L4 & L5 & L6 & L7).
  destruct WF as (_ & _ & HS & Hwh & _ & _ & _ & _ & Hskins & _).
  apply skins_prefix_run; try assumption.
  fold (uvsOffset hd). lia.
Qed.

Lemma frames_run (indices onSeam faceFront : list Z) (uvs : list num) al me
    (mg : list (list MDLFileLoader.MorphTarget)) :
  exists targets,
    for_ (Z.to_nat (MDLFileLoader.numFrames hd)) 0
      (fun i _ =>
         MDLFileLoader.readFrameRecord data hd indices onSeam faceFront uvs (length mg)) tt
      {| cursor := framesOffset hd;
         host := {| MDLFileLoader.alerts := al; MDLFileLoader.meshes := me;
                    MDLFileLoader.managers := mg ++ [[]] |} |}
    = (Ok tt,
       {| cursor := modelEnd hd;
          host := {| MDLFileLoader.alerts := al; MDLFileLoader.meshes := me;
                     MDLFileLoader.managers := mg ++ [targets] |} |})
    /\ Z.of_nat (length targets) = MDLFileLoader.numFrames hd
    /\ Forall (targetSized hd) targets
    /\ Forall (fun target =>
                 forall i j, 0 <= i < MDLFileLoader.numTriangles hd -> 0 <= j < 3 ->
                   cornerHolds target i j
                     (emittedCornerUV hd indices onSeam faceFront uvs i j)) targets.
Proof.
  pose proof layout_order as (L1 & L2 & L3 & L4 & L5 & L6 & L7).
  destruct WF as (_ & _ & _ & _ & Hnv & Hnt & Hnf & _ & _ & Hframes).
  destruct (MDLFileLoader.scale hd) as [[sx sy] sz] eqn:Escale.
  destruct (MDLFileLoader.translate hd) as [[tx ty] tz] eqn:Etrans.
  pose (Inv := fun (f : Z) (_ : unit) (s : St Host) =>
    exists targets,
      s = {| cursor := framesOffset hd + f * frameBytes hd;
             host := {| MDLFileLoader.alerts := al; MDLFileLoader.meshes := me;
                        MDLFileLoader.managers := mg ++ [targets] |} |}
      /\ Z.of_nat (length targets) = f
      /\ Forall (targetSized hd) targets
      /\ Forall (fun target =>
                   forall i j, 0 <= i < MDLFileLoader.numTriangles hd -> 0 <= j < 3 ->
                     cornerHolds target i j
                       (emittedCornerUV hd indices onSeam faceFront uvs i j)) targets).
  destruct (for_run Inv
              (fun i _ =>
                 MDLFileLoader.readFrameRecord data hd indices onSeam faceFront uvs (length mg))
              (Z.to_nat (MDLFileLoader.numFrames hd)) 0 tt
              {| cursor := framesOffset hd;
                 host := {| MDLFileLoader.alerts := al; MDLFileLoader.meshes := me;
                            MDLFileLoader.managers := mg ++ [[]] |} |})
    as ([] & s' & E & targets & Hs & Hl & Hsized & Huvs).
  - exists []. split; [f_equal; lia|]. split; [reflexivity|]. split; constructor.
  - intros f [] s Hf (targets & -> & Hl & Hsized & Huvs).
    pose proof (frame_inside f ltac:(lia)) as Hin.
    destruct (Hframes f ltac:(lia)) as [Hflag Hnormals].
    unfold MDLFileLoader.readFrameRecord.
    rewrite bind_readInt32 by (cbn [cursor]; unfold frameBytes in *; lia).
    cbn [cursor]. rewrite Hflag. cbn [Z.eqb].
    destruct (parseFrame_run data hd sx sy sz tx ty tz
                (advance 4 {| cursor := framesOffset hd + f * frameBytes hd;
                              host := {| MDLFileLoader.alerts := al;
                                         MDLFileLoader.meshes := me;
                                         MDLFileLoader.managers := mg ++ [targets] |} |}))
      as (frame & Eframe & _); try assumption.
    + cbn [cursor advance]. lia.
    + cbn [cursor advance]. unfold frameBytes in *. lia.
    + intros i Hi. cbn [cursor advance].
      replace (framesOffset hd + f * frameBytes hd + 4 + 24 + 4 * i + 3)
        with (framesOffset hd + f * frameBytes hd + 28 + 4 * i + 3) by lia.
      apply Hnormals. exact Hi.
    + rewrite (bind_Ok _ _ _ _ _ Eframe). cbv beta.
      destruct (expandFrame_run hd indices onSeam faceFront uvs frame Hnt)
        as (target & Etarget & Hp & Hn & Hu & _).
      rewrite Etarget. rewrite bind_lift_ok.
      unfold advance. cbn [cursor host].
      rewrite addTarget_run.
      eexists. eexists. split; [reflexivity|].
      exists (targets ++ [target]).
      split; [f_equal; unfold frameBytes; lia|].
      split; [rewrite length_app; cbn [length]; lia|].
      split.
      * apply Forall_app. split; [assumption|].
        constructor; [|constructor]. repeat split; assumption.
      * apply Forall_app. split; [assumption|].
        constructor; [|constructor]. intros i j Hi Hj.
        exact (expandFrame_uvs hd indices onSeam faceFront uvs frame target Etarget i j Hi Hj).
  - exists targets.
    replace (0 + Z.of_nat (Z.to_nat (MDLFileLoader.numFrames hd)))
      with (MDLFileLoader.numFrames hd) in * by lia.
    subst s'. split; [exact E|]. split; [assumption|]. split; assumption.
Qed.

(** Up to [meshes.push(mesh)] nothing depends on [meshes]. *)
Lemma importMesh_to_push (h : Host) :
  exists mesh indices onSeam faceFront uvs,
    MDLFileLoader.importMesh data h
    = (let* _ := MDLFileLoader.pushMesh mesh in
       let* _ :=
         for_ (Z.to_nat (MDLFileLoader.numFrames hd)) 0
           (fun i _ =>
              MDLFileLoader.readFrameRecord data hd indices onSeam faceFront uvs
                (length (MDLFileLoader.managers h))) tt in
       js_return true)
        {| cursor := framesOffset hd;
           host := {| MDLFileLoader.alerts := MDLFileLoader.alerts h;
                      MDLFileLoader.meshes := MDLFileLoader.meshes h;
                      MDLFileLoader.managers := MDLFileLoader.managers h ++ [[]] |} |}
    /\ MDLFileLoader.mesh_morphTargetManager mesh = length (MDLFileLoader.managers h)
    /\ (forall p, 0 <= p < 3 * MDLFileLoader.numTriangles hd ->
          zget (MDLFileLoader.mesh_indices mesh) p = Some (toUint32 p))
    /\ (forall v, 0 <= v < MDLFileLoader.numVertices hd ->
          truthyAt onSeam v = modelOnSeam (num := num) data v
          /\ zget uvs (2 * v) = Some (modelRawS data v)
          /\ zget uvs (2 * v + 1) = Some (modelRawT data v))
    /\ (forall i, 0 <= i < MDLFileLoader.numTriangles hd ->
          truthyAt faceFront i = modelFacesFront (num := num) data i
          /\ forall j, 0 <= j < 3 ->
               zget indices (3 * i + j) = Some (modelCornerVertex (num := num) data i j)).
Proof.
  pose proof layout_order as (L1 & L2 & L3 & L4 & L5 & L6 & L7).
  pose proof WF as (Hmagic & Hver & HS & Hwh & Hnv & Hnt & Hnf & Hend & Hskins & Hframes).
  unfold MDLFileLoader.importMesh, MDLFileLoader.importMeshBody, newBinaryReader.
  rewrite bind_readInt32 by (cbn [cursor]; lia). cbn [cursor advance host].
  rewrite Hmagic. cbn [Z.eqb Pos.eqb negb].
  change (advance 4 {| cursor := 0; host := h |}) with {| cursor := 4; host := h |}.
  rewrite bind_readInt32 by (cbn [cursor]; lia). cbn [cursor advance host].
  rewrite Hver. cbn [Z.eqb Pos.eqb negb].
  change (advance 4 {| cursor := 4; host := h |}) with {| cursor := 8; host := h |}.
  rewrite (bind_Ok _ _ _ _ _ (readHeader_run data {| cursor := 8; host := h |}
                                ltac:(unfold fieldInside; cbn [cursor]; lia))).
  cbn [cursor].
  change (advance 76 {| cursor := 8; host := h |}) with {| cursor := 84; host := h |}.
  destruct (skins_run h) as (textures & Eskins & _).
  rewrite (bind_Ok _ _ _ _ _ Eskins).
  destruct (readUVs_run data hd {| cursor := uvsOffset hd; host := h |} Hnv)
    as (onSeam & uvs & Euvs & _ & _ & Huvs).
  { unfold fieldInside. cbn [cursor]. unfold trianglesOffset in *. lia. }
  rewrite (bind_Ok _ _ _ _ _ Euvs). cbv beta iota.
  unfold advance at 1. cbn [cursor host]. fold (trianglesOffset hd).
  destruct (readTriangles_run data hd {| cursor := trianglesOffset hd; host := h |} Hnt)
    as (indices & faceFront & Etris & _ & _ & Htris).
  { unfold fieldInside. cbn [cursor]. unfold framesOffset in *. lia. }
  rewrite (bind_Ok _ _ _ _ _ Etris). cbv beta iota.
  unfold advance at 1. cbn [cursor host]. fold (framesOffset hd).
  rewrite !newTyped_nonneg by lia. rewrite !bind_lift_ok.
  rewrite (bind_Ok _ _ _ _ _ (newManager_run _)). cbn [cursor host MDLFileLoader.managers
    MDLFileLoader.alerts MDLFileLoader.meshes].
  eexists. exists indices, onSeam, faceFront, uvs. split; [reflexivity|].
  cbn [MDLFileLoader.mesh_morphTargetManager MDLFileLoader.mesh_indices].
  split; [reflexivity|]. split; [apply (indices2_identity _ Hnt)|].
  split; [exact Huvs | exact Htris].
Qed.

(** The call on a file without groups, with what its snapshots hold at
    every corner. *)
Lemma importMesh_run_corners (h : Host) ms :
  MDLFileLoader.meshes h = Some ms ->
  exists mesh targets,
    MDLFileLoader.importMesh data h
    = (Return true,
       {| cursor := modelEnd hd;
          host := {| MDLFileLoader.alerts := MDLFileLoader.alerts h;
                     MDLFileLoader.meshes := Some (ms ++ [mesh]);
                     MDLFileLoader.managers := MDLFileLoader.managers h ++ [targets] |} |})
    /\ Z.of_nat (length targets) = MDLFileLoader.numFrames hd
    /\ Forall (fun target =>
                 forall i j, 0 <= i < MDLFileLoader.numTriangles hd -> 0 <= j < 3 ->
                   modelCornerVertex (num := num) data i j < MDLFileLoader.numVertices hd ->
                   cornerHolds target i j (modelCornerUV data i j)) targets.
Proof.
  intros Hms.
  destruct (importMesh_to_push h)
    as (mesh & indices & onSeam & faceFront & uvs & E & Hm & Hi & Huvs & Htris).
  rewrite E.
  match goal with
  | |- context [bind (MDLFileLoader.pushMesh ?m) _ ?s] =>
      rewrite (bind_Ok _ _ _ _ _ (pushMesh_run m s ms Hms))
  end.
  cbn [cursor host MDLFileLoader.managers MDLFileLoader.alerts MDLFileLoader.meshes].
  destruct (frames_run indices onSeam faceFront uvs (MDLFileLoader.alerts h)
              (Some (ms ++ [mesh])) (MDLFileLoader.managers h))
    as (targets & Eframes & Hl & _ & Hcorners).
  rewrite (bind_Ok _ _ _ _ _ Eframes).
  exists mesh, targets. split; [reflexivity|]. split; [assumption|].
  eapply Forall_impl; [exact Hcorners|].
  intros target Ht i j Hi' Hj Hv. cbv beta in Ht.
  specialize (Ht i j Hi' Hj).
  destruct (Htris i Hi') as [Hff Hidx]. specialize (Hidx j Hj).
  assert (Hv0 : 0 <= modelCornerVertex (num := num) data i j).
  { unfold modelCornerVertex, toUint32. apply Z.mod_pos_bound. lia. }
  destruct (Huvs _ (conj Hv0 Hv)) as (Hseam & Hs & Ht').
  replace (emittedCornerUV hd indices onSeam faceFront uvs i j)
    with (modelCornerUV data i j) in Ht; [exact Ht|].
  unfold emittedCornerUV, modelCornerUV, Spec.cornerUV, MDLFileLoader.readNum.
  cbv zeta. rewrite Hidx, !Z.add_0_r, Hs, Ht', Hseam, Hff. cbn [fst snd].
  rewrite (andb_comm (negb _)). reflexivity.
Qed.

Lemma importMesh_run (h : Host) ms :
  MDLFileLoader.meshes h = Some ms ->
  exists mesh targets,
    MDLFileLoader.importMesh data h
    = (Return true,
       {| cursor := modelEnd hd;
          host := {| MDLFileLoader.alerts := MDLFileLoader.alerts h;
                     MDLFileLoader.meshes := Some (ms ++ [mesh]);
                     MDLFileLoader.managers := MDLFileLoader.managers h ++ [targets] |} |})
    /\ MDLFileLoader.mesh_morphTargetManager mesh = length (MDLFileLoader.managers h)
    /\ (forall p, 0 <= p < 3 * MDLFileLoader.numTriangles hd ->
          zget (MDLFileLoader.mesh_indices mesh) p = Some (toUint32 p))
    /\ Z.of_nat (length targets) = MDLFileLoader.numFrames hd
    /\ Forall (targetSized hd) targets.
Proof.
  intros Hms.
  destruct (importMesh_to_push h)
    as (mesh & indices & onSeam & faceFront & uvs & E & Hm & Hi & _).
  rewrite E.
  match goal with
  | |- context [bind (MDLFileLoader.pushMesh ?m) _ ?s] =>
      rewrite (bind_Ok _ _ _ _ _ (pushMesh_run m s ms Hms))
  end.
  cbn [cursor host MDLFileLoader.managers MDLFileLoader.alerts MDLFileLoader.meshes].
  destruct (frames_run indices onSeam faceFront uvs (MDLFileLoader.alerts h)
              (Some (ms ++ [mesh])) (MDLFileLoader.managers h))
    as (targets & Eframes & Hl & Hsized & _).
  rewrite (bind_Ok _ _ _ _ _ Eframes).
  exists mesh, targets. split; [reflexivity|].
  split; [assumption|]. split; [assumption|]. split; assumption.
Qed.

(** With [null] for [meshes] the call ends at [meshes.push(mesh)]. *)
Lemma importMesh_null_meshes (h : Host) :
  MDLFileLoader.meshes h = None ->
  fst (MDLFileLoader.importMesh data h) = Throw TypeError.
Proof.
  intros Hms.
  destruct (importMesh_to_push h) as (mesh & indices & onSeam & faceFront & uvs & E & _).
  rewrite E. unfold bind at 1. unfold MDLFileLoader.pushMesh, bind, getHost.
  cbn [host MDLFileLoader.meshes]. rewrite Hms. reflexivity.
Qed.

End WellFormed.

(** X12: a model file without groups loads.  When the magic number and
    the version are right, the counts of the header are not negative,
    every skin and every frame is flagged as single, every normal index
    is below 162 and the parts lie inside the buffer, [importMesh] returns
    [true] with the cursor behind the last frame; it has raised no alert,
    has pushed one mesh, whose index buffer numbers the corners in order,
    and has given the morph-target manager of that mesh one snapshot per
    frame, each with room for every corner. *)
Theorem mdl_importMesh_loads (h : Host) (ms : list MDLFileLoader.Mesh) :
  SingleFrameModel (num := num) data ->
  MDLFileLoader.meshes h = Some ms ->
  exists mesh targets,
    MDLFileLoader.importMesh data h
    = (Return true,
       {| cursor := modelEnd (headerAt data 8);
          host := {| MDLFileLoader.alerts := MDLFileLoader.alerts h;
                     MDLFileLoader.meshes := Some (ms ++ [mesh]);
                     MDLFileLoader.managers := MDLFileLoader.managers h ++ [targets] |} |})
    /\ MDLFileLoader.mesh_morphTargetManager mesh = length (MDLFileLoader.managers h)
    /\ (forall p, 0 <= p < 3 * MDLFileLoader.numTriangles (headerAt data 8) ->
          zget (MDLFileLoader.mesh_indices mesh) p = Some (toUint32 p))
    /\ Z.of_nat (length targets) = MDLFileLoader.numFrames (headerAt data 8)
    /\ Forall (targetSized (headerAt data 8)) targets.
Proof. intros WF Hms. exact (importMesh_run WF h ms Hms). Qed.

End MdlLoads.

(** ** The other entry points of the model loader *)

Section MdlEntryPoints.
Context {num : Type} {N : Number num}.
Variable data : list byte.
Local Abbreviation Host := (MDLFileLoader.Host (num := num)).

(** X13: [load] passes [null] for [meshes], and [importMesh] pushes the
    mesh without a test.  So [load] never returns [true]: a file that is
    refused returns [false], and a model file without groups, which
    [importMesh] loads into an array, ends in [TypeError]. *)
Theorem mdl_load_never_succeeds (h : Host) :
  fst (MDLFileLoader.load data h) <> Return true
  /\ (SingleFrameModel (num := num) data ->
      fst (MDLFileLoader.load data h) = Throw TypeError).
Proof.
  unfold MDLFileLoader.load. split.
  - intros E.
    pose proof (importMesh_completion data
                  {| MDLFileLoader.alerts := MDLFileLoader.alerts h;
                     MDLFileLoader.meshes := None;
                     MDLFileLoader.managers := MDLFileLoader.managers h |}) as Hout.
    rewrite E in Hout. cbn [outcomeSpec] in Hout.
    destruct Hout as (ms & mesh & Hms & _). discriminate.
  - intros WF. apply importMesh_null_meshes; [assumption | reflexivity].
Qed.

(** X14: [loadAssetContainer] drops the result of [importMesh].  When
    [importMesh] returns [true] the container holds the one mesh; when it
    returns [false] (wrong magic number or version, group skin) the caller
    gets an empty container and no error; an exception goes on to the
    caller. *)
Theorem mdl_loadAssetContainer_outcomes (h : Host) :
  match fst (MDLFileLoader.importMesh data
               {| MDLFileLoader.alerts := MDLFileLoader.alerts h;
                  MDLFileLoader.meshes := Some [];
                  MDLFileLoader.managers := MDLFileLoader.managers h |}) with
  | Return true => exists mesh, MDLFileLoader.loadAssetContainer data h = ROk [mesh]
  | Return false => MDLFileLoader.loadAssetContainer data h = ROk []
  | Throw e => MDLFileLoader.loadAssetContainer data h = RThrow e
  | Ok _ => False
  end.
Proof.
  unfold MDLFileLoader.loadAssetContainer. cbv zeta.
  pose proof (importMesh_completion data
                {| MDLFileLoader.alerts := MDLFileLoader.alerts h;
                   MDLFileLoader.meshes := Some [];
                   MDLFileLoader.managers := MDLFileLoader.managers h |}) as Hout.
  destruct (fst (MDLFileLoader.importMesh data _)) as [b | [|] | e];
    cbn [outcomeSpec] in Hout.
  - exact Hout.
  - destruct Hout as (ms & mesh & Hms & Hms'). cbn [MDLFileLoader.meshes] in Hms.
    injection Hms as <-. exists mesh. now rewrite Hms'.
  - unfold unchanged in Hout. cbn [MDLFileLoader.meshes] in Hout. now rewrite Hout.
  - reflexivity.
Qed.

End MdlEntryPoints.

(** ** How a call of the level loader can end *)

Section BspOutcomesProofs.
Context {num : Type} {N : Number num}.
Variable data : list byte.
Local Abbreviation Host := (BSPFileLoader.Host (num := num)).
Local Abbreviation whole := (fun h : Host => h).

Lemma bspSatisfies_bind {A} (m : M Host A) (f : A -> M Host bool) :
  keeps whole m -> rets (fun _ => False) m ->
  (forall a, bspSatisfies (f a)) -> bspSatisfies (bind m f).
Proof.
  intros Hk Hr Hf s. unfold bind.
  specialize (Hk s). specialize (Hr s).
  destruct (m s) as [[a | b | e] s1] eqn:E; cbn [fst snd] in *.
  - specialize (Hf a s1). rewrite Hk in Hf. exact Hf.
  - exfalso. exact (Hr b eq_refl).
  - exact Hk.
Qed.

Ltac bsp_keeps :=
  unfold readUint8, readUint16, readInt16, readInt32, readUint32, readFloat32,
    readUint8Array, readUint32Array;
  repeat keeps_step.

Ltac bsp_rets :=
  unfold readUint8, readUint16, readInt16, readInt32, readUint32, readFloat32,
    readUint8Array, readUint32Array;
  repeat rets_step.

Lemma keeps_bsp_readHeader : keeps whole (BSPFileLoader.readHeader data).
Proof. unfold BSPFileLoader.readHeader, BSPFileLoader.readEntry. bsp_keeps. Qed.
Lemma rets_bsp_readHeader P : rets (H := Host) P (BSPFileLoader.readHeader data).
Proof. unfold BSPFileLoader.readHeader, BSPFileLoader.readEntry. bsp_rets. Qed.

Lemma keeps_readVertices hd : keeps whole (BSPFileLoader.readVertices data hd).
Proof. unfold BSPFileLoader.readVertices. bsp_keeps. Qed.
Lemma rets_readVertices P hd : rets (H := Host) P (BSPFileLoader.readVertices data hd).
Proof. unfold BSPFileLoader.readVertices. bsp_rets. Qed.

Lemma keeps_readEdges hd : keeps whole (BSPFileLoader.readEdges data hd).
Proof. unfold BSPFileLoader.readEdges. bsp_keeps. Qed.
Lemma rets_readEdges P hd : rets (H := Host) P (BSPFileLoader.readEdges data hd).
Proof. unfold BSPFileLoader.readEdges. bsp_rets. Qed.

Lemma keeps_readTexinfos hd : keeps whole (BSPFileLoader.readTexinfos data hd).
Proof. unfold BSPFileLoader.readTexinfos, BSPFileLoader.readVector4. bsp_keeps. Qed.
Lemma rets_readTexinfos P hd : rets (H := Host) P (BSPFileLoader.readTexinfos data hd).
Proof. unfold BSPFileLoader.readTexinfos, BSPFileLoader.readVector4. bsp_rets. Qed.

Lemma keeps_readMiptexs hd n o : keeps whole (BSPFileLoader.readMiptexs data hd n o).
Proof. unfold BSPFileLoader.readMiptexs. bsp_keeps. Qed.
Lemma rets_readMiptexs P hd n o : rets (H := Host) P (BSPFileLoader.readMiptexs data hd n o).
Proof. unfold BSPFileLoader.readMiptexs. bsp_rets. Qed.

Lemma keeps_readMaterials hd n o ms : keeps whole (BSPFileLoader.readMaterials data hd n o ms).
Proof. unfold BSPFileLoader.readMaterials. bsp_keeps. Qed.
Lemma rets_readMaterials P hd n o ms :
  rets (H := Host) P (BSPFileLoader.readMaterials data hd n o ms).
Proof. unfold BSPFileLoader.readMaterials. bsp_rets. Qed.

Lemma keeps_readLedges hd : keeps whole (BSPFileLoader.readLedges data hd).
Proof. unfold BSPFileLoader.readLedges. bsp_keeps. Qed.
Lemma rets_readLedges P hd : rets (H := Host) P (BSPFileLoader.readLedges data hd).
Proof. unfold BSPFileLoader.readLedges. bsp_rets. Qed.

Lemma keeps_readPlanes hd : keeps whole (BSPFileLoader.readPlanes data hd).
Proof. unfold BSPFileLoader.readPlanes. bsp_keeps. Qed.
Lemma rets_readPlanes P hd : rets (H := Host) P (BSPFileLoader.readPlanes data hd).
Proof. unfold BSPFileLoader.readPlanes. bsp_rets. Qed.

Lemma keeps_readFaces hd : keeps whole (BSPFileLoader.readFaces data hd).
Proof. unfold BSPFileLoader.readFaces, BSPFileLoader.readFace. bsp_keeps. Qed.
Lemma rets_readFaces P hd : rets (H := Host) P (BSPFileLoader.readFaces data hd).
Proof. unfold BSPFileLoader.readFaces, BSPFileLoader.readFace. bsp_rets. Qed.

Lemma bsp_importMesh_outcome (h : Host) :
  bspOutcome h (fst (BSPFileLoader.importMesh data h))
             (host (snd (BSPFileLoader.importMesh data h))).
Proof.
  unfold BSPFileLoader.importMesh.
  change h with (host (newBinaryReader h)) at 1.
  generalize (newBinaryReader h).
  change (bspSatisfies (BSPFileLoader.importMeshBody data)).
  unfold BSPFileLoader.importMeshBody.
  apply bspSatisfies_bind; [apply keeps_readAt | apply rets_readAt | intros magic].
  destruct (negb _); [intros s; reflexivity|].
  apply bspSatisfies_bind; [apply keeps_bsp_readHeader | apply rets_bsp_readHeader | intros hd].
  apply bspSatisfies_bind; [apply keeps_readVertices | apply rets_readVertices | intros vs].
  apply bspSatisfies_bind; [apply keeps_readEdges | apply rets_readEdges | intros es].
  apply bspSatisfies_bind; [apply keeps_readTexinfos | apply rets_readTexinfos | intros ts].
  apply bspSatisfies_bind; [apply keeps_seekBytes | apply rets_seekBytes | intros _].
  apply bspSatisfies_bind; [apply keeps_readAt | apply rets_readAt | intros n].
  apply bspSatisfies_bind; [apply keeps_readAt | apply rets_readAt | intros os].
  apply bspSatisfies_bind; [apply keeps_readMiptexs | apply rets_readMiptexs | intros ms].
  apply bspSatisfies_bind; [apply keeps_readMaterials | apply rets_readMaterials | intros mats].
  apply bspSatisfies_bind; [apply keeps_readLedges | apply rets_readLedges | intros ls].
  apply bspSatisfies_bind; [apply keeps_readPlanes | apply rets_readPlanes | intros ps].
  apply bspSatisfies_bind;
    [apply keeps_readFaces | apply rets_readFaces | intros [fs [fo nt]]].
  apply bspSatisfies_bind; [apply keeps_lift | apply rets_lift | intros vd].
  apply bspSatisfies_bind; [apply keeps_lift | apply rets_lift | intros sms].
  intros s. unfold bind at 1. unfold BSPFileLoader.pushMesh, bind, getHost.
  destruct (BSPFileLoader.meshes (host s)) as [ms'|] eqn:Ems.
  - cbn. exists ms', {| BSPFileLoader.mesh_vertexData := vd;
                       BSPFileLoader.mesh_material := mats;
                       BSPFileLoader.mesh_subMeshes := sms |}.
    split; [assumption | reflexivity].
  - cbn. reflexivity.
Qed.

(** X15: the level loader is all or nothing.  [importMesh] ends in one of
    three ways: it returns [true], and then it has pushed exactly one mesh
    and raised no alert; it returns [false], and then it has raised the
    alert and left [meshes] alone; or it throws, and then it has touched
    neither the alerts nor [meshes].  (The mesh is pushed at the very end,
    unlike in the model loader.) *)
Theorem bsp_importMesh_all_or_nothing (h : Host) :
  bspOutcome h (fst (BSPFileLoader.importMesh data h))
             (host (snd (BSPFileLoader.importMesh data h))).
Proof. exact (bsp_importMesh_outcome h). Qed.

(** X16: [load] of the level loader passes [null] for [meshes], which
    [importMesh] pushes to at its end without a test: [load] never returns
    [true].  [loadAssetContainer] drops the result of [importMesh]: the
    container holds one mesh when [importMesh] returns [true], it is empty
    and handed over without an error when [importMesh] returns [false],
    and an exception goes on to the caller. *)
Theorem bsp_load_and_container (h : Host) :
  fst (BSPFileLoader.load data h) <> Return true
  /\ match fst (BSPFileLoader.importMesh data
                  {| BSPFileLoader.alerts := BSPFileLoader.alerts h;
                     BSPFileLoader.meshes := Some [] |}) with
     | Return true => exists mesh, BSPFileLoader.loadAssetContainer data h = ROk [mesh]
     | Return false => BSPFileLoader.loadAssetContainer data h = ROk []
     | Throw e => BSPFileLoader.loadAssetContainer data h = RThrow e
     | Ok _ => False
     end.
Proof.
  split.
  - unfold BSPFileLoader.load. intros E.
    pose proof (bsp_importMesh_outcome
                  {| BSPFileLoader.alerts := BSPFileLoader.alerts h;
                     BSPFileLoader.meshes := None |}) as Hout.
    rewrite E in Hout. cbn [bspOutcome] in Hout.
    destruct Hout as (ms & mesh & Hms & _). discriminate.
  - unfold BSPFileLoader.loadAssetContainer. cbv zeta.
    pose proof (bsp_importMesh_outcome
                  {| BSPFileLoader.alerts := BSPFileLoader.alerts h;
                     BSPFileLoader.meshes := Some [] |}) as Hout.
    destruct (fst (BSPFileLoader.importMesh data _)) as [b | [|] | e];
      cbn [bspOutcome] in Hout.
    + exact Hout.
    + destruct Hout as (ms & mesh & Hms & Hh). cbn [BSPFileLoader.meshes] in Hms.
      injection Hms as <-. exists mesh. now rewrite Hh.
    + now rewrite Hout.
    + reflexivity.
Qed.

End BspOutcomesProofs.

(** ** The level loader: directory and sections *)

Section BspSections.
Context {num : Type} {N : Number num}.
Variable data : list byte.
Local Abbreviation Host := (BSPFileLoader.Host (num := num)).

Lemma bsp_readHeader_run (s : St Host) :
  0 <= cursor s + 8 /\ cursor s + 112 <= byteLength data ->
  BSPFileLoader.readHeader data s = (Ok (directoryAt data (cursor s)), advance 120 s).
Proof.
  destruct s as [c h]. cbn [cursor]. intros [H0 H1].
  unfold BSPFileLoader.readHeader, BSPFileLoader.readEntry, directoryAt, entryAt.
  step_more.
  replace (c + 8 + 4 + 4) with (c + 16) by lia.
  replace (c + 16 + 4 + 4) with (c + 24) by lia.
  replace (c + 24 + 4 + 4 + 2 * 8) with (c + 48) by lia.
  replace (c + 48 + 4 + 4) with (c + 56) by lia.
  replace (c + 56 + 4 + 4 + 4 * 8) with (c + 96) by lia.
  replace (c + 96 + 4 + 4) with (c + 104) by lia.
  unfold ret, advance. cbn [cursor host]. f_equal. f_equal. lia.
Qed.

(** X17: the directory of a level.  [readHeader] passes 8 bytes and takes
    offset and size of the planes, the textures and the vertices, passes
    16 bytes and takes those of the texture infos and the faces, passes 32
    bytes and takes those of the edges and the edge list, and passes 8
    bytes, leaving the cursor 120 bytes on; the record size of each
    section is kept beside its size in bytes.  It goes through exactly
    when the 104 bytes from the first entry it takes to the last lie
    inside the buffer: neither the 8 bytes passed first nor the 8 bytes
    passed last need exist.  Otherwise it throws [RangeError]. *)
Theorem bsp_readHeader_layout (s : St Host) :
  (0 <= cursor s + 8 /\ cursor s + 112 <= byteLength data ->
   BSPFileLoader.readHeader data s = (Ok (directoryAt data (cursor s)), advance 120 s))
  /\ (~ (0 <= cursor s + 8 /\ cursor s + 112 <= byteLength data) ->
      exists s', BSPFileLoader.readHeader data s = (Throw RangeError, s')
                 /\ host s' = host s).
Proof.
  split; [apply bsp_readHeader_run|].
  destruct s as [c h]. cbn [cursor host]. intros Hout.
  unfold BSPFileLoader.readHeader, BSPFileLoader.readEntry.
  repeat rewrite bind_bind.
  repeat (read_or_throw; repeat (first [rewrite bind_bind | rewrite bind_ret]; cbv beta)).
  exfalso. apply Hout. lia.
Qed.

Lemma newArrayLength_whole bytes size n :
  0 < size -> 0 <= n < 2 ^ 32 -> bytes = size * n ->
  BSPFileLoader.newArrayLength
    {| BSPFileLoader.count_bytes := bytes; BSPFileLoader.count_size := size |} = ROk n.
Proof.
  intros Hs Hn ->. unfold BSPFileLoader.newArrayLength.
  cbn [BSPFileLoader.count_bytes BSPFileLoader.count_size].
  replace (size * n) with (n * size) by lia.
  rewrite Z.mod_mul by lia. rewrite Z.div_mul by lia. cbn [Z.eqb andb].
  destruct (0 <=? n) eqn:E0; [|apply Z.leb_gt in E0; lia].
  destruct (n <? 2 ^ 32) eqn:E1; [reflexivity | apply Z.ltb_ge in E1; lia].
Qed.

Lemma newArrayLength_ragged bytes size :
  bytes mod size <> 0 ->
  BSPFileLoader.newArrayLength
    {| BSPFileLoader.count_bytes := bytes; BSPFileLoader.count_size := size |}
  = RThrow RangeError.
Proof.
  intros Hr. unfold BSPFileLoader.newArrayLength.
  cbn [BSPFileLoader.count_bytes BSPFileLoader.count_size].
  apply Z.eqb_neq in Hr. rewrite Hr. reflexivity.
Qed.

(** X18: a vertex section of ragged size.  The count of vertices is the
    size of the section divided by 12, not rounded, and it becomes the
    length of an array.  So a level with the right magic number and a
    whole directory whose vertex section has a size that is not a
    multiple of 12 makes [importMesh] throw [RangeError] at the start of
    the vertex section, before any vertex is read; nothing is pushed and
    no alert is raised. *)
Theorem bsp_importMesh_ragged_vertices (h : Host) :
  int32At data 0 = 29 ->
  116 <= byteLength data ->
  int32At data 32 mod 12 <> 0 ->
  BSPFileLoader.importMesh data h
  = (Throw RangeError, {| cursor := int32At data 28; host := h |}).
Proof.
  intros Hmagic Hlen Hragged.
  unfold BSPFileLoader.importMesh, BSPFileLoader.importMeshBody, newBinaryReader.
  rewrite bind_readInt32 by (cbn [cursor]; lia). cbn [cursor].
  rewrite Hmagic. cbn [Z.eqb Pos.eqb negb].
  change (advance 4 {| cursor := 0; host := h |}) with {| cursor := 4; host := h |}.
  rewrite (bind_Ok _ _ _ _ _ (bsp_readHeader_run {| cursor := 4; host := h |}
                                ltac:(cbn [cursor]; lia))).
  cbn [cursor].
  apply bind_Throw.
  unfold BSPFileLoader.readVertices. rewrite bind_seekBytes.
  unfold directoryAt, entryAt.
  cbn [BSPFileLoader.vertices BSPFileLoader.offset BSPFileLoader.count host advance].
  change (4 + 24) with 28. change (28 + 4) with 32.
  rewrite newArrayLength_ragged by assumption.
  reflexivity.
Qed.

Lemma readVertices_run (hd : BSPFileLoader.Header) (s : St Host) (n : Z) :
  let o := BSPFileLoader.offset (BSPFileLoader.vertices hd) in
  BSPFileLoader.count (BSPFileLoader.vertices hd)
  = {| BSPFileLoader.count_bytes := 12 * n; BSPFileLoader.count_size := 12 |} ->
  0 <= n < 2 ^ 32 ->
  0 <= o ->
  o + 12 * n <= byteLength data ->
  exists vs,
    BSPFileLoader.readVertices data hd s
    = (Ok vs, {| cursor := o + 12 * n; host := host s |})
    /\ Z.of_nat (length vs) = n
    /\ forall i, 0 <= i < n -> zget vs i = Some (vertexAt data (o + 12 * i)).
Proof.
  intros o Hcount Hn Ho Hin.
  unfold BSPFileLoader.readVertices. fold o. rewrite bind_seekBytes.
  rewrite Hcount. rewrite (newArrayLength_whole (12 * n) 12 n) by lia.
  rewrite bind_lift_ok.
  pose (Inv := fun (i : Z) (vs : list (BSPFileLoader.Vector3 (num := num))) (t : St Host) =>
    t = {| cursor := o + 12 * i; host := host s |}
    /\ Z.of_nat (length vs) = i
    /\ forall p, 0 <= p < i -> zget vs p = Some (vertexAt data (o + 12 * p))).
  match goal with
  | |- exists _, for_ ?k 0 ?body ?a0 ?s0 = _ /\ _ =>
      destruct (for_run Inv body k 0 a0 s0) as (vs & s' & E & Hs & Hl & Hall)
  end.
  - split; [f_equal; lia|]. split; [reflexivity | intros p Hp; lia].
  - intros i vs t Hi (-> & Hl & Hall).
    step_more.
    eexists. eexists. split; [reflexivity|].
    unfold Inv, advance. cbn [cursor host].
    split; [f_equal; lia|].
    split; [rewrite length_app; cbn [length]; lia|].
    intros p Hp. destruct (Z.eq_dec p i) as [-> | Hne].
    + rewrite zget_app_last by lia. unfold vertexAt, float32At.
      repeat (f_equal; try lia).
    + rewrite zget_app_l by lia. apply Hall. lia.
  - exists vs. replace (0 + Z.of_nat (Z.to_nat n)) with n in * by lia.
    subst s'. split; [exact E|]. split; assumption.
Qed.

(** X19: the vertex section.  For a section of [12 * n] bytes at an offset
    that is not negative, all inside the buffer, [readVertices] yields [n]
    vertices, vertex [i] being the three little-endian floats at
    [offset + 12 * i], each divided by ten; the cursor ends behind the
    section. *)
Theorem bsp_readVertices_section (hd : BSPFileLoader.Header) (s : St Host) (n : Z) :
  let o := BSPFileLoader.offset (BSPFileLoader.vertices hd) in
  BSPFileLoader.count (BSPFileLoader.vertices hd)
  = {| BSPFileLoader.count_bytes := 12 * n; BSPFileLoader.count_size := 12 |} ->
  0 <= n < 2 ^ 32 ->
  0 <= o ->
  o + 12 * n <= byteLength data ->
  exists vs,
    BSPFileLoader.readVertices data hd s
    = (Ok vs, {| cursor := o + 12 * n; host := host s |})
    /\ Z.of_nat (length vs) = n
    /\ forall i, 0 <= i < n -> zget vs i = Some (vertexAt data (o + 12 * i)).
Proof. exact (readVertices_run hd s n). Qed.

Lemma readLedges_run (hd : BSPFileLoader.Header) (s : St Host) (bytes : Z) :
  let o := BSPFileLoader.offset (BSPFileLoader.ledges hd) in
  BSPFileLoader.count (BSPFileLoader.ledges hd)
  = {| BSPFileLoader.count_bytes := bytes; BSPFileLoader.count_size := 4 |} ->
  0 <= bytes ->
  0 <= o ->
  o + 4 * ((bytes + 3) / 4) <= byteLength data ->
  exists ls,
    BSPFileLoader.readLedges data hd s
    = (Ok ls, {| cursor := o + 4 * ((bytes + 3) / 4); host := host s |})
    /\ Z.of_nat (length ls) = bytes / 4
    /\ forall i, 0 <= i < bytes / 4 -> zget ls i = Some (int32At data (o + 4 * i)).
Proof.
  intros o Hcount Hb Ho Hin.
  unfold BSPFileLoader.readLedges. fold o. rewrite bind_seekBytes.
  rewrite Hcount. unfold BSPFileLoader.typedArrayLength, BSPFileLoader.turns.
  cbn [BSPFileLoader.count_bytes BSPFileLoader.count_size].
  rewrite Z.quot_div_nonneg by lia.
  assert (Hq : 0 <= bytes / 4) by (apply Z.div_pos; lia).
  assert (Ht : bytes / 4 <= (bytes + 3) / 4) by (apply Z.div_le_mono; lia).
  destruct (bytes / 4 <? 0) eqn:E; [apply Z.ltb_lt in E; lia|].
  rewrite bind_lift_ok.
  replace (bytes + 4 - 1) with (bytes + 3) by lia.
  pose (Inv := fun (i : Z) (ls : list Z) (t : St Host) =>
    t = {| cursor := o + 4 * i; host := host s |}
    /\ Z.of_nat (length ls) = bytes / 4
    /\ forall p, 0 <= p < i -> p < bytes / 4 -> zget ls p = Some (int32At data (o + 4 * p))).
  match goal with
  | |- exists _, for_ ?k 0 ?body ?a0 ?s0 = _ /\ _ =>
      destruct (for_run Inv body k 0 a0 s0) as (ls & s' & E' & Hs & Hl & Hall)
  end.
  - split; [f_equal; lia|]. split; [rewrite length_replicate; lia | intros p Hp; lia].
  - intros i ls t Hi (-> & Hl & Hall).
    step_more.
    eexists. eexists. split; [reflexivity|].
    unfold Inv, advance. cbn [cursor host].
    split; [f_equal; lia|].
    split; [now rewrite zset_length|].
    intros p Hp Hp'. destruct (Z.eq_dec p i) as [-> | Hne].
    + apply zget_zset_eq; lia.
    + rewrite zget_zset_ne by lia. apply Hall; lia.
  - exists ls. replace (0 + Z.of_nat (Z.to_nat ((bytes + 3) / 4))) with ((bytes + 3) / 4) in * by lia.
    subst s'. split; [exact E'|]. split; [assumption|].
    intros i Hi. apply Hall; lia.
Qed.

(** X20: the edge list.  Its length is the size of the section divided by
    4, not rounded: the typed array that holds it has room for the whole
    entries only, while the loop that fills it runs once for every entry
    begun.  So for a section of [bytes] bytes, [readLedges] stores
    [bytes / 4] entries, entry [i] being the little-endian integer at
    [offset + 4 * i], but reads [(bytes + 3) / 4] integers: when [bytes]
    is not a multiple of 4, one integer is read and dropped, and it must
    lie inside the buffer. *)
Theorem bsp_readLedges_section (hd : BSPFileLoader.Header) (s : St Host) (bytes : Z) :
  let o := BSPFileLoader.offset (BSPFileLoader.ledges hd) in
  BSPFileLoader.count (BSPFileLoader.ledges hd)
  = {| BSPFileLoader.count_bytes := bytes; BSPFileLoader.count_size := 4 |} ->
  0 <= bytes ->
  0 <= o ->
  o + 4 * ((bytes + 3) / 4) <= byteLength data ->
  exists ls,
    BSPFileLoader.readLedges data hd s
    = (Ok ls, {| cursor := o + 4 * ((bytes + 3) / 4); host := host s |})
    /\ Z.of_nat (length ls) = bytes / 4
    /\ forall i, 0 <= i < bytes / 4 -> zget ls i = Some (int32At data (o + 4 * i)).
Proof. exact (readLedges_run hd s bytes). Qed.

(** X21: the running triangle counts.  When [readFaces] goes through, it
    yields as many faces as the section has records of 20 bytes, and,
    provided every face has at least two edges and the triangles number
    less than [2^32], offsets that are the running sums of
    [numLedges - 2]: the first is 0, each face adds its triangles, and the
    last is the number of triangles the buffers are made for. *)
Theorem bsp_readFaces_offsets (hd : BSPFileLoader.Header) (s s' : St Host)
    (fs : list BSPFileLoader.Face) (faceOffsets : list Z) (numTriangles : Z) :
  BSPFileLoader.readFaces data hd s = (Ok (fs, (faceOffsets, numTriangles)), s') ->
  Forall (fun face => 2 <= BSPFileLoader.numLedges face) fs ->
  numTriangles < 2 ^ 32 ->
  numTriangles = triangleCount fs /\ OffsetsOk fs faceOffsets numTriangles.
Proof.
  intros E Hall Hsmall. split.
  - exact (proj1 (readFaces_offsets data hd s fs faceOffsets numTriangles s' E)).
  - exact (readFaces_OffsetsOk data hd s fs faceOffsets numTriangles s' E Hall Hsmall).
Qed.

End BspSections.

(** X22: the name of a texture.  Of the 16 bytes of a name the loader
    keeps those before the first null byte: the name is a prefix of the
    bytes, it holds no null byte, and what was cut off starts with one
    (or nothing was cut off). *)
Theorem bsp_texture_name_until_null (array : list Z) :
  exists rest,
    array = BSPFileLoader.untilNull array ++ rest
    /\ Forall (fun v => v <> 0) (BSPFileLoader.untilNull array)
    /\ match rest with [] => True | v :: _ => v = 0 end.
Proof.
  induction array as [|v array (rest & E & Hall & Hrest)].
  - exists []. repeat split. constructor.
  - cbn [BSPFileLoader.untilNull]. destruct (v =? 0) eqn:Ev.
    + apply Z.eqb_eq in Ev. subst v. exists (0 :: array).
      split; [reflexivity|]. split; [constructor | reflexivity].
    + apply Z.eqb_neq in Ev. exists rest. split; [cbn; congruence|].
      split; [constructor; assumption | assumption].
Qed.

(** ** The level loader: tables whose references resolve give geometry *)

Section BspProgress.
Context {num : Type} {N : Number num}.
Local Abbreviation VertexData := (BSPFileLoader.VertexData (num := num)).
Local Abbreviation Texinfo := (BSPFileLoader.Texinfo (num := num)).

Variables (vertices : list (BSPFileLoader.Vector3 (num := num)))
  (edges : list (Z * Z)) (texinfos : list Texinfo) (miptexs : list BSPFileLoader.Miptex)
  (ledges : list Z) (fs : list BSPFileLoader.Face) (faceOffsets : list Z) (nt : Z).

Hypothesis WF : WellFormedTables vertices edges texinfos miptexs ledges fs.

Lemma zget_Forall {A} (P : A -> Prop) (l : list A) i x :
  Forall P l -> zget l i = Some x -> P x.
Proof.
  intros Hall Hx. unfold zget in Hx. destruct (i <? 0); [discriminate|].
  exact (Forall_lookup_1 _ _ _ _ Hall Hx).
Qed.

Lemma extractPolygon_ok start n :
  0 <= start -> start + n <= Z.of_nat (length ledges) ->
  exists polygon,
    BSPFileLoader.extractPolygon edges ledges start n = ROk polygon
    /\ length polygon = Z.to_nat n
    /\ Forall (fun v => 0 <= v < Z.of_nat (length vertices)) polygon.
Proof.
  intros Hs Hn. destruct WF as (Hedges & Hledges & _).
  unfold BSPFileLoader.extractPolygon, BSPFileLoader.Vector2.
  pose (Inv := fun (j : Z) (p : list Z) =>
    Z.of_nat (length p) = j - start
    /\ Forall (fun v => 0 <= v < Z.of_nat (length vertices)) p).
  match goal with
  | |- exists _, for_res ?k start ?body ?a0 = _ /\ _ =>
      destruct (for_res_inv Inv body k start a0) as (polygon & E & Hl & Hall)
  end.
  - split; [cbn; lia | constructor].
  - intros j p Hj [Hl Hall].
    destruct (zget_lt_Some ledges j) as [e He]; [lia|].
    pose proof (zget_Forall _ _ _ _ Hledges He) as Habs. cbv beta in Habs.
    destruct (zget_lt_Some edges (Z.abs e)) as [edge Hedge]; [lia|].
    pose proof (zget_Forall _ _ _ _ Hedges Hedge) as [Hv0 Hv1].
    rewrite He. cbn [defined rbind]. rewrite Hedge. cbn [defined rbind].
    eexists. split; [reflexivity|]. split.
    + rewrite length_app. cbn [length]. lia.
    + apply Forall_app. split; [assumption|].
      constructor; [|constructor]. destruct (e <? 0); assumption.
  - exists polygon. split; [exact E|]. split; [lia | assumption].
Qed.

Lemma emitCorner_ok texinfo m index k tk (vd : VertexData) :
  0 <= tk < Z.of_nat (length vertices) ->
  sized vd nt ->
  exists vd',
    BSPFileLoader.emitCorner vertices texinfo (Some m) index k tk vd = ROk vd'
    /\ sized vd' nt.
Proof.
  intros Htk Hsz. destruct (zget_lt_Some vertices tk Htk) as [[[vx vy] vz] Hv].
  unfold BSPFileLoader.emitCorner. rewrite Hv. cbn [defined rbind].
  eexists. split; [reflexivity|].
  unfold sized in *.
  cbn [BSPFileLoader.vd_positions BSPFileLoader.vd_uvs BSPFileLoader.vd_indices].
  now rewrite !zset_length.
Qed.

Lemma emitTriangle_ok texinfo m polygon off j (vd : VertexData) :
  Forall (fun v => 0 <= v < Z.of_nat (length vertices)) polygon ->
  0 <= j -> j + 2 < Z.of_nat (length polygon) ->
  sized vd nt ->
  exists vd',
    BSPFileLoader.emitTriangle vertices texinfo (Some m) polygon off j vd = ROk vd'
    /\ sized vd' nt.
Proof.
  intros Hall Hj Hlen Hsz.
  destruct (zget_lt_Some polygon 0) as [t0 H0]; [lia|].
  destruct (zget_lt_Some polygon (j + 1)) as [t1 H1]; [lia|].
  destruct (zget_lt_Some polygon (j + 2)) as [t2 H2]; [lia|].
  pose proof (zget_Forall _ _ _ _ Hall H0) as V0.
  pose proof (zget_Forall _ _ _ _ Hall H1) as V1.
  pose proof (zget_Forall _ _ _ _ Hall H2) as V2.
  unfold BSPFileLoader.emitTriangle. rewrite H0, H1, H2. cbn [defined rbind].
  destruct (emitCorner_ok texinfo m (off + j) 0 t0 vd V0 Hsz) as (vd1 & E1 & S1).
  rewrite E1. cbn [rbind].
  destruct (emitCorner_ok texinfo m (off + j) 1 t1 vd1 V1 S1) as (vd2 & E2 & S2).
  rewrite E2. cbn [rbind].
  apply emitCorner_ok; assumption.
Qed.

Lemma emitFace_ok i face (vd : VertexData) :
  validFace texinfos miptexs (Z.of_nat (length ledges)) face ->
  sized vd nt ->
  exists vd',
    BSPFileLoader.emitFace vertices edges texinfos miptexs ledges faceOffsets i face vd
    = ROk vd'
    /\ sized vd' nt.
Proof.
  intros (Hs & Hn & texinfo & m & Ht & Hm) Hsz.
  unfold BSPFileLoader.emitFace. rewrite Ht. cbn [defined rbind]. rewrite Hm.
  destruct (extractPolygon_ok (BSPFileLoader.ledgeIndex face) (BSPFileLoader.numLedges face)
              Hs Hn) as (polygon & Ep & Hl & Hall).
  rewrite Ep. cbn [rbind].
  match goal with
  | |- exists _, for_res ?k 0 ?body ?a0 = _ /\ _ =>
      destruct (for_res_inv (fun _ v => sized v nt) body k 0 a0) as (vd' & E & Hsz')
  end.
  - assumption.
  - intros j v Hj Hv. apply emitTriangle_ok; [assumption | lia | lia | assumption].
  - exists vd'. split; assumption.
Qed.

Hypothesis Hoffsets : OffsetsOk fs faceOffsets nt.

Lemma triangles_nonneg : 0 <= nt.
Proof.
  destruct Hoffsets as (H0 & Hlast & _).
  apply (offsets_mono fs faceOffsets nt Hoffsets (length fs) 0 0 nt); try lia; assumption.
Qed.

Lemma buildGeometry_ok :
  exists vd,
    BSPFileLoader.buildGeometry vertices edges texinfos miptexs ledges fs faceOffsets nt
    = ROk vd
    /\ sized vd nt.
Proof.
  pose proof triangles_nonneg as Hnt. destruct WF as (_ & _ & Hfaces).
  unfold BSPFileLoader.buildGeometry.
  rewrite !newTyped_nonneg by lia. cbn [rbind].
  match goal with
  | |- exists _, for_res ?k 0 ?body ?a0 = _ /\ _ =>
      destruct (for_res_inv (fun _ v => sized v nt) body k 0 a0) as (vd & E & Hsz)
  end.
  - unfold sized.
    cbn [BSPFileLoader.vd_positions BSPFileLoader.vd_uvs BSPFileLoader.vd_indices].
    rewrite !length_replicate. lia.
  - intros i v Hi Hv.
    destruct (zget_lt_Some fs i) as [face Hface]; [lia|].
    rewrite Hface. cbn [defined rbind].
    apply emitFace_ok; [|assumption].
    exact (zget_Forall _ _ _ _ Hfaces Hface).
  - exists vd. split; assumption.
Qed.

Lemma buildSubMeshes_ok (l0 : list BSPFileLoader.SubMesh) :
  exists subMeshes,
    BSPFileLoader.buildSubMeshes texinfos fs faceOffsets (Some l0) = ROk (Some subMeshes)
    /\ length subMeshes = (length l0 + 2 * length fs)%nat.
Proof.
  destruct WF as (_ & _ & Hfaces).
  unfold BSPFileLoader.buildSubMeshes.
  match goal with
  | |- exists _, for_res ?k 0 ?body ?a0 = _ /\ _ =>
      destruct (for_res_inv (fun (i : Z) (o : option (list BSPFileLoader.SubMesh)) =>
                               exists sms, o = Some sms
                                           /\ Z.of_nat (length sms)
                                              = Z.of_nat (length l0) + 2 * i) body k 0 a0)
        as (o & E & sms & -> & Hl)
  end.
  - exists l0. split; [reflexivity | lia].
  - intros i o Hi (sms & -> & Hl).
    destruct (zget_lt_Some fs i) as [face Hface]; [lia|].
    rewrite Hface. cbn [defined rbind].
    destruct (zget_Forall _ _ _ _ Hfaces Hface) as (_ & _ & texinfo & m & Ht & _).
    rewrite Ht. cbn [defined rbind BSPFileLoader.newSubMesh].
    eexists. split; [reflexivity|]. eexists. split; [reflexivity|].
    rewrite !length_app. cbn [length]. lia.
  - exists sms. split; [exact E | lia].
Qed.

End BspProgress.

(** The list [applyToMesh] leaves for buffers with room for at least one
    triangle: the global sub-mesh. *)
Lemma applyToMesh_sized {num : Type} {N : Number num}
    (vd : BSPFileLoader.VertexData (num := num)) (nt : Z) :
  sized vd nt -> 0 < nt ->
  BSPFileLoader.applyToMesh vd
  = Some [{| BSPFileLoader.materialIndex := 0;
             BSPFileLoader.verticesStart := 0;
             BSPFileLoader.verticesCount := 3 * nt;
             BSPFileLoader.indexStart := 0;
             BSPFileLoader.indexCount := 3 * nt |}].
Proof.
  intros (Lp & _ & Li) Hnt. unfold BSPFileLoader.applyToMesh. cbv zeta.
  rewrite Lp, Li. replace (9 * nt / 3) with (3 * nt) by (apply Z.div_unique_exact; lia).
  destruct (3 * nt =? 0) eqn:E; [apply Z.eqb_eq in E; lia | reflexivity].
Qed.

(** X23: tables whose references resolve give geometry.  When both ends
    of every edge are vertices, every entry of the edge list names an
    edge, every face has its edges inside the edge list and a texture
    info whose texture exists, the offsets are the running triangle
    counts and there is at least one triangle, then [buildGeometry] and
    [buildSubMeshes] go through without an exception: the buffers have
    room for exactly the triangles counted, and the list of sub-meshes
    of the mesh holds two entries for each face after the global
    sub-mesh the engine has made. *)
Theorem bsp_well_formed_tables_build {num : Type} {N : Number num}
    (vertices : list (BSPFileLoader.Vector3 (num := num))) (edges : list (Z * Z))
    (texinfos : list (BSPFileLoader.Texinfo (num := num)))
    (miptexs : list BSPFileLoader.Miptex) (ledges : list Z)
    (fs : list BSPFileLoader.Face) (faceOffsets : list Z) (nt : Z) :
  WellFormedTables vertices edges texinfos miptexs ledges fs ->
  OffsetsOk fs faceOffsets nt ->
  0 < nt ->
  exists vd subMeshes,
    BSPFileLoader.buildGeometry vertices edges texinfos miptexs ledges fs faceOffsets nt
    = ROk vd
    /\ sized vd nt
    /\ BSPFileLoader.buildSubMeshes texinfos fs faceOffsets (BSPFileLoader.applyToMesh vd)
       = ROk (Some subMeshes)
    /\ length subMeshes = (1 + 2 * length fs)%nat.
Proof.
  intros WF Hoffsets Hnt.
  destruct (buildGeometry_ok vertices edges texinfos miptexs ledges fs faceOffsets nt
              WF Hoffsets) as (vd & E1 & Hsz).
  destruct (buildSubMeshes_ok vertices edges texinfos miptexs ledges fs faceOffsets WF
              [{| BSPFileLoader.materialIndex := 0;
                  BSPFileLoader.verticesStart := 0;
                  BSPFileLoader.verticesCount := 3 * nt;
                  BSPFileLoader.indexStart := 0;
                  BSPFileLoader.indexCount := 3 * nt |}])
    as (sms & E2 & Hl).
  exists vd, sms.
  split; [assumption|]. split; [assumption|]. split; [|assumption].
  rewrite (applyToMesh_sized vd nt Hsz Hnt). exact E2.
Qed.


(** ** The level loader: the sections of records *)

Section BspRecordSections.
Context {num : Type} {N : Number num}.
Variable data : list byte.
Local Abbreviation Host := (BSPFileLoader.Host (num := num)).

(** A loop that reads one record of [size] bytes a turn. *)
Lemma records_run {A} (size : Z) (record : Z -> A) (body : Z -> list A -> M Host (list A))
    (o n : Z) (h : Host) :
  0 <= n ->
  (forall i vs, 0 <= i < n ->
     body i vs {| cursor := o + size * i; host := h |}
     = (Ok (vs ++ [record (o + size * i)]), {| cursor := o + size * (i + 1); host := h |})) ->
  exists vs,
    for_ (Z.to_nat n) 0 body [] {| cursor := o; host := h |}
    = (Ok vs, {| cursor := o + size * n; host := h |})
    /\ Z.of_nat (length vs) = n
    /\ forall i, 0 <= i < n -> zget vs i = Some (record (o + size * i)).
Proof.
  intros Hn Hbody.
  pose (Inv := fun (i : Z) (vs : list A) (t : St Host) =>
    t = {| cursor := o + size * i; host := h |}
    /\ Z.of_nat (length vs) = i
    /\ forall p, 0 <= p < i -> zget vs p = Some (record (o + size * p))).
  destruct (for_run Inv body (Z.to_nat n) 0 [] {| cursor := o; host := h |})
    as (vs & s' & E & Hs & Hl & Hall).
  - split; [f_equal; lia|]. split; [reflexivity | intros p Hp; lia].
  - intros i vs t Hi (-> & Hl & Hall).
    eexists. eexists. split; [apply Hbody; lia|].
    split; [reflexivity|].
    split; [rewrite length_app; cbn [length]; lia|].
    intros p Hp. destruct (Z.eq_dec p i) as [-> | Hne].
    + apply zget_app_last. lia.
    + rewrite zget_app_l by lia. apply Hall. lia.
  - exists vs. replace (0 + Z.of_nat (Z.to_nat n)) with n in * by lia.
    subst s'. split; [exact E|]. split; assumption.
Qed.

Lemma readEdges_run (hd : BSPFileLoader.Header) (s : St Host) (n : Z) :
  wholeSection data (BSPFileLoader.edges hd) 4 n ->
  exists es,
    BSPFileLoader.readEdges data hd s
    = (Ok es, {| cursor := BSPFileLoader.offset (BSPFileLoader.edges hd) + 4 * n;
                 host := host s |})
    /\ Z.of_nat (length es) = n
    /\ forall i, 0 <= i < n ->
         zget es i = Some (edgeAt data (BSPFileLoader.offset (BSPFileLoader.edges hd) + 4 * i)).
Proof.
  intros (Hcount & Hn & Ho & Hin).
  unfold BSPFileLoader.readEdges. rewrite bind_seekBytes.
  rewrite Hcount. rewrite (newArrayLength_whole (4 * n) 4 n) by lia.
  rewrite bind_lift_ok.
  apply (records_run 4 (edgeAt data)); [lia|].
  intros i es Hi. step_more. unfold ret, edgeAt, advance. cbn [cursor host].
  repeat (f_equal; try lia).
Qed.

Lemma readTexinfos_run (hd : BSPFileLoader.Header) (s : St Host) (n : Z) :
  wholeSection data (BSPFileLoader.texinfo hd) 40 n ->
  exists ts,
    BSPFileLoader.readTexinfos data hd s
    = (Ok ts, {| cursor := BSPFileLoader.offset (BSPFileLoader.texinfo hd) + 40 * n;
                 host := host s |})
    /\ Z.of_nat (length ts) = n
    /\ forall i, 0 <= i < n ->
         zget ts i
         = Some (texinfoAt data (BSPFileLoader.offset (BSPFileLoader.texinfo hd) + 40 * i)).
Proof.
  intros (Hcount & Hn & Ho & Hin).
  unfold BSPFileLoader.readTexinfos. rewrite bind_seekBytes.
  rewrite Hcount. rewrite (newArrayLength_whole (40 * n) 40 n) by lia.
  rewrite bind_lift_ok.
  apply (records_run 40 (texinfoAt data)); [lia|].
  intros i ts Hi. unfold BSPFileLoader.readVector4. step_more.
  unfold ret, texinfoAt, vector4At, float32At, advance. cbn [cursor host].
  repeat (f_equal; try lia).
Qed.

Lemma readPlanes_run (hd : BSPFileLoader.Header) (s : St Host) (n : Z) :
  wholeSection data (BSPFileLoader.planes hd) 20 n ->
  exists ps,
    BSPFileLoader.readPlanes data hd s
    = (Ok ps, {| cursor := BSPFileLoader.offset (BSPFileLoader.planes hd) + 20 * n;
                 host := host s |})
    /\ Z.of_nat (length ps) = n
    /\ forall i, 0 <= i < n ->
         zget ps i
         = Some (planeAt data (BSPFileLoader.offset (BSPFileLoader.planes hd) + 20 * i)).
Proof.
  intros (Hcount & Hn & Ho & Hin).
  unfold BSPFileLoader.readPlanes. rewrite bind_seekBytes.
  rewrite Hcount. rewrite (newArrayLength_whole (20 * n) 20 n) by lia.
  rewrite bind_lift_ok.
  apply (records_run 20 (planeAt data)); [lia|].
  intros i ps Hi. step_more.
  unfold ret, planeAt, float32At, advance. cbn [cursor host].
  repeat (f_equal; try lia).
Qed.

(** X29: the sections of edges, texture infos and planes.  Each is read
    into an array of as many records as the section has: for a section of
    [n] whole records inside the buffer the loader yields [n] records,
    record [i] taken from [offset + size * i], and leaves the cursor
    behind the section.  An edge is two little-endian unsigned 16-bit
    vertex numbers (4 bytes); a texture info is the two axes of four
    floats each, the number of the texture and the flags (40 bytes); a
    plane is a normal of three floats, a distance and a type (20
    bytes). *)
Theorem bsp_record_sections (hd : BSPFileLoader.Header) (s : St Host) (ne nt np : Z) :
  wholeSection data (BSPFileLoader.edges hd) 4 ne ->
  wholeSection data (BSPFileLoader.texinfo hd) 40 nt ->
  wholeSection data (BSPFileLoader.planes hd) 20 np ->
  (exists es,
     BSPFileLoader.readEdges data hd s
     = (Ok es, {| cursor := BSPFileLoader.offset (BSPFileLoader.edges hd) + 4 * ne;
                  host := host s |})
     /\ Z.of_nat (length es) = ne
     /\ forall i, 0 <= i < ne ->
          zget es i
          = Some (edgeAt data (BSPFileLoader.offset (BSPFileLoader.edges hd) + 4 * i)))
  /\ (exists ts,
        BSPFileLoader.readTexinfos data hd s
        = (Ok ts, {| cursor := BSPFileLoader.offset (BSPFileLoader.texinfo hd) + 40 * nt;
                     host := host s |})
        /\ Z.of_nat (length ts) = nt
        /\ forall i, 0 <= i < nt ->
             zget ts i
             = Some (texinfoAt data
                       (BSPFileLoader.offset (BSPFileLoader.texinfo hd) + 40 * i)))
  /\ (exists ps,
        BSPFileLoader.readPlanes data hd s
        = (Ok ps, {| cursor := BSPFileLoader.offset (BSPFileLoader.planes hd) + 20 * np;
                     host := host s |})
        /\ Z.of_nat (length ps) = np
        /\ forall i, 0 <= i < np ->
             zget ps i
             = Some (planeAt data (BSPFileLoader.offset (BSPFileLoader.planes hd) + 20 * i))).
Proof.
  intros He Ht Hp. split; [|split].
  - exact (readEdges_run hd s ne He).
  - exact (readTexinfos_run hd s nt Ht).
  - exact (readPlanes_run hd s np Hp).
Qed.

Lemma bind_readName {B} (f : list Z -> M Host B) (s : St Host) :
  0 <= cursor s -> cursor s + 16 <= byteLength data ->
  bind (readUint8Array data 16) f s = f (nameBytesAt data (cursor s)) (advance 16 s).
Proof.
  intros H0 H1. unfold bind, readUint8Array, readAt, viewUint8.
  rewrite inBounds_true by lia. cbn [Z.leb andb].
  unfold nameBytesAt. now rewrite map_map.
Qed.

Lemma readMiptexs_run (hd : BSPFileLoader.Header) (n : Z) (miptexOffsets : list Z)
    (s : St Host) :
  let start i := BSPFileLoader.offset (BSPFileLoader.miptex hd)
                 + BSPFileLoader.offsetAt miptexOffsets i in
  0 <= n ->
  (forall i, 0 <= i < n -> 0 <= start i /\ start i + 40 <= byteLength data) ->
  exists ms s',
    BSPFileLoader.readMiptexs data hd n miptexOffsets s = (Ok ms, s')
    /\ host s' = host s
    /\ Z.of_nat (length ms) = n
    /\ forall i, 0 <= i < n -> zget ms i = Some (miptexAt data (start i)).
Proof.
  intros start Hn Hin.
  unfold BSPFileLoader.readMiptexs.
  pose (Inv := fun (i : Z) (ms : list BSPFileLoader.Miptex) (t : St Host) =>
    host t = host s
    /\ Z.of_nat (length ms) = i
    /\ forall p, 0 <= p < i -> zget ms p = Some (miptexAt data (start p))).
  match goal with
  | |- exists _ _, for_ ?k 0 ?body ?a0 ?s0 = _ /\ _ =>
      destruct (for_run Inv body k 0 a0 s0) as (ms & s' & E & Hs & Hl & Hall)
  end.
  - split; [reflexivity|]. split; [reflexivity | intros p Hp; lia].
  - intros i ms t Hi (Ht & Hl & Hall).
    destruct (Hin i ltac:(lia)) as [H0 H1].
    rewrite bind_seekBytes. fold (start i).
    rewrite bind_readName by (cbn [cursor]; lia).
    cbn [cursor]. step_more.
    eexists. eexists. split; [reflexivity|].
    unfold Inv. cbn [host]. split; [assumption|].
    split; [rewrite length_app; cbn [length]; lia|].
    intros p Hp. destruct (Z.eq_dec p i) as [-> | Hne].
    + rewrite zget_app_last by lia. unfold miptexAt.
      repeat (f_equal; try lia).
    + rewrite zget_app_l by lia. apply Hall. lia.
  - exists ms, s'. replace (0 + Z.of_nat (Z.to_nat n)) with n in * by lia.
    split; [exact E|]. split; [assumption|]. split; assumption.
Qed.

(** X30: the texture records.  For every texture the loader seeks to the
    offset of the texture section plus the offset of the texture in it
    and takes 40 bytes: 16 bytes of name, kept up to the first null byte,
    then width, height and four offsets as little-endian unsigned 32-bit
    integers.  It needs the 40 bytes of each record inside the buffer and
    touches nothing of the host. *)
Theorem bsp_readMiptexs_records (hd : BSPFileLoader.Header) (n : Z) (miptexOffsets : list Z)
    (s : St Host) :
  let start i := BSPFileLoader.offset (BSPFileLoader.miptex hd)
                 + BSPFileLoader.offsetAt miptexOffsets i in
  0 <= n ->
  (forall i, 0 <= i < n -> 0 <= start i /\ start i + 40 <= byteLength data) ->
  exists ms s',
    BSPFileLoader.readMiptexs data hd n miptexOffsets s = (Ok ms, s')
    /\ host s' = host s
    /\ Z.of_nat (length ms) = n
    /\ forall i, 0 <= i < n -> zget ms i = Some (miptexAt data (start i)).
Proof. exact (readMiptexs_run hd n miptexOffsets s). Qed.

End BspRecordSections.

(** ** The level loader: textures *)

Section BspTexturePixels.
Context {num : Type} {N : Number num}.
Variable data : list byte.
Local Abbreviation Host := (BSPFileLoader.Host (num := num)).

Lemma readMaterials_run (hd : BSPFileLoader.Header) (n : Z) (miptexOffsets : list Z)
    (miptexs : list BSPFileLoader.Miptex) (s : St Host) :
  0 <= n ->
  (forall i, 0 <= i < n ->
     exists m,
       zget miptexs i = Some m
       /\ 0 <= pixelsOffset hd miptexOffsets i m
       /\ 0 <= BSPFileLoader.miptex_width m * BSPFileLoader.miptex_height m
       /\ pixelsOffset hd miptexOffsets i m
          + BSPFileLoader.miptex_width m * BSPFileLoader.miptex_height m
          <= byteLength data) ->
  exists materials s',
    BSPFileLoader.readMaterials data hd n miptexOffsets miptexs s = (Ok materials, s')
    /\ host s' = host s
    /\ Z.of_nat (length materials) = n
    /\ forall i, 0 <= i < n ->
         exists m material,
           zget miptexs i = Some m
           /\ zget materials i = Some material
           /\ BSPFileLoader.material_name material = BSPFileLoader.miptex_name m
           /\ BSPFileLoader.material_width material = BSPFileLoader.miptex_width m
           /\ BSPFileLoader.material_height material = BSPFileLoader.miptex_height m
           /\ paletteImage data (pixelsOffset hd miptexOffsets i m)
                (BSPFileLoader.miptex_width m * BSPFileLoader.miptex_height m)
                (BSPFileLoader.material_data material).
Proof.
  intros Hn Htex.
  unfold BSPFileLoader.readMaterials.
  pose (P := fun (i : Z) (materials : list BSPFileLoader.Material) =>
    exists m material,
      zget miptexs i = Some m
      /\ zget materials i = Some material
      /\ BSPFileLoader.material_name material = BSPFileLoader.miptex_name m
      /\ BSPFileLoader.material_width material = BSPFileLoader.miptex_width m
      /\ BSPFileLoader.material_height material = BSPFileLoader.miptex_height m
      /\ paletteImage data (pixelsOffset hd miptexOffsets i m)
           (BSPFileLoader.miptex_width m * BSPFileLoader.miptex_height m)
           (BSPFileLoader.material_data material)).
  pose (Inv := fun (i : Z) (materials : list BSPFileLoader.Material) (t : St Host) =>
    host t = host s
    /\ Z.of_nat (length materials) = i
    /\ forall p, 0 <= p < i -> P p materials).
  match goal with
  | |- exists _ _, for_ ?k 0 ?body ?a0 ?s0 = _ /\ _ =>
      destruct (for_run Inv body k 0 a0 s0) as (materials & s' & E & Hs & Hl & Hall)
  end.
  - split; [reflexivity|]. split; [reflexivity | intros p Hp; lia].
  - intros i materials t Hi (Ht & Hl & Hall).
    destruct (Htex i ltac:(lia)) as (m & Hm & H0 & Hwh & Hin).
    rewrite Hm. cbn [defined]. rewrite bind_lift_ok.
    unfold pixelsOffset in H0, Hin.
    destruct (BSPFileLoader.miptex_offsets m) as [[[o0 o1] o2] o3] eqn:Eoff.
    cbn [fst] in H0, Hin.
    rewrite bind_seekBytes.
    replace (3 * BSPFileLoader.miptex_width m * BSPFileLoader.miptex_height m)
      with (3 * (BSPFileLoader.miptex_width m * BSPFileLoader.miptex_height m)) by lia.
    rewrite newTyped_nonneg by lia. rewrite bind_lift_ok.
    match goal with
    | |- context [bind (for_ _ 0 _ ?d0) _ {| cursor := ?c; host := ?h |}] =>
        destruct (palette_loop data h c
                    (BSPFileLoader.miptex_width m * BSPFileLoader.miptex_height m) d0)
          as (d & Ed & Hld & Hd); [lia | lia | lia | rewrite length_replicate; lia |]
    end.
    rewrite (bind_Ok _ _ _ _ _ Ed). cbv beta.
    eexists. eexists. split; [reflexivity|].
    unfold Inv. cbn [host]. split; [assumption|].
    split; [rewrite length_app; cbn [length]; lia|].
    intros p Hp. destruct (Z.eq_dec p i) as [-> | Hne].
    + exists m. eexists. split; [assumption|].
      split; [apply zget_app_last; lia|].
      cbn [BSPFileLoader.material_name BSPFileLoader.material_width
           BSPFileLoader.material_height BSPFileLoader.material_data].
      split; [reflexivity|]. split; [reflexivity|]. split; [reflexivity|].
      unfold paletteImage, pixelsOffset. rewrite Eoff. cbn [fst].
      split; assumption.
    + destruct (Hall p ltac:(lia)) as (m' & mat' & G1 & G2 & G3).
      exists m', mat'. split; [assumption|].
      split; [rewrite zget_app_l by lia; assumption | assumption].
  - exists materials, s'. replace (0 + Z.of_nat (Z.to_nat n)) with n in * by lia.
    split; [exact E|]. split; [assumption|]. split; [assumption|]. exact Hall.
Qed.

(** X26: the pictures of the textures.  For every texture of the section,
    [readMaterials] seeks to the first picture of the texture, at the
    offset the texture names within the section, and makes a material of
    the name, the width and the height of the texture, with three bytes a
    pixel: the red, green and blue the palette has for each of the
    [width * height] bytes read there.  It needs those bytes inside the
    buffer and touches nothing of the host. *)
Theorem bsp_readMaterials_pictures (hd : BSPFileLoader.Header) (n : Z)
    (miptexOffsets : list Z) (miptexs : list BSPFileLoader.Miptex) (s : St Host) :
  0 <= n ->
  (forall i, 0 <= i < n ->
     exists m,
       zget miptexs i = Some m
       /\ 0 <= pixelsOffset hd miptexOffsets i m
       /\ 0 <= BSPFileLoader.miptex_width m * BSPFileLoader.miptex_height m
       /\ pixelsOffset hd miptexOffsets i m
          + BSPFileLoader.miptex_width m * BSPFileLoader.miptex_height m
          <= byteLength data) ->
  exists materials s',
    BSPFileLoader.readMaterials data hd n miptexOffsets miptexs s = (Ok materials, s')
    /\ host s' = host s
    /\ Z.of_nat (length materials) = n
    /\ forall i, 0 <= i < n ->
         exists m material,
           zget miptexs i = Some m
           /\ zget materials i = Some material
           /\ BSPFileLoader.material_name material = BSPFileLoader.miptex_name m
           /\ BSPFileLoader.material_width material = BSPFileLoader.miptex_width m
           /\ BSPFileLoader.material_height material = BSPFileLoader.miptex_height m
           /\ paletteImage data (pixelsOffset hd miptexOffsets i m)
                (BSPFileLoader.miptex_width m * BSPFileLoader.miptex_height m)
                (BSPFileLoader.material_data material).
Proof. exact (readMaterials_run hd n miptexOffsets miptexs s). Qed.

End BspTexturePixels.

(** ** The render callback of the viewer *)

Section ViewerBlend.







(** With one target the callback sets its weight to 1 and leaves [time]
    alone.  With none it throws [TypeError] and changes nothing. *)
Remark viewer_few_targets (t : Q) :
  Viewer.beforeRender {| Viewer.time := t; Viewer.influences := [] |}
  = (RThrow TypeError, {| Viewer.time := t; Viewer.influences := [] |})
  /\ forall v,
       Viewer.beforeRender {| Viewer.time := t; Viewer.influences := [v] |}
       = (ROk tt, {| Viewer.time := t; Viewer.influences := [1%Q] |}).
Proof. split; [reflexivity | intros v; reflexivity]. Qed.



End ViewerBlend.

(** * The texture coordinates of a model, from file to snapshot *)

Section MdlSeam.
Context {num : Type} {N : Number num}.
Variable data : list byte.
Local Abbreviation Host := (MDLFileLoader.Host (num := num)).
Local Abbreviation hd := (headerAt (num := num) data 8).

(** C2 (amended): for a model file without groups, [importMesh] gives
    every snapshot, at corner [j] of triangle [i], which refers to a
    vertex [v] of the file, the pair
    [((rawS + (onSeam[v] && !facesFront[i] ? 0.5*skinWidth : 0) + 0.5) / skinWidth,
      (rawT + 0.5) / skinHeight)], evaluated in the arithmetic of the
    loader and stored in single precision; the flag is that of triangle
    [i], not an aggregate over the vertex.  Hence a seam vertex met in a
    front-facing and in a back-facing triangle gets, at the two corners,
    the stored values of [(rawS + 0.5) / skinWidth] and of
    [(rawS + 0.5*skinWidth + 0.5) / skinWidth], and the same second
    coordinate. *)
Theorem mdl_seam_uv (h : Host) (ms : list MDLFileLoader.Mesh) :
  SingleFrameModel (num := num) data ->
  MDLFileLoader.meshes h = Some ms ->
  exists mesh targets,
    MDLFileLoader.importMesh data h
    = (Return true,
       {| cursor := modelEnd hd;
          host := {| MDLFileLoader.alerts := MDLFileLoader.alerts h;
                     MDLFileLoader.meshes := Some (ms ++ [mesh]);
                     MDLFileLoader.managers := MDLFileLoader.managers h ++ [targets] |} |})
    /\ Z.of_nat (length targets) = MDLFileLoader.numFrames hd
    /\ (forall target i j,
          In target targets ->
          0 <= i < MDLFileLoader.numTriangles hd -> 0 <= j < 3 ->
          modelCornerVertex (num := num) data i j < MDLFileLoader.numVertices hd ->
          cornerHolds target i j (modelCornerUV data i j))
    /\ (forall target i1 j1 i2 j2 v,
          In target targets ->
          0 <= i1 < MDLFileLoader.numTriangles hd -> 0 <= j1 < 3 ->
          0 <= i2 < MDLFileLoader.numTriangles hd -> 0 <= j2 < 3 ->
          modelCornerVertex (num := num) data i1 j1 = v ->
          modelCornerVertex (num := num) data i2 j2 = v ->
          v < MDLFileLoader.numVertices hd ->
          modelOnSeam (num := num) data v = true ->
          modelFacesFront (num := num) data i1 = true ->
          modelFacesFront (num := num) data i2 = false ->
          let w := num_of_Z (MDLFileLoader.skinWidth hd) in
          let t := fround (ndiv (nadd (modelRawT data v) nhalf)
                             (num_of_Z (MDLFileLoader.skinHeight hd))) in
          cornerHolds target i1 j1
            (fround (ndiv (nadd (modelRawS data v) nhalf) w), t)
          /\ cornerHolds target i2 j2
               (fround (ndiv (nadd (nadd (modelRawS data v) (nmul nhalf w)) nhalf) w), t)).
Proof.
  intros WF Hms.
  destruct (importMesh_run_corners data WF h ms Hms) as (mesh & targets & E & Hl & Hall).
  exists mesh, targets. split; [exact E|]. split; [exact Hl|].
  rewrite List.Forall_forall in Hall. split.
  - intros target i j Hin Hi Hj Hv. exact (Hall target Hin i j Hi Hj Hv).
  - intros target i1 j1 i2 j2 v Hin Hi1 Hj1 Hi2 Hj2 Hv1 Hv2 Hv Hseam Hf1 Hf2 w t.
    pose proof (Hall target Hin i1 j1 Hi1 Hj1 ltac:(rewrite Hv1; exact Hv)) as H1.
    pose proof (Hall target Hin i2 j2 Hi2 Hj2 ltac:(rewrite Hv2; exact Hv)) as H2.
    unfold modelCornerUV, Spec.cornerUV in H1, H2. cbv zeta in H1, H2.
    rewrite Hv1, Hseam, Hf1 in H1. rewrite Hv2, Hseam, Hf2 in H2.
    cbn [andb negb fst snd] in H1, H2.
    split; [exact H1 | exact H2].
Qed.

End MdlSeam.

(** C2, as stated, fails in the arithmetic of the loader, where the
    coordinates are stored in single precision.  In a skin 3 texels wide,
    the seam vertex at texel 0 gets two first coordinates that do not
    differ by one half, that is by [0.5 * skinWidth] texels; in a skin 1
    texel wide, the seam vertex at texel [2^24] gets the same pair at both
    corners. *)
Lemma mdl_seam_uv_rounded :
  (let r := MDLFileLoader.importMesh (N := Ieee.IeeeNumber) (Sample.seamModel 3 0)
              Sample.emptyMdlHost in
   fst r = Return true
   /\ exists target u1 u2,
        MDLFileLoader.managers (host (snd r)) = [[target]]
        /\ zget (MDLFileLoader.target_uvs target) (2 * (3 * 0 + 0)) = Some u1
        /\ zget (MDLFileLoader.target_uvs target) (2 * (3 * 1 + 0)) = Some u2
        /\ ~ ((Ieee.toQ u2 - Ieee.toQ u1) * inject_Z 3 == (1 # 2) * inject_Z 3)%Q)
  /\ (let r := MDLFileLoader.importMesh (N := Ieee.IeeeNumber)
                 (Sample.seamModel 1 16777216) Sample.emptyMdlHost in
      fst r = Return true
      /\ exists target,
           MDLFileLoader.managers (host (snd r)) = [[target]]
           /\ zget (MDLFileLoader.target_uvs target) (2 * (3 * 0 + 0))
              = zget (MDLFileLoader.target_uvs target) (2 * (3 * 1 + 0))
           /\ zget (MDLFileLoader.target_uvs target) (2 * (3 * 0 + 0) + 1)
              = zget (MDLFileLoader.target_uvs target) (2 * (3 * 1 + 0) + 1)).
Proof.
  split; cbv zeta.
  - split; [vm_compute; reflexivity|].
    eexists. eexists. eexists.
    split; [vm_compute; reflexivity|]. split; [vm_compute; reflexivity|].
    split; [vm_compute; reflexivity|].
    vm_compute. discriminate.
  - split; [vm_compute; reflexivity|].
    eexists. split; [vm_compute; reflexivity|].
    split; vm_compute; reflexivity.
Qed.

(** * A buffer that has been cut short *)

Section CutShortRules.
Context {H : Type}.

Lemma cutShort_refl {A} (m : M H A) : cutShort m m.
Proof. intros s. now left. Qed.

Lemma cutShort_bind {A B} (m' m : M H A) (f' f : A -> M H B) :
  cutShort m' m -> (forall a, cutShort (f' a) (f a)) -> cutShort (bind m' f') (bind m f).
Proof.
  intros Hm Hf s. unfold bind. destruct (Hm s) as [E | E].
  - rewrite E. destruct (m s) as [[a | b | e] s1]; [apply Hf | now left | now left].
  - right. destruct (m' s) as [[a | b | e] s1]; cbn [fst] in *; try discriminate.
    injection E as ->. reflexivity.
Qed.

Lemma cutShort_for {A} (body' body : Z -> A -> M H A) n :
  (forall i a, cutShort (body' i a) (body i a)) ->
  forall i a, cutShort (for_ n i body' a) (for_ n i body a).
Proof.
  intros Hb. induction n as [|n IH]; intros i a; cbn [for_].
  - apply cutShort_refl.
  - apply cutShort_bind; [apply Hb | intros a'; apply IH].
Qed.

Lemma cutShort_readAt {A} (get' get : Z -> Res A) w :
  (forall off, get' off = get off \/ get' off = RThrow RangeError) ->
  cutShort (H := H) (readAt get' w) (readAt get w).
Proof.
  intros Hg s. unfold readAt. destruct (Hg (cursor s)) as [E | E]; rewrite E.
  - now left.
  - now right.
Qed.

End CutShortRules.

Section CutShortReads.
Context {num : Type} {N : Number num}.
Variables (data : list byte) (n : nat).
Local Abbreviation short := (take n data).

Lemma byteLength_take : byteLength short <= byteLength data.
Proof. unfold byteLength. rewrite length_take. lia. Qed.

Lemma byteAt_take off :
  0 <= off < byteLength short -> byteAt short off = byteAt data off.
Proof.
  unfold byteLength, byteAt, zget. rewrite length_take. intros Hoff.
  destruct (off <? 0) eqn:E; [apply Z.ltb_lt in E; lia|].
  rewrite lookup_take_lt by lia. reflexivity.
Qed.

Lemma inBounds_take off w :
  inBounds short off w = true ->
  inBounds data off w = true /\ 0 <= off /\ off + w <= byteLength short.
Proof.
  unfold inBounds. intros E.
  apply andb_prop in E as [E1 E2]. apply Z.leb_le in E1. apply Z.leb_le in E2.
  pose proof byteLength_take.
  split; [|lia]. apply andb_true_intro. split; apply Z.leb_le; lia.
Qed.

Lemma getUint8_take off :
  getUint8 short off = getUint8 data off \/ getUint8 short off = RThrow RangeError.
Proof.
  unfold getUint8. destruct (inBounds short off 1) eqn:E; [|now right].
  apply inBounds_take in E as (E & H0 & H1). rewrite E. left.
  now rewrite byteAt_take by lia.
Qed.

Lemma uint32At_take off :
  0 <= off -> off + 4 <= byteLength short -> uint32At short off = uint32At data off.
Proof. intros H0 H1. unfold uint32At. now rewrite !byteAt_take by lia. Qed.

Lemma getUint32_take off :
  getUint32 short off = getUint32 data off \/ getUint32 short off = RThrow RangeError.
Proof.
  unfold getUint32. destruct (inBounds short off 4) eqn:E; [|now right].
  apply inBounds_take in E as (E & H0 & H1). rewrite E. left.
  now rewrite uint32At_take.
Qed.

Lemma getInt32_take off :
  getInt32 short off = getInt32 data off \/ getInt32 short off = RThrow RangeError.
Proof.
  unfold getInt32. destruct (inBounds short off 4) eqn:E; [|now right].
  apply inBounds_take in E as (E & H0 & H1). rewrite E. left.
  unfold int32At. now rewrite uint32At_take.
Qed.

Lemma getFloat32_take off :
  getFloat32 (num := num) short off = getFloat32 data off
  \/ getFloat32 (num := num) short off = RThrow RangeError.
Proof.
  unfold getFloat32. destruct (getUint32_take off) as [E | E]; rewrite E; [now left | now right].
Qed.

End CutShortReads.

Ltac cut_step :=
  first
    [ apply cutShort_refl
    | apply cutShort_readAt; first [ apply getInt32_take | apply getUint32_take
                                   | apply getFloat32_take | apply getUint8_take ]
    | apply cutShort_for; intros
    | apply cutShort_bind; [|intros ?]
    | match goal with
      | |- cutShort (match ?x with _ => _ end) _ => destruct x
      | |- cutShort (if ?c then _ else _) _ => destruct c
      end ].

Section CutShortModel.
Context {num : Type} {N : Number num}.
Variables (data : list byte) (n : nat).
Local Abbreviation Host := (MDLFileLoader.Host (num := num)).
Local Abbreviation short := (take n data).

Lemma cutShort_parseFrame header :
  cutShort (H := Host) (MDLFileLoader.parseFrame short header)
    (MDLFileLoader.parseFrame data header).
Proof.
  unfold MDLFileLoader.parseFrame, readUint8.
  destruct (MDLFileLoader.scale header) as [[sx sy] sz].
  destruct (MDLFileLoader.translate header) as [[tx ty] tz].
  repeat cut_step.
Qed.

Lemma cutShort_readHeader :
  cutShort (H := Host) (MDLFileLoader.readHeader short) (MDLFileLoader.readHeader data).
Proof.
  unfold MDLFileLoader.readHeader, MDLFileLoader.readVector3, readInt32, readFloat32.
  repeat cut_step.
Qed.

Lemma cutShort_readSkin header index textures :
  cutShort (H := Host) (MDLFileLoader.readSkin short header index textures)
    (MDLFileLoader.readSkin data header index textures).
Proof.
  unfold MDLFileLoader.readSkin, readInt32, readUint8.
  repeat cut_step.
Qed.

Lemma cutShort_readUVs header :
  cutShort (H := Host) (MDLFileLoader.readUVs short header)
    (MDLFileLoader.readUVs data header).
Proof. unfold MDLFileLoader.readUVs, readInt32. repeat cut_step. Qed.

Lemma cutShort_readTriangles header :
  cutShort (H := Host) (MDLFileLoader.readTriangles short header)
    (MDLFileLoader.readTriangles data header).
Proof. unfold MDLFileLoader.readTriangles, readInt32. repeat cut_step. Qed.

Lemma cutShort_readFrameRecord header indices onSeam faceFront uvs manager :
  cutShort (H := Host)
    (MDLFileLoader.readFrameRecord short header indices onSeam faceFront uvs manager)
    (MDLFileLoader.readFrameRecord data header indices onSeam faceFront uvs manager).
Proof.
  unfold MDLFileLoader.readFrameRecord, readInt32.
  apply cutShort_bind; [repeat cut_step | intros type].
  destruct (type =? 0).
  - apply cutShort_bind; [apply cutShort_parseFrame | intros frame]. apply cutShort_refl.
  - apply cutShort_bind; [repeat cut_step | intros k].
    apply cutShort_bind; [apply cutShort_refl | intros _].
    apply cutShort_bind; [apply cutShort_refl | intros _].
    apply cutShort_for. intros j [].
    apply cutShort_bind; [apply cutShort_parseFrame | intros frame]. apply cutShort_refl.
Qed.

Lemma cutShort_importMeshBody :
  cutShort (H := Host) (MDLFileLoader.importMeshBody short) (MDLFileLoader.importMeshBody data).
Proof.
  unfold MDLFileLoader.importMeshBody, readInt32.
  apply cutShort_bind; [repeat cut_step | intros magic].
  destruct (negb _); [apply cutShort_refl|].
  apply cutShort_bind; [repeat cut_step | intros version].
  destruct (negb _); [apply cutShort_refl|].
  apply cutShort_bind; [apply cutShort_readHeader | intros header].
  apply cutShort_bind;
    [apply cutShort_for; intros; apply cutShort_readSkin | intros textures].
  apply cutShort_bind; [apply cutShort_readUVs | intros [onSeam uvs]].
  apply cutShort_bind; [apply cutShort_readTriangles | intros [indices faceFront]].
  do 6 (apply cutShort_bind; [apply cutShort_refl | intro]).
  apply cutShort_bind; [|intros; apply cutShort_refl].
  apply cutShort_for. intros. apply cutShort_readFrameRecord.
Qed.

End CutShortModel.

(** * How a call of the model loader ends *)

Section MdlCompletion.
Context {num : Type} {N : Number num}.
Variable data : list byte.
Local Abbreviation Host := (MDLFileLoader.Host (num := num)).

(** C9 (amended): a bad magic number or version, or a group skin, makes
    [importMesh] return [false], and whenever it returns [false] the
    caller's [meshes] array is as it was.  A read outside the buffer is
    not returned as a value but raised as [RangeError]: a buffer too short
    for the magic number raises it, and cutting a file short changes the
    outcome of [importMesh] in no other way than by that exception.  When
    an exception is raised, [meshes] is either as it was or one mesh
    longer, the mesh being pushed before the frame records are read.  On
    [return true] exactly one mesh has been pushed. *)
Theorem mdl_importMesh_completion (h : Host) :
  ((4 <= byteLength data /\ int32At data 0 <> 1330660425)
   \/ (8 <= byteLength data /\ int32At data 0 = 1330660425 /\ int32At data 4 <> 6) ->
   fst (MDLFileLoader.importMesh data h) = Return false)
  /\ (forall k,
        let hd := headerAt (num := num) data 8 in
        int32At data 0 = 1330660425 ->
        int32At data 4 = 6 ->
        0 <= k < MDLFileLoader.numSkins hd ->
        0 <= MDLFileLoader.skinWidth hd * MDLFileLoader.skinHeight hd ->
        84 + k * skinBytes hd + 4 <= byteLength data ->
        (forall j, 0 <= j < k -> int32At data (84 + j * skinBytes hd) = 0) ->
        int32At data (84 + k * skinBytes hd) <> 0 ->
        fst (MDLFileLoader.importMesh data h) = Return false)
  /\ (byteLength data < 4 ->
      MDLFileLoader.importMesh data h = (Throw RangeError, newBinaryReader h))
  /\ (forall n,
        MDLFileLoader.importMesh (take n data) h = MDLFileLoader.importMesh data h
        \/ fst (MDLFileLoader.importMesh (take n data) h) = Throw RangeError)
  /\ outcomeSpec h (fst (MDLFileLoader.importMesh data h))
                 (host (snd (MDLFileLoader.importMesh data h))).
Proof.
  split; [|split; [|split; [|split]]].
  - intros Hbad. apply importMesh_bad_magic. exact Hbad.
  - intros k hd Hmagic Hver Hk Hwh Hin Hflags Hgroup.
    rewrite (group_skin_run data h k Hmagic Hver Hk Hwh Hin Hflags Hgroup). reflexivity.
  - intros Hshort. unfold MDLFileLoader.importMesh, MDLFileLoader.importMeshBody.
    apply bind_read_outside. apply getInt32_outside. cbn [cursor newBinaryReader]. lia.
  - intros n. unfold MDLFileLoader.importMesh. apply cutShort_importMeshBody.
  - apply importMesh_completion.
Qed.

End MdlCompletion.

(** * The level loader, read backwards from a call that went through *)

Section Inversion.
Context {num : Type} {N : Number num} {H : Type}.
Variable data : list byte.


Lemma readAt_went {A B} (get : Z -> Res A) w (f : A -> M H B) s r s' :
  bind (readAt get w) f s = (Ok r, s') ->
  exists v, get (cursor s) = ROk v /\ f v (advance w s) = (Ok r, s').
Proof.
  unfold bind, readAt. destruct (get (cursor s)) as [v | e]; [|discriminate].
  intros E. now exists v.
Qed.








Lemma readUint32Array_went {B} len (f : list Z -> M H B) s r s' :
  bind (readUint32Array data len) f s = (Ok r, s') ->
  f (tableOf (fun k => uint32At data (cursor s + 4 * k)) len) (advance (4 * len) s)
  = (Ok r, s').
Proof.
  intros E. apply readAt_went in E as (v & Ev & E).
  unfold viewUint32 in Ev. destruct (_ && _); [|discriminate].
  injection Ev as <-. exact E.
Qed.





End Inversion.


Section Tables.
Context {A : Type}.

Lemma tableOf_0 (record : Z -> A) : tableOf record 0 = [].
Proof. reflexivity. Qed.






End Tables.

Section LevelSections.
Context {num : Type} {N : Number num}.
Variable data : list byte.
Local Abbreviation Host := (BSPFileLoader.Host (num := num)).








End LevelSections.


Section LevelSections2.
Context {num : Type} {N : Number num}.
Variable data : list byte.
Local Abbreviation Host := (BSPFileLoader.Host (num := num)).





End LevelSections2.

Section LevelDecoded.
Context {num : Type} {N : Number num}.
Variable data : list byte.
Local Abbreviation Host := (BSPFileLoader.Host (num := num)).
Local Abbreviation whole := (fun h : Host => h).



End LevelDecoded.

(** * Corners and sub-meshes of a level, from file to mesh *)

Section LevelOffsets.



End LevelOffsets.

Section LevelCornersProofs.
Context {num : Type} {N : Number num}.
Variable data : list byte.
Local Abbreviation Host := (BSPFileLoader.Host (num := num)).
Local Abbreviation hd := (directoryAt data 4).


End LevelCornersProofs.

Section SubMeshList.
Context {A : Type}.





End SubMeshList.

Section LevelGroups.
Context {num : Type} {N : Number num}.
Local Abbreviation Texinfo := (BSPFileLoader.Texinfo (num := num)).


End LevelGroups.

Section LevelGroupsProofs.
Context {num : Type} {N : Number num}.
Variable data : list byte.
Local Abbreviation Host := (BSPFileLoader.Host (num := num)).


End LevelGroupsProofs.


(** * The properties at the samples *)

(** A skin of 4 x 2 pixels, read from the start of its buffer. *)
Lemma mdl_readSkin_palette_witness :
  let s := {| cursor := 0; host := Sample.emptyMdlHost (num := Q) |} in
  (int32At Sample.skinRecord (cursor s) = 0
   /\ 0 <= MDLFileLoader.skinWidth Sample.seamHeader * MDLFileLoader.skinHeight Sample.seamHeader
   /\ fieldInside Sample.skinRecord s
        (4 + MDLFileLoader.skinWidth Sample.seamHeader
             * MDLFileLoader.skinHeight Sample.seamHeader))
  /\ exists texture,
       MDLFileLoader.readSkin Sample.skinRecord Sample.seamHeader 0 [] s
       = (Ok [texture], advance 12 s).
Proof.
  intros s.
  assert (H1 : int32At Sample.skinRecord (cursor s) = 0) by (vm_compute; reflexivity).
  assert (H2 : 0 <= MDLFileLoader.skinWidth Sample.seamHeader
                    * MDLFileLoader.skinHeight Sample.seamHeader)
    by (vm_compute; intro; discriminate).
  assert (H3 : fieldInside Sample.skinRecord s
                 (4 + MDLFileLoader.skinWidth Sample.seamHeader
                      * MDLFileLoader.skinHeight Sample.seamHeader))
    by (split; vm_compute; intro; discriminate).
  split; [exact (conj H1 (conj H2 H3))|].
  destruct (mdl_readSkin_palette Sample.skinRecord Sample.seamHeader 0 [] s H1 H2 H3)
    as (texture & E & _).
  exists texture. exact E.
Defined.

(** The texture-coordinate table of three vertices. *)
Lemma mdl_readUVs_table_witness :
  let s := {| cursor := 0; host := Sample.emptyMdlHost (num := Q) |} in
  (0 <= MDLFileLoader.numVertices Sample.seamHeader
   /\ fieldInside Sample.uvsTable s (12 * MDLFileLoader.numVertices Sample.seamHeader))
  /\ exists onSeam uvs,
       MDLFileLoader.readUVs Sample.uvsTable Sample.seamHeader s
       = (Ok (onSeam, uvs), advance 36 s).
Proof.
  intros s.
  assert (H1 : 0 <= MDLFileLoader.numVertices Sample.seamHeader)
    by (vm_compute; intro; discriminate).
  assert (H2 : fieldInside Sample.uvsTable s
                 (12 * MDLFileLoader.numVertices Sample.seamHeader))
    by (split; vm_compute; intro; discriminate).
  split; [exact (conj H1 H2)|].
  destruct (mdl_readUVs_table Sample.uvsTable Sample.seamHeader s H1 H2)
    as (onSeam & uvs & E & _).
  exists onSeam, uvs. exact E.
Defined.

(** The triangle table of two triangles. *)
Lemma mdl_readTriangles_table_witness :
  let s := {| cursor := 0; host := Sample.emptyMdlHost (num := Q) |} in
  (0 <= MDLFileLoader.numTriangles Sample.seamHeader
   /\ fieldInside Sample.trianglesTable s (16 * MDLFileLoader.numTriangles Sample.seamHeader))
  /\ exists indices faceFront,
       MDLFileLoader.readTriangles Sample.trianglesTable Sample.seamHeader s
       = (Ok (indices, faceFront), advance 32 s).
Proof.
  intros s.
  assert (H1 : 0 <= MDLFileLoader.numTriangles Sample.seamHeader)
    by (vm_compute; intro; discriminate).
  assert (H2 : fieldInside Sample.trianglesTable s
                 (16 * MDLFileLoader.numTriangles Sample.seamHeader))
    by (split; vm_compute; intro; discriminate).
  split; [exact (conj H1 H2)|].
  destruct (mdl_readTriangles_table Sample.trianglesTable Sample.seamHeader s H1 H2)
    as (indices & faceFront & E & _).
  exists indices, faceFront. exact E.
Defined.

(** A frame of three vertices, the last with normal 161. *)
Lemma mdl_parseFrame_vertices_witness :
  let s := {| cursor := 0; host := Sample.emptyMdlHost (num := Q) |} in
  (MDLFileLoader.scale Sample.seamHeader = (1, 1, 1)%Q
   /\ MDLFileLoader.translate Sample.seamHeader = (0, 0, 0)%Q
   /\ 0 <= MDLFileLoader.numVertices Sample.seamHeader
   /\ 0 <= cursor s + 24
   /\ cursor s + 24 + 4 * MDLFileLoader.numVertices Sample.seamHeader
      <= byteLength Sample.frameRecord
   /\ (forall i, 0 <= i < MDLFileLoader.numVertices Sample.seamHeader ->
         byteAt Sample.frameRecord (cursor s + 24 + 4 * i + 3) < 162))
  /\ exists frame,
       MDLFileLoader.parseFrame Sample.frameRecord Sample.seamHeader s
       = (Ok frame, advance 36 s).
Proof.
  intros s.
  assert (H1 : MDLFileLoader.scale Sample.seamHeader = (1, 1, 1)%Q) by reflexivity.
  assert (H2 : MDLFileLoader.translate Sample.seamHeader = (0, 0, 0)%Q) by reflexivity.
  assert (H3 : 0 <= MDLFileLoader.numVertices Sample.seamHeader)
    by (vm_compute; intro; discriminate).
  assert (H4 : 0 <= cursor s + 24) by (vm_compute; intro; discriminate).
  assert (H5 : cursor s + 24 + 4 * MDLFileLoader.numVertices Sample.seamHeader
               <= byteLength Sample.frameRecord) by (vm_compute; intro; discriminate).
  assert (H6 : forall i, 0 <= i < MDLFileLoader.numVertices Sample.seamHeader ->
                 byteAt Sample.frameRecord (cursor s + 24 + 4 * i + 3) < 162).
  { intros i Hi. change (MDLFileLoader.numVertices Sample.seamHeader) with 3 in Hi.
    assert (Hc : i = 0 \/ i = 1 \/ i = 2) by lia.
    destruct Hc as [-> | [-> | ->]]; vm_compute; reflexivity. }
  split; [exact (conj H1 (conj H2 (conj H3 (conj H4 (conj H5 H6)))))|].
  destruct (mdl_parseFrame_vertices Sample.frameRecord Sample.seamHeader
              1%Q 1%Q 1%Q 0%Q 0%Q 0%Q s H1 H2 H3 H4 H5 H6) as (frame & E & _).
  exists frame. exact E.
Defined.

(** The two triangles that share the seam vertex. *)
Lemma mdl_expandFrame_corners_witness :
  0 <= MDLFileLoader.numTriangles Sample.seamHeader
  /\ exists target,
       MDLFileLoader.expandFrame Sample.seamHeader Sample.seamIndices Sample.seamOnSeam
         Sample.seamFaceFront Sample.seamUvs Sample.seamFrame = ROk target
       /\ Z.of_nat (length (MDLFileLoader.target_positions target)) = 18.
Proof.
  assert (H1 : 0 <= MDLFileLoader.numTriangles Sample.seamHeader)
    by (vm_compute; intro; discriminate).
  split; [exact H1|].
  destruct (mdl_expandFrame_corners Sample.seamHeader Sample.seamIndices Sample.seamOnSeam
              Sample.seamFaceFront Sample.seamUvs Sample.seamFrame H1)
    as (target & E & Hp & _).
  exists target. split; [exact E | exact Hp].
Defined.

(** The one-vertex model is a model without groups. *)
Lemma oneVertexModel_single : SingleFrameModel (num := Q) (Sample.oneVertexModel 161).
Proof.
  unfold SingleFrameModel. cbv zeta.
  set (hd := headerAt (Sample.oneVertexModel 161) 8).
  assert (E1 : MDLFileLoader.numSkins hd = 0) by (vm_compute; reflexivity).
  assert (E2 : MDLFileLoader.skinWidth hd = 1) by (vm_compute; reflexivity).
  assert (E3 : MDLFileLoader.skinHeight hd = 1) by (vm_compute; reflexivity).
  assert (E4 : MDLFileLoader.numVertices hd = 1) by (vm_compute; reflexivity).
  assert (E5 : MDLFileLoader.numTriangles hd = 1) by (vm_compute; reflexivity).
  assert (E6 : MDLFileLoader.numFrames hd = 1) by (vm_compute; reflexivity).
  unfold modelEnd, framesOffset, trianglesOffset, uvsOffset, frameBytes, skinBytes.
  rewrite E1, E2, E3, E4, E5, E6.
  split; [vm_compute; reflexivity|]. split; [vm_compute; reflexivity|].
  repeat (split; [lia|]).
  split; [vm_compute; intro; discriminate|].
  split; [intros k Hk; lia|].
  intros f Hf. assert (f = 0) by lia. subst f.
  split; [vm_compute; reflexivity|].
  intros i Hi. assert (i = 0) by lia. subst i. vm_compute. reflexivity.
Qed.

(** The one-vertex model, loaded into an empty array. *)
Lemma mdl_importMesh_loads_witness :
  (SingleFrameModel (num := Q) (Sample.oneVertexModel 161)
   /\ MDLFileLoader.meshes (Sample.emptyMdlHost (num := Q)) = Some [])
  /\ exists mesh targets,
       MDLFileLoader.importMesh (Sample.oneVertexModel 161) Sample.emptyMdlHost
       = (Return true,
          {| cursor := 144;
             host := {| MDLFileLoader.alerts := [];
                        MDLFileLoader.meshes := Some [mesh];
                        MDLFileLoader.managers := [targets] |} |})
       /\ Z.of_nat (length targets) = 1.
Proof.
  assert (H1 : SingleFrameModel (num := Q) (Sample.oneVertexModel 161))
    by exact oneVertexModel_single.
  assert (H2 : MDLFileLoader.meshes (Sample.emptyMdlHost (num := Q)) = Some [])
    by reflexivity.
  split; [exact (conj H1 H2)|].
  destruct (mdl_importMesh_loads (Sample.oneVertexModel 161) Sample.emptyMdlHost [] H1 H2)
    as (mesh & targets & E & _ & _ & Hl & _).
  exists mesh, targets. split; [exact E | exact Hl].
Defined.

(** The grouped frame record of the samples: one sub-frame of one vertex,
    52 bytes with the four that follow it. *)
Lemma mdl_group_frame_consumption_witness :
  let data := Sample.groupRecordPadded in
  let s := {| cursor := 0; host := Sample.emptyMdlHost (num := Q) |} in
  let nv := MDLFileLoader.numVertices Sample.oneVertexHeader in
  let n := int32At data (cursor s + 4) in
  (int32At data (cursor s) <> 0
   /\ 0 <= n /\ 0 <= nv /\ 0 <= cursor s
   /\ cursor s + 20 + 4 * n + n * (24 + 4 * nv) <= byteLength data
   /\ (forall j i, 0 <= j < n -> 0 <= i < nv ->
         byteAt data (cursor s + 20 + 4 * n + j * (24 + 4 * nv) + 24 + 4 * i + 3) < 162))
  /\ MDLFileLoader.readFrameRecord data Sample.oneVertexHeader [] [] [] [] 0 s
     = (Ok tt, advance 52 s).
Proof.
  intros data s nv n.
  assert (En : n = 1) by (vm_compute; reflexivity).
  assert (Ev : nv = 1) by reflexivity.
  assert (H1 : int32At data (cursor s) <> 0) by (vm_compute; intro; discriminate).
  assert (H2 : 0 <= n) by (vm_compute; intro; discriminate).
  assert (H3 : 0 <= nv) by (vm_compute; intro; discriminate).
  assert (H4 : 0 <= cursor s) by (vm_compute; intro; discriminate).
  assert (H5 : cursor s + 20 + 4 * n + n * (24 + 4 * nv) <= byteLength data)
    by (vm_compute; intro; discriminate).
  assert (H6 : forall j i, 0 <= j < n -> 0 <= i < nv ->
                 byteAt data (cursor s + 20 + 4 * n + j * (24 + 4 * nv) + 24 + 4 * i + 3)
                 < 162).
  { intros j i Hj Hi. rewrite En in Hj. rewrite Ev in Hi.
    assert (j = 0) by lia. assert (i = 0) by lia. subst j i.
    vm_compute. reflexivity. }
  split; [exact (conj H1 (conj H2 (conj H3 (conj H4 (conj H5 H6)))))|].
  exact (mdl_group_frame_consumption data Sample.oneVertexHeader [] [] [] [] 0%nat s
           H1 H2 H3 H4 H5 H6).
Defined.

(** Two skins, the second of them a group. *)
Lemma mdl_importMesh_group_skin_at_witness :
  let data := Sample.groupSkinModel in
  let hd := headerAt (num := Q) data 8 in
  (int32At data 0 = 1330660425
   /\ int32At data 4 = 6
   /\ 0 <= 1 < MDLFileLoader.numSkins hd
   /\ 0 <= MDLFileLoader.skinWidth hd * MDLFileLoader.skinHeight hd
   /\ 84 + 1 * skinBytes hd + 4 <= byteLength data
   /\ (forall j, 0 <= j < 1 -> int32At data (84 + j * skinBytes hd) = 0)
   /\ int32At data (84 + 1 * skinBytes hd) <> 0)
  /\ MDLFileLoader.importMesh data Sample.emptyMdlHost
     = (Return false,
        {| cursor := 93;
           host := {| MDLFileLoader.alerts := [MDLFileLoader.GroupSkin 1];
                      MDLFileLoader.meshes := Some [];
                      MDLFileLoader.managers := [] |} |}).
Proof.
  intros data hd.
  assert (H1 : int32At data 0 = 1330660425) by (vm_compute; reflexivity).
  assert (H2 : int32At data 4 = 6) by (vm_compute; reflexivity).
  assert (H3 : 0 <= 1 < MDLFileLoader.numSkins hd)
    by (split; vm_compute; first [reflexivity | intro; discriminate]).
  assert (H4 : 0 <= MDLFileLoader.skinWidth hd * MDLFileLoader.skinHeight hd)
    by (vm_compute; intro; discriminate).
  assert (H5 : 84 + 1 * skinBytes hd + 4 <= byteLength data)
    by (vm_compute; intro; discriminate).
  assert (H6 : forall j, 0 <= j < 1 -> int32At data (84 + j * skinBytes hd) = 0).
  { intros j Hj. assert (j = 0) by lia. subst j. vm_compute. reflexivity. }
  assert (H7 : int32At data (84 + 1 * skinBytes hd) <> 0)
    by (vm_compute; intro; discriminate).
  split; [exact (conj H1 (conj H2 (conj H3 (conj H4 (conj H5 (conj H6 H7))))))|].
  exact (mdl_importMesh_group_skin_at data Sample.emptyMdlHost 1 H1 H2 H3 H4 H5 H6 H7).
Defined.

(** A level whose vertex section has 10 bytes. *)
Lemma bsp_importMesh_ragged_vertices_witness :
  (int32At Sample.raggedLevel 0 = 29
   /\ 116 <= byteLength Sample.raggedLevel
   /\ int32At Sample.raggedLevel 32 mod 12 <> 0)
  /\ BSPFileLoader.importMesh Sample.raggedLevel (Sample.emptyBspHost (num := Q))
     = (Throw RangeError, {| cursor := 116; host := Sample.emptyBspHost |}).
Proof.
  assert (H1 : int32At Sample.raggedLevel 0 = 29) by (vm_compute; reflexivity).
  assert (H2 : 116 <= byteLength Sample.raggedLevel) by (vm_compute; intro; discriminate).
  assert (H3 : int32At Sample.raggedLevel 32 mod 12 <> 0)
    by (vm_compute; intro; discriminate).
  split; [exact (conj H1 (conj H2 H3))|].
  exact (bsp_importMesh_ragged_vertices Sample.raggedLevel Sample.emptyBspHost H1 H2 H3).
Defined.

(** The four vertices of the sample level. *)
Lemma bsp_readVertices_section_witness :
  let s := {| cursor := 0; host := Sample.emptyBspHost (num := Q) |} in
  let o := BSPFileLoader.offset (BSPFileLoader.vertices Sample.levelHeader) in
  (BSPFileLoader.count (BSPFileLoader.vertices Sample.levelHeader)
   = {| BSPFileLoader.count_bytes := 12 * 4; BSPFileLoader.count_size := 12 |}
   /\ 0 <= 4 < 2 ^ 32
   /\ 0 <= o
   /\ o + 12 * 4 <= byteLength Sample.levelFile)
  /\ exists vs,
       BSPFileLoader.readVertices Sample.levelFile Sample.levelHeader s
       = (Ok vs, {| cursor := 192; host := Sample.emptyBspHost |})
       /\ Z.of_nat (length vs) = 4.
Proof.
  intros s o.
  assert (H1 : BSPFileLoader.count (BSPFileLoader.vertices Sample.levelHeader)
               = {| BSPFileLoader.count_bytes := 12 * 4; BSPFileLoader.count_size := 12 |})
    by reflexivity.
  assert (H2 : 0 <= 4 < 2 ^ 32) by lia.
  assert (H3 : 0 <= o) by (vm_compute; intro; discriminate).
  assert (H4 : o + 12 * 4 <= byteLength Sample.levelFile)
    by (vm_compute; intro; discriminate).
  split; [exact (conj H1 (conj H2 (conj H3 H4)))|].
  destruct (bsp_readVertices_section Sample.levelFile Sample.levelHeader s 4 H1 H2 H3 H4)
    as (vs & E & Hl & _).
  exists vs. split; [exact E | exact Hl].
Defined.

(** An edge list of 26 bytes: six entries are kept, seven are read. *)
Lemma bsp_readLedges_section_witness :
  let s := {| cursor := 0; host := Sample.emptyBspHost (num := Q) |} in
  let hd := Sample.levelHeaderWith 26 in
  let o := BSPFileLoader.offset (BSPFileLoader.ledges hd) in
  (BSPFileLoader.count (BSPFileLoader.ledges hd)
   = {| BSPFileLoader.count_bytes := 26; BSPFileLoader.count_size := 4 |}
   /\ 0 <= 26
   /\ 0 <= o
   /\ o + 4 * ((26 + 3) / 4) <= byteLength Sample.levelFile)
  /\ exists ls,
       BSPFileLoader.readLedges Sample.levelFile hd s
       = (Ok ls, {| cursor := 296 + 28; host := Sample.emptyBspHost |})
       /\ Z.of_nat (length ls) = 6.
Proof.
  intros s hd o.
  assert (H1 : BSPFileLoader.count (BSPFileLoader.ledges hd)
               = {| BSPFileLoader.count_bytes := 26; BSPFileLoader.count_size := 4 |})
    by reflexivity.
  assert (H2 : 0 <= 26) by lia.
  assert (H3 : 0 <= o) by (vm_compute; intro; discriminate).
  assert (H4 : o + 4 * ((26 + 3) / 4) <= byteLength Sample.levelFile)
    by (vm_compute; intro; discriminate).
  split; [exact (conj H1 (conj H2 (conj H3 H4)))|].
  destruct (bsp_readLedges_section Sample.levelFile hd s 26 H1 H2 H3 H4)
    as (ls & E & Hl & _).
  exists ls. split; [exact E | exact Hl].
Defined.

(** The two faces of the sample level. *)
Lemma bsp_readFaces_offsets_witness :
  let s := {| cursor := 0; host := Sample.emptyBspHost (num := Q) |} in
  let s' := {| cursor := 272; host := Sample.emptyBspHost (num := Q) |} in
  (BSPFileLoader.readFaces Sample.levelFile Sample.levelHeader s
   = (Ok (Sample.levelFaces, (Sample.levelFaceOffsets, 3)), s')
   /\ Forall (fun face => 2 <= BSPFileLoader.numLedges face) Sample.levelFaces
   /\ 3 < 2 ^ 32)
  /\ 3 = triangleCount Sample.levelFaces
  /\ OffsetsOk Sample.levelFaces Sample.levelFaceOffsets 3.
Proof.
  intros s s'.
  assert (H1 : BSPFileLoader.readFaces Sample.levelFile Sample.levelHeader s
               = (Ok (Sample.levelFaces, (Sample.levelFaceOffsets, 3)), s'))
    by (vm_compute; reflexivity).
  assert (H2 : Forall (fun face => 2 <= BSPFileLoader.numLedges face) Sample.levelFaces)
    by (repeat constructor; vm_compute; intro; discriminate).
  assert (H3 : 3 < 2 ^ 32) by lia.
  split; [exact (conj H1 (conj H2 H3))|].
  exact (bsp_readFaces_offsets Sample.levelFile Sample.levelHeader s s'
           Sample.levelFaces Sample.levelFaceOffsets 3 H1 H2 H3).
Defined.

(** The tables of the sample level resolve. *)
Lemma levelTables_well_formed :
  WellFormedTables Sample.levelVertices Sample.levelEdges [Sample.levelTexinfo]
    [Sample.levelMiptex] Sample.levelLedges Sample.levelFaces.
Proof.
  split; [|split].
  - repeat constructor; vm_compute; first [reflexivity | intro; discriminate].
  - repeat constructor; vm_compute; reflexivity.
  - repeat constructor; try (vm_compute; intro; discriminate).
    + exists Sample.levelTexinfo, Sample.levelMiptex. split; reflexivity.
    + exists Sample.levelTexinfo, Sample.levelMiptex. split; reflexivity.
Qed.

Lemma bsp_well_formed_tables_build_witness :
  (WellFormedTables Sample.levelVertices Sample.levelEdges [Sample.levelTexinfo]
     [Sample.levelMiptex] Sample.levelLedges Sample.levelFaces
   /\ OffsetsOk Sample.levelFaces Sample.levelFaceOffsets 3
   /\ 0 < 3)
  /\ exists vd subMeshes,
       BSPFileLoader.buildGeometry Sample.levelVertices Sample.levelEdges
         [Sample.levelTexinfo] [Sample.levelMiptex] Sample.levelLedges Sample.levelFaces
         Sample.levelFaceOffsets 3 = ROk vd
       /\ BSPFileLoader.buildSubMeshes [Sample.levelTexinfo] Sample.levelFaces
            Sample.levelFaceOffsets (BSPFileLoader.applyToMesh vd) = ROk (Some subMeshes)
       /\ length subMeshes = 5%nat.
Proof.
  assert (H1 := levelTables_well_formed).
  assert (H2 := levelOffsets_ok).
  assert (H3 : 0 < 3) by lia.
  split; [exact (conj H1 (conj H2 H3))|].
  destruct (bsp_well_formed_tables_build Sample.levelVertices Sample.levelEdges
              [Sample.levelTexinfo] [Sample.levelMiptex] Sample.levelLedges
              Sample.levelFaces Sample.levelFaceOffsets 3 H1 H2 H3)
    as (vd & sms & E1 & _ & E2 & Hl).
  exists vd, sms. split; [exact E1|]. split; [exact E2 | exact Hl].
Defined.

(** The one texture of the sample level, 8 x 4 pixels at byte 372. *)
Lemma bsp_readMaterials_pictures_witness :
  let s := {| cursor := 0; host := Sample.emptyBspHost (num := Q) |} in
  (0 <= 1
   /\ forall i, 0 <= i < 1 ->
        exists m,
          zget [Sample.levelMiptex] i = Some m
          /\ 0 <= pixelsOffset Sample.levelHeader [8] i m
          /\ 0 <= BSPFileLoader.miptex_width m * BSPFileLoader.miptex_height m
          /\ pixelsOffset Sample.levelHeader [8] i m
             + BSPFileLoader.miptex_width m * BSPFileLoader.miptex_height m
             <= byteLength Sample.levelFile)
  /\ exists materials s',
       BSPFileLoader.readMaterials Sample.levelFile Sample.levelHeader 1 [8]
         [Sample.levelMiptex] s = (Ok materials, s')
       /\ Z.of_nat (length materials) = 1.
Proof.
  intros s.
  assert (H1 : 0 <= 1) by lia.
  assert (H2 : forall i, 0 <= i < 1 ->
                 exists m,
                   zget [Sample.levelMiptex] i = Some m
                   /\ 0 <= pixelsOffset Sample.levelHeader [8] i m
                   /\ 0 <= BSPFileLoader.miptex_width m * BSPFileLoader.miptex_height m
                   /\ pixelsOffset Sample.levelHeader [8] i m
                      + BSPFileLoader.miptex_width m * BSPFileLoader.miptex_height m
                      <= byteLength Sample.levelFile).
  { intros i Hi. assert (i = 0) by lia. subst i. exists Sample.levelMiptex.
    split; [reflexivity|]. repeat split; vm_compute; intro; discriminate. }
  split; [exact (conj H1 H2)|].
  destruct (bsp_readMaterials_pictures Sample.levelFile Sample.levelHeader 1 [8]
              [Sample.levelMiptex] s H1 H2) as (materials & s' & E & _ & Hl & _).
  exists materials, s'. split; [exact E | exact Hl].
Defined.



(** The six edges, the texture info and the plane of the sample level. *)
Lemma bsp_record_sections_witness :
  let s := {| cursor := 0; host := Sample.emptyBspHost (num := Q) |} in
  (wholeSection Sample.levelFile (BSPFileLoader.edges Sample.levelHeader) 4 6
   /\ wholeSection Sample.levelFile (BSPFileLoader.texinfo Sample.levelHeader) 40 1
   /\ wholeSection Sample.levelFile (BSPFileLoader.planes Sample.levelHeader) 20 1)
  /\ exists es,
       BSPFileLoader.readEdges Sample.levelFile Sample.levelHeader s
       = (Ok es, {| cursor := 296; host := Sample.emptyBspHost |})
       /\ Z.of_nat (length es) = 6.
Proof.
  intros s.
  assert (H1 : wholeSection Sample.levelFile (BSPFileLoader.edges Sample.levelHeader) 4 6).
  { split; [reflexivity|]. split; [lia|].
    split; vm_compute; intro; discriminate. }
  assert (H2 : wholeSection Sample.levelFile (BSPFileLoader.texinfo Sample.levelHeader) 40 1).
  { split; [reflexivity|]. split; [lia|].
    split; vm_compute; intro; discriminate. }
  assert (H3 : wholeSection Sample.levelFile (BSPFileLoader.planes Sample.levelHeader) 20 1).
  { split; [reflexivity|]. split; [lia|].
    split; vm_compute; intro; discriminate. }
  split; [exact (conj H1 (conj H2 H3))|].
  destruct (bsp_record_sections (N := ExactNumber) Sample.levelFile Sample.levelHeader s
              6 1 1 H1 H2 H3)
    as ((es & E & Hl & _) & _).
  exists es. split; [exact E | exact Hl].
Defined.

(** The one texture of the sample level, 8 by 4, called [w]. *)
Lemma bsp_readMiptexs_records_witness :
  let s := {| cursor := 0; host := Sample.emptyBspHost (num := Q) |} in
  let start i := BSPFileLoader.offset (BSPFileLoader.miptex Sample.levelHeader)
                 + BSPFileLoader.offsetAt [8] i in
  (0 <= 1
   /\ forall i, 0 <= i < 1 -> 0 <= start i /\ start i + 40 <= byteLength Sample.levelFile)
  /\ exists ms s',
       BSPFileLoader.readMiptexs Sample.levelFile Sample.levelHeader 1 [8] s = (Ok ms, s')
       /\ zget ms 0
          = Some {| BSPFileLoader.miptex_name := [119];
                    BSPFileLoader.miptex_width := 8;
                    BSPFileLoader.miptex_height := 4;
                    BSPFileLoader.miptex_offsets := (40, 0, 0, 0) |}.
Proof.
  intros s start.
  assert (H1 : 0 <= 1) by lia.
  assert (H2 : forall i, 0 <= i < 1 ->
                 0 <= start i /\ start i + 40 <= byteLength Sample.levelFile).
  { intros i Hi. assert (i = 0) as -> by lia.
    split; vm_compute; intro; discriminate. }
  split; [exact (conj H1 H2)|].
  destruct (bsp_readMiptexs_records (num := Q) Sample.levelFile Sample.levelHeader 1 [8] s
              H1 H2)
    as (ms & s' & E & _ & _ & Hall).
  exists ms, s'. split; [exact E|].
  rewrite (Hall 0 ltac:(lia)). vm_compute. reflexivity.
Defined.


(** The seam model in the arithmetic of the loader: a skin 4 texels wide,
    the seam vertex at texel 1. *)
Lemma seamModel_single :
  SingleFrameModel (N := Ieee.IeeeNumber) (Sample.seamModel 4 1).
Proof.
  unfold SingleFrameModel. cbv zeta.
  set (hd := headerAt (Sample.seamModel 4 1) 8).
  assert (E1 : MDLFileLoader.numSkins hd = 0) by (vm_compute; reflexivity).
  assert (E2 : MDLFileLoader.skinWidth hd = 4) by (vm_compute; reflexivity).
  assert (E3 : MDLFileLoader.skinHeight hd = 1) by (vm_compute; reflexivity).
  assert (E4 : MDLFileLoader.numVertices hd = 1) by (vm_compute; reflexivity).
  assert (E5 : MDLFileLoader.numTriangles hd = 2) by (vm_compute; reflexivity).
  assert (E6 : MDLFileLoader.numFrames hd = 1) by (vm_compute; reflexivity).
  unfold modelEnd, framesOffset, trianglesOffset, uvsOffset, frameBytes, skinBytes.
  rewrite E1, E2, E3, E4, E5, E6.
  split; [vm_compute; reflexivity|]. split; [vm_compute; reflexivity|].
  repeat (split; [lia|]).
  split; [vm_compute; intro; discriminate|].
  split; [intros k Hk; lia|].
  intros f Hf. assert (f = 0) by lia. subst f.
  split; [vm_compute; reflexivity|].
  intros i Hi. assert (i = 0) by lia. subst i. vm_compute. reflexivity.
Qed.

Lemma mdl_seam_uv_witness :
  (SingleFrameModel (N := Ieee.IeeeNumber) (Sample.seamModel 4 1)
   /\ MDLFileLoader.meshes (Sample.emptyMdlHost (num := spec_float)) = Some [])
  /\ exists target u1 u2,
       MDLFileLoader.managers
         (host (snd (MDLFileLoader.importMesh (N := Ieee.IeeeNumber)
                       (Sample.seamModel 4 1) Sample.emptyMdlHost)))
       = [[target]]
       /\ zget (MDLFileLoader.target_uvs target) (2 * (3 * 0 + 0)) = Some u1
       /\ zget (MDLFileLoader.target_uvs target) (2 * (3 * 1 + 0)) = Some u2
       /\ Ieee.toQ u1 = (3 # 8)%Q
       /\ Ieee.toQ u2 = (7 # 8)%Q.
Proof.
  assert (H1 := seamModel_single).
  assert (H2 : MDLFileLoader.meshes (Sample.emptyMdlHost (num := spec_float)) = Some [])
    by reflexivity.
  split; [exact (conj H1 H2)|].
  destruct (mdl_seam_uv (N := Ieee.IeeeNumber) (Sample.seamModel 4 1) Sample.emptyMdlHost
              [] H1 H2)
    as (mesh & targets & E & Hl & _ & Hseam).
  rewrite E. cbn [snd host MDLFileLoader.managers Sample.emptyMdlHost app].
  replace (MDLFileLoader.numFrames (headerAt (Sample.seamModel 4 1) 8)) with 1 in Hl
    by (vm_compute; reflexivity).
  destruct targets as [|target [|target' rest]];
    [cbn [length] in Hl; lia | | cbn [length] in Hl; lia].
  destruct (Hseam target 0 0 1 0 0) as [[Hu1 _] [Hu2 _]];
    try (vm_compute; first [reflexivity | split; [intro; discriminate | reflexivity]]).
  { left. reflexivity. }
  cbn [fst] in Hu1, Hu2.
  eexists. eexists. eexists. split; [reflexivity|].
  split; [exact Hu1|]. split; [exact Hu2|].
  split; vm_compute; reflexivity.
Defined.



